(** * Query replay and execution-plan diagnostics

    A shallow embedding of the explain route of the profiler API
    (routes/profiler.js: [router.get('/explain')] and its helpers
    [extractIndexesUsed], [isCollectionScan], [calculateEfficiency],
    [generateIndexRecommendations], [extractExecutionStages]), of the
    listing route [router.get('/')] of the same file, of the utilities
    of the profiler schema module ([calculateQueryEfficiency],
    [transformProfilerData], [formatQuery], [validateProfilerQuery],
    [categorizeQueryPerformance]), of the connection module
    (models/database.js), of the index routes (routes/indexes.js), of
    the efficiency reported by the analytics routes
    (routes/analytics.js), of the start of the server (server.js) and
    of what the table and the detail view of the front end derive from a
    listed row.

    JavaScript numbers are IEEE-754 binary64 values and are modelled by the
    primitive floats of the kernel, so that [/], [*] and the comparisons
    below are the operations the program runs.  Objects received from the
    storage engine are records whose optional fields are [option]s
    ([None] is [undefined]): counters are numbers, names are strings.
    Free-form documents (the logged command) are values of the type
    [value].

    The profiling log and the explain call of the driver are parameters
    of the handler: [findOne] resolves to a document or to [null] or is
    rejected, the explain call resolves to a result or throws.  The
    handler is taken in a process that serves, where [getDatabase]
    returns a handle (module [Lifecycle]).  In the same way the
    other calls of the driver and the built-in functions whose result
    the program only passes on ([JSON.stringify], [Date.parse],
    [parseInt], [Date.now], [Array.prototype.sort]) are parameters of
    the sections that use them. *)

From Stdlib Require Import ZArith List String Ascii Bool Lia.
From Stdlib Require Import Uint63 Floats DecimalString DecimalNat Permutation.
Import ListNotations.

Set Warnings "-register-all".

Local Open Scope string_scope.
Local Open Scope list_scope.

(* ================================================================== *)
(** ** JavaScript values and operators used by the routes *)
(* ================================================================== *)

Module JS.

(** A number is falsy when it is [+0], [-0] or [NaN]. *)
Definition truthy_float (f : float) : bool :=
  PrimFloat.eqb f f && negb (PrimFloat.eqb f 0%float).

(** Truthiness of an optional numeric field ([undefined] is falsy). *)
Definition truthy_num (x : option float) : bool :=
  match x with
  | Some f => truthy_float f
  | None => false
  end.

(** [a || b] on optional numbers. *)
Definition or_num (a b : option float) : option float :=
  if truthy_num a then a else b.

(** [a || 0], the end of every counter chain. *)
Definition or_zero (a : option float) : float :=
  match a with
  | Some f => if truthy_float f then f else 0%float
  | None => 0%float
  end.

(** Truthiness of an optional string field (the empty string is falsy). *)
Definition truthy_str (x : option string) : bool :=
  match x with
  | Some s => negb (String.eqb s EmptyString)
  | None => false
  end.

(** [a || null] on an optional string: falsy values collapse to [None]. *)
Definition or_null (a : option string) : option string :=
  if truthy_str a then a else None.

(** An integer below 2^53, as the number that represents it exactly. *)
Definition float_of_Z (n : Z) : float := PrimFloat.of_uint63 (Uint63.of_Z n).

(** [Math.round]: the closest integral number, ties towards +Infinity;
    NaN, the infinities and the zeros are returned as they are, and so is
    a number whose exponent is non-negative (it is integral already). *)
Definition Math_round (x : float) : float :=
  match Prim2SF x with
  | S754_finite s m e =>
      if (0 <=? e)%Z then x
      else
        let k := (- e)%Z in
        let q := Z.shiftr (Zpos m) k in
        let r := Z.land (Zpos m) (Z.ones k) in
        let half := Z.shiftl 1 (k - 1) in
        if s
        then PrimFloat.opp (float_of_Z (if (half <? r)%Z then q + 1 else q))
        else float_of_Z (if (half <=? r)%Z then q + 1 else q)
  | _ => x
  end.

(** [Math.max] and [Math.min] of two numbers: NaN if either is NaN, and
    [-0] counts as smaller than [+0]. *)
Definition Math_max (x y : float) : float :=
  if negb (PrimFloat.eqb x x) || negb (PrimFloat.eqb y y) then nan
  else if PrimFloat.ltb x y then y
  else if PrimFloat.ltb y x then x
  else if get_sign x then y else x.

Definition Math_min (x y : float) : float :=
  if negb (PrimFloat.eqb x x) || negb (PrimFloat.eqb y y) then nan
  else if PrimFloat.ltb x y then x
  else if PrimFloat.ltb y x then y
  else if get_sign x then x else y.

(** Free-form JSON-like values: the logged command of a profiled
    operation.  An object is the list of its own properties in the
    order of their enumeration: the keys that are array indices first,
    in ascending order, then the other keys in the order of their
    creation. *)
Inductive value : Type :=
| VUndefined
| VNull
| VBool (b : bool)
| VNumber (f : float)
| VString (s : string)
| VArray (items : list value)
| VObject (props : list (string * value)).

Definition document := list (string * value).

Definition truthy (v : value) : bool :=
  match v with
  | VUndefined | VNull => false
  | VBool b => b
  | VNumber f => truthy_float f
  | VString s => negb (String.eqb s EmptyString)
  | VArray _ | VObject _ => true
  end.

(** [a || b]. *)
Definition or (a b : value) : value := if truthy a then a else b.

(** [doc.key] on a document: the property, or [undefined]. *)
Fixpoint get (doc : document) (key : string) : value :=
  match doc with
  | [] => VUndefined
  | (k, v) :: rest => if String.eqb k key then v else get rest key
  end.

(** [Array.isArray]. *)
Definition Array_isArray (v : value) : bool :=
  match v with
  | VArray _ => true
  | _ => false
  end.

(** The decimal name of an array index. *)
Definition index_key (i : nat) : string :=
  NilEmpty.string_of_uint (Nat.to_uint i).

(** Characters of a string, one property per character. *)
Fixpoint chars (s : string) : list string :=
  match s with
  | EmptyString => []
  | String c rest => String c EmptyString :: chars rest
  end.

(** The own enumerable properties of a value, as [Object.keys] and the
    spread [{...v}] see them: the properties of an object, the indexed
    items of an array, the indexed characters of a string, nothing for
    the other primitives. *)
Definition own_props (v : value) : list (string * value) :=
  match v with
  | VObject props => props
  | VArray items =>
      combine (map index_key (seq 0 (List.length items))) items
  | VString s =>
      combine (map index_key (seq 0 (String.length s))) (map VString (chars s))
  | _ => []
  end.

(** [Object.keys]. *)
Definition Object_keys (v : value) : list string := map fst (own_props v).

(** The array index a property key stands for, if it is one: the
    canonical decimal numeral of an integer from 0 to 2^32 - 2. *)
Definition array_index (key : string) : option N :=
  match NilEmpty.uint_of_string key with
  | Some d =>
      let n := N.of_uint d in
      if String.eqb (NilEmpty.string_of_uint (N.to_uint n)) key
         && (n <=? 4294967294)%N
      then Some n else None
  | None => None
  end.

(** The value of an existing property is replaced where it stands. *)
Fixpoint update (target : document) (key : string) (v : value) : document :=
  match target with
  | [] => []
  | (k, w) :: rest =>
      if String.eqb k key then (k, v) :: rest else (k, w) :: update rest key v
  end.

(** A new property whose key is the array index [n] goes after the
    smaller array indices. *)
Fixpoint place (target : document) (key : string) (n : N) (v : value)
    : document :=
  match target with
  | [] => [(key, v)]
  | (k, w) :: rest =>
      match array_index k with
      | Some m =>
          if (m <? n)%N then (k, w) :: place rest key n v
          else (key, v) :: target
      | None => (key, v) :: target
      end
  end.

(** [target[key] = v] on an object under construction: an existing
    property keeps its place; a new one goes last, unless its key is an
    array index, which is enumerated with the array indices, before the
    other keys. *)
Definition assign (target : document) (key : string) (v : value) : document :=
  if existsb (String.eqb key) (map fst target) then update target key v
  else
    match array_index key with
    | Some n => place target key n v
    | None => target ++ [(key, v)]
    end.

(** [{ ...a, ...b }]. *)
Definition spread2 (a b : value) : value :=
  VObject (fold_left (fun acc kv => assign acc (fst kv) (snd kv))
                     (own_props a ++ own_props b) []).

(** [new Set(items)] followed by a spread back into an array: items in
    the order of their first insertion. *)
Definition Set_add (s : list string) (x : string) : list string :=
  if existsb (String.eqb x) s then s else s ++ [x].

Definition Set_of (items : list string) : list string :=
  fold_left Set_add items [].

(** [s.split('.', 2)]: the pieces between the separators, at most two. *)
Fixpoint split_dot_aux (s : string) (piece : string) : list string :=
  match s with
  | EmptyString => [piece]
  | String c rest =>
      if Ascii.eqb c "."%char
      then piece :: split_dot_aux rest EmptyString
      else split_dot_aux rest (piece ++ String c EmptyString)
  end.

Definition split_dot2 (s : string) : list string :=
  firstn 2 (split_dot_aux s EmptyString).

End JS.

(* ================================================================== *)
(** ** routes/profiler.js: data received from the storage engine *)
(* ================================================================== *)

Module Profiler.
Import JS.

(** A node of the stage tree of an explain result.  A node may carry a
    single child ([inputStage]), an ordered list of children
    ([inputStages]), both or none. *)
Inductive Stage : Type := mkStage {
  stage : option string;
  executionTimeMillisEstimate : option float;
  works : option float;
  advanced : option float;
  needTime : option float;
  needYield : option float;
  isEOF : option float;
  indexName : option string;
  direction : option string;
  docsExamined : option float;
  keysExamined : option float;
  inputStage : option Stage;
  inputStages : option (list Stage)
}.

(** [explainResult.executionStats]. *)
Record ExecutionStats : Type := mkExecutionStats {
  executionTimeMillis : option float;
  totalKeysExamined : option float;
  totalDocsExamined : option float;
  totalDocsReturned : option float;
  executionStages : option Stage
}.

(** What the explain call of the driver resolves to. *)
Record ExplainResult : Type := mkExplainResult {
  queryPlanner : option value;
  executionStats : option ExecutionStats;
  serverInfo : option value
}.

(** The [_id] of a document of the profiling log. *)
Inductive DocId : Type :=
| IdObjectId (hex : string)
| IdString (s : string).

(** A document of [system.profile]; its fields live in the module [Doc]
    because the stage nodes have counters of the same names. *)
Module Doc.
Record ProfileDoc : Type := mk {
  _id : option DocId;
  ts : value;
  op : option string;
  ns : option string;
  command : option document;
  query : option document;
  millis : option float;
  keysExamined : option float;
  docsExamined : option float;
  docsReturned : option float;
  planSummary : value;
  client : value;
  user : value
}.
End Doc.
Abbreviation ProfileDoc := Doc.ProfileDoc.

(** [explainResult.executionStats || {}], read field by field. *)
Definition emptyStats : ExecutionStats :=
  mkExecutionStats None None None None None.

Definition stats_or_empty (explainResult : ExplainResult) : ExecutionStats :=
  match executionStats explainResult with
  | Some stats => stats
  | None => emptyStats
  end.

(** [explainResult.executionStats?.field]. *)
Definition stats_field {A : Type} (field : ExecutionStats -> option A)
    (explainResult : ExplainResult) : option A :=
  match executionStats explainResult with
  | Some stats => field stats
  | None => None
  end.

(* ------------------------------------------------------------------ *)
(** *** extractIndexesUsed *)

(** The inner [traverseStages]: [indexes] is the array the closure
    pushes to, threaded through the calls. *)
Fixpoint traverseIndexes (s : Stage) (indexes : list string) : list string :=
  let indexes1 :=
    match indexName s with
    | Some name =>
        if String.eqb name EmptyString then indexes else indexes ++ [name]
    | None => indexes
    end in
  let indexes2 :=
    match inputStage s with
    | Some child => traverseIndexes child indexes1
    | None => indexes1
    end in
  match inputStages s with
  | Some children =>
      fold_left (fun acc child => traverseIndexes child acc) children indexes2
  | None => indexes2
  end.

Definition extractIndexesUsed (explainResult : ExplainResult) : list string :=
  let indexes :=
    match stats_field executionStages explainResult with
    | Some root => traverseIndexes root []
    | None => []
    end in
  Set_of indexes.

(* ------------------------------------------------------------------ *)
(** *** isCollectionScan *)

Definition is_COLLSCAN (name : option string) : bool :=
  match name with
  | Some s => String.eqb s "COLLSCAN"
  | None => false
  end.

(** [checkForCollScan]: each test returns, so a node with a single child
    never looks at its list of children. *)
Fixpoint checkForCollScan (s : Stage) : bool :=
  if is_COLLSCAN (stage s) then true
  else
    match inputStage s with
    | Some child => checkForCollScan child
    | None =>
        match inputStages s with
        | Some children => existsb checkForCollScan children
        | None => false
        end
    end.

Definition isCollectionScan (explainResult : ExplainResult) : bool :=
  match stats_field executionStages explainResult with
  | Some root => checkForCollScan root
  | None => false
  end.

(* ------------------------------------------------------------------ *)
(** *** calculateEfficiency *)

Definition calculateEfficiency (explainResult : ExplainResult)
    (profileDoc : ProfileDoc) : float :=
  let stats := stats_or_empty explainResult in
  let examined :=
    or_zero (or_num (totalDocsExamined stats) (Doc.docsExamined profileDoc)) in
  let returned :=
    or_zero (or_num (totalDocsReturned stats) (Doc.docsReturned profileDoc)) in
  if PrimFloat.eqb examined 0 then 100%float
  else if PrimFloat.eqb returned 0 then 0%float
  else Math_round ((returned / examined) * 100)%float.

(* ------------------------------------------------------------------ *)
(** *** generateIndexRecommendations *)

(** The texts of a recommendation.  The two template literals of the
    low-efficiency rule are kept with the numbers they interpolate:
    [LowEfficiency e] is [`Query efficiency is low (${e.toFixed(1)}%)`]
    and [Examining x r] is
    [`Examining ${x} documents to return ${r} results`]. *)
Inductive Text : Type :=
| Literal (s : string)
| LowEfficiency (efficiency : float)
| Examining (examined returned : float).

Module Recommendation.
Record t : Type := mk {
  type : string;
  priority : string;
  message : Text;
  suggestedIndex : option value;
  reason : Text
}.
End Recommendation.

(** [command.filter || command.query || command.q || {}]. *)
Definition recommendationFilter (command : document) : value :=
  or (or (or (get command "filter") (get command "query")) (get command "q"))
     (VObject []).

(** [command.sort || {}]. *)
Definition recommendationSort (command : document) : value :=
  or (get command "sort") (VObject []).

Definition missingIndex (filter : value) : Recommendation.t :=
  Recommendation.mk "missing_index" "high"
    (Literal "Consider creating an index on the query filter fields")
    (Some filter)
    (Literal "Collection scan detected - query is examining all documents").

Definition sortIndex (filter sort : value) : Recommendation.t :=
  Recommendation.mk "sort_index" "medium"
    (Literal "Consider creating an index to support sorting")
    (Some (spread2 filter sort))
    (Literal "Sort operation may benefit from an index").

Definition lowEfficiency (efficiency examined returned : float)
    : Recommendation.t :=
  Recommendation.mk "low_efficiency" "medium"
    (LowEfficiency efficiency) None (Examining examined returned).

(** [recommendations] is the array under construction; each [push]
    appends. *)
Definition generateIndexRecommendations (explainResult : ExplainResult)
    (command : document) : list Recommendation.t :=
  let recommendations := [] in
  let recommendations :=
    if isCollectionScan explainResult then
      let filter := recommendationFilter command in
      let sort := recommendationSort command in
      let recommendations :=
        if (0 <? List.length (Object_keys filter))%nat
        then recommendations ++ [missingIndex filter]
        else recommendations in
      if (0 <? List.length (Object_keys sort))%nat
      then recommendations ++ [sortIndex filter sort]
      else recommendations
    else recommendations in
  let stats := stats_or_empty explainResult in
  let examined := or_zero (totalDocsExamined stats) in
  let returned := or_zero (totalDocsReturned stats) in
  if PrimFloat.ltb 0 examined && PrimFloat.ltb 0 returned then
    let efficiency := ((returned / examined) * 100)%float in
    if PrimFloat.ltb efficiency 10
    then recommendations ++ [lowEfficiency efficiency examined returned]
    else recommendations
  else recommendations.

(* ------------------------------------------------------------------ *)
(** *** extractExecutionStages *)

Module Entry.
Record t : Type := mk {
  stage : option string;
  depth : nat;
  executionTimeMillisEstimate : float;
  works : float;
  advanced : float;
  needTime : float;
  needYield : float;
  isEOF : value;
  indexName : option string;
  direction : option string;
  docsExamined : float;
  keysExamined : float
}.
End Entry.

(** The object literal pushed for a node visited at [depth]. *)
Definition entryOf (s : Stage) (depth : nat) : Entry.t :=
  Entry.mk (stage s) depth
    (or_zero (executionTimeMillisEstimate s))
    (or_zero (works s))
    (or_zero (advanced s))
    (or_zero (needTime s))
    (or_zero (needYield s))
    (match isEOF s with
     | Some f => if truthy_float f then VNumber f else VBool false
     | None => VBool false
     end)
    (or_null (indexName s))
    (or_null (direction s))
    (or_zero (docsExamined s))
    (or_zero (keysExamined s)).

(** The inner [traverseStages]: [stages] is the array the closure pushes
    to, threaded through the calls. *)
Fixpoint traverseStages (s : Stage) (depth : nat) (stages : list Entry.t)
    : list Entry.t :=
  let stages1 := stages ++ [entryOf s depth] in
  let stages2 :=
    match inputStage s with
    | Some child => traverseStages child (depth + 1) stages1
    | None => stages1
    end in
  match inputStages s with
  | Some children =>
      fold_left (fun acc child => traverseStages child (depth + 1) acc)
                children stages2
  | None => stages2
  end.

Definition extractExecutionStages (explainResult : ExplainResult)
    : list Entry.t :=
  match stats_field executionStages explainResult with
  | Some root => traverseStages root 0 []
  | None => []
  end.

(* ------------------------------------------------------------------ *)
(** *** The body of the response of the explain route *)

Module Performance.
Record t : Type := mk {
  executionTimeMillis : float;
  totalKeysExamined : float;
  totalDocsExamined : float;
  totalDocsReturned : float;
  indexesUsed : list string;
  isCollectionScan : bool;
  efficiency : float
}.
End Performance.

Module ExplainPlan.
Record t : Type := mk {
  queryPlanner : value;
  executionStats : ExecutionStats;
  serverInfo : value;
  performance : Performance.t;
  recommendations : list Recommendation.t;
  stages : list Entry.t
}.
End ExplainPlan.

Module ProfilerData.
Record t : Type := mk {
  timestamp : value;
  executionTime : float;
  planSummary : value;
  client : value;
  user : value
}.
End ProfilerData.

(** [explainPlan] is [None] for the [null] of a partial result. *)
Module Data.
Record t : Type := mk {
  queryId : string;
  namespace : string;
  operation : option string;
  originalQuery : document;
  explainPlan : option ExplainPlan.t;
  profilerData : ProfilerData.t
}.
End Data.

Module Body.
Record t : Type := mk {
  success : bool;
  error : option string;
  message : option string;
  data : Data.t
}.
End Body.

(** What the handler sends: a status with an error object, or a JSON
    body with status 200. *)
Inductive Response : Type :=
| Status400 (error message : string)
| Status404 (error message : string)
| Status500 (error message : string)
| Json (body : Body.t).

(** The performance block of a successful response. *)
Definition performanceOf (explainResult : ExplainResult)
    (profileDoc : ProfileDoc) : Performance.t :=
  Performance.mk
    (or_zero (or_num (stats_field executionTimeMillis explainResult)
                     (Doc.millis profileDoc)))
    (or_zero (or_num (stats_field totalKeysExamined explainResult)
                     (Doc.keysExamined profileDoc)))
    (or_zero (or_num (stats_field totalDocsExamined explainResult)
                     (Doc.docsExamined profileDoc)))
    (or_zero (or_num (stats_field totalDocsReturned explainResult)
                     (Doc.docsReturned profileDoc)))
    (extractIndexesUsed explainResult)
    (isCollectionScan explainResult)
    (calculateEfficiency explainResult profileDoc).

Definition profilerDataOf (profileDoc : ProfileDoc) : ProfilerData.t :=
  ProfilerData.mk (Doc.ts profileDoc) (or_zero (Doc.millis profileDoc))
    (Doc.planSummary profileDoc) (Doc.client profileDoc)
    (Doc.user profileDoc).

Definition or_empty (v : option value) : value :=
  match v with
  | Some x => or x (VObject [])
  | None => VObject []
  end.

(* ------------------------------------------------------------------ *)
(** *** The operation rebuilt from the logged command *)

(** The call made on the target collection before [.explain]. *)
Inductive ExplainRequest : Type :=
| Find (filter sort limit skip : value)
| UpdateMany (filter update : value)
| DeleteMany (filter : value)
| CountDocuments (filter : value)
| Aggregate (pipeline : value)
| FindOnly (filter : value).

(** A computation that may throw an [Error] with a message. *)
Inductive result (A : Type) : Type :=
| Ok (a : A)
| Throw (message : string).
Arguments Ok {A} a.
Arguments Throw {A} message.

Definition emptyObject : value := VObject [].

(** The [switch (profileDoc.op)] of the handler, up to the call of
    [.explain]. *)
Definition reconstruct (op : option string) (command : document)
    : result ExplainRequest :=
  let opIs name :=
    match op with
    | Some s => String.eqb s name
    | None => false
    end in
  if opIs "query" || opIs "find" then
    Ok (Find (or (or (get command "filter") (get command "query")) emptyObject)
             (or (get command "sort") emptyObject)
             (or (get command "limit") (VNumber 0))
             (or (get command "skip") (VNumber 0)))
  else if opIs "update" then
    Ok (UpdateMany (or (or (get command "q") (get command "filter")) emptyObject)
                   (or (or (get command "u") (get command "update")) emptyObject))
  else if opIs "delete" || opIs "remove" then
    Ok (DeleteMany (or (or (get command "q") (get command "filter")) emptyObject))
  else if opIs "count" then
    Ok (CountDocuments
          (or (or (get command "query") (get command "filter")) emptyObject))
  else if opIs "aggregate" then
    if truthy (get command "pipeline") && Array_isArray (get command "pipeline")
    then Ok (Aggregate (get command "pipeline"))
    else Throw "Invalid aggregation pipeline"
  else
    Ok (FindOnly (or (or (get command "filter") (get command "query")) emptyObject)).

(* ------------------------------------------------------------------ *)
(** *** router.get('/explain') *)

(** The two lookups the handler sends to the profiling log. *)
Inductive Query : Type :=
| ById (queryId : string)
| ByStringIdOrComment (queryId : string).

Section Route.

(** Whether [new ObjectId(queryId)] constructs an identifier (it throws
    otherwise); the class belongs to the driver, whose import is taken
    to succeed. *)
Variable ObjectId_valid : string -> bool.

(** [profileCollection.findOne]: the document found or [null], or the
    error with which the lookup is rejected. *)
Variable findOne : Query -> result (option ProfileDoc).

(** [.explain('executionStats')] on the rebuilt operation against a
    collection of a database: the explain result, or the error the
    engine raised. *)
Variable explain : string -> string -> ExplainRequest -> result ExplainResult.

(** The lookup of the profiler document.  The second [findOne] is in
    the [catch] of the [try] that holds the construction of the
    identifier and the first [findOne]: it is made when
    [new ObjectId(queryId)] throws and when the first lookup is
    rejected.  Its own rejection is thrown on to the handler. *)
Definition locate (queryId : string) : result (option ProfileDoc) :=
  if ObjectId_valid queryId then
    match findOne (ById queryId) with
    | Ok profileDoc => Ok profileDoc
    | Throw _ => findOne (ByStringIdOrComment queryId)
    end
  else findOne (ByStringIdOrComment queryId).

(** [profileDoc.command || profileDoc.query || {}]. *)
Definition commandOf (profileDoc : ProfileDoc) : document :=
  match Doc.command profileDoc with
  | Some c => c
  | None =>
      match Doc.query profileDoc with
      | Some q => q
      | None => []
      end
  end.

(** The [try] block after the collection is resolved: rebuild, explain,
    and either the transformed result or the thrown message. *)
Definition explainPlanOf (profileDoc : ProfileDoc) (command : document)
    (dbName collectionName : string) : result ExplainPlan.t :=
  match reconstruct (Doc.op profileDoc) command with
  | Throw msg => Throw msg
  | Ok request =>
      match explain dbName collectionName request with
      | Throw msg => Throw msg
      | Ok explainResult =>
          Ok (ExplainPlan.mk
                (or_empty (queryPlanner explainResult))
                (stats_or_empty explainResult)
                (or_empty (serverInfo explainResult))
                (performanceOf explainResult profileDoc)
                (generateIndexRecommendations explainResult command)
                (extractExecutionStages explainResult))
      end
  end.

(** The message that names the missing parameter between quotation
    marks. *)
Definition missingQueryId : string :=
  let quote := String (ascii_of_nat 34) EmptyString in
  "Parameter " ++ quote ++ "queryId" ++ quote ++ " is required".

(** The two bodies the handler sends with status 200. *)
Definition dataOf (queryId namespace : string) (profileDoc : ProfileDoc)
    (command : document) (plan : option ExplainPlan.t) : Data.t :=
  Data.mk queryId namespace (Doc.op profileDoc) command plan
          (profilerDataOf profileDoc).

Definition successBody (data : Data.t) : Body.t :=
  Body.mk true None None data.

Definition partialBody (message : string) (data : Data.t) : Body.t :=
  Body.mk false (Some "Failed to generate explain plan") (Some message) data.

Definition explainRoute (queryId : option string) : Response :=
  if truthy_str queryId then
    let queryId := match queryId with Some q => q | None => EmptyString end in
    match locate queryId with
    | Throw message => Status500 "Failed to retrieve explain plan" message
    | Ok None =>
        Status404 "Query not found"
                  ("No profiler data found for queryId: " ++ queryId)
    | Ok (Some profileDoc) =>
        let command := commandOf profileDoc in
        if truthy_str (Doc.ns profileDoc) then
          let namespace :=
            match Doc.ns profileDoc with Some s => s | None => EmptyString end in
          let pieces := split_dot2 namespace in
          let dbName := nth 0 pieces EmptyString in
          if truthy_str (nth_error pieces 1) then
            let collectionName := nth 1 pieces EmptyString in
            match explainPlanOf profileDoc command dbName collectionName with
            | Ok plan =>
                Json (successBody
                        (dataOf queryId namespace profileDoc command (Some plan)))
            | Throw msg =>
                Json (partialBody msg
                        (dataOf queryId namespace profileDoc command None))
            end
          else
            Status400 "Invalid namespace"
              ("Cannot parse collection from namespace: " ++ namespace)
        else
          Status400 "Invalid query data"
                    "Cannot determine collection from profiler data"
    end
  else Status400 "Missing required parameter" missingQueryId.

End Route.

(* ------------------------------------------------------------------ *)
(** *** An in-memory profiling log

    A list of documents searched in order, standing for the collection
    behind [findOne] where a concrete log is needed.  Identifiers are
    24 hexadecimal digits, written in lower case in the log. *)

Definition is_hex (c : ascii) : bool :=
  let n := nat_of_ascii c in
  ((48 <=? n) && (n <=? 57) || (97 <=? n) && (n <=? 102)
   || (65 <=? n) && (n <=? 70))%nat.

Definition hex24 (s : string) : bool :=
  (String.length s =? 24)%nat && forallb is_hex (list_ascii_of_string s).

Definition value_is_string (v : value) (s : string) : bool :=
  match v with
  | VString t => String.eqb t s
  | _ => false
  end.

Definition matches (q : Query) (d : ProfileDoc) : bool :=
  match q with
  | ById queryId =>
      match Doc._id d with
      | Some (IdObjectId hex) => String.eqb hex queryId
      | _ => false
      end
  | ByStringIdOrComment queryId =>
      match Doc._id d with
      | Some (IdString s) => String.eqb s queryId
      | _ => false
      end
      ||
      match Doc.command d with
      | Some c => value_is_string (get c "comment") queryId
      | None => false
      end
  end.

(** The log answers every lookup. *)
Definition memoryFindOne (log : list ProfileDoc) (q : Query)
    : result (option ProfileDoc) :=
  Ok (find (matches q) log).

(* ------------------------------------------------------------------ *)
(** *** Measures of a stage tree used in the statements *)

(** The children of a node in the order the traversals visit them. *)
Definition children (s : Stage) : list Stage :=
  match inputStage s with Some child => [child] | None => [] end
  ++ match inputStages s with Some l => l | None => [] end.

(** What a node contributes to the array of index names: its
    [indexName] when the field is truthy (present and not empty). *)
Definition pushedIndex (s : Stage) : list string :=
  match indexName s with
  | Some name => if String.eqb name EmptyString then [] else [name]
  | None => []
  end.

(** The number of nodes of a tree. *)
Fixpoint nodeCount (s : Stage) : nat :=
  1
  + match inputStage s with Some child => nodeCount child | None => 0 end
  + match inputStages s with
    | Some l => list_sum (map nodeCount l)
    | None => 0
    end.

(** [subtree t s]: [t] is [s] or one of its descendants. *)
Inductive subtree (t : Stage) : Stage -> Prop :=
| subtree_here : subtree t t
| subtree_child : forall s c, In c (children s) -> subtree t c -> subtree t s.

(** The position of the first occurrence of [x] in [l] (the length of [l]
    when there is none). *)
Fixpoint index_of (x : string) (l : list string) : nat :=
  match l with
  | [] => 0
  | y :: rest => if String.eqb y x then 0 else S (index_of x rest)
  end.

End Profiler.

(* ================================================================== *)
(** ** The profiler schema module: calculateQueryEfficiency *)
(* ================================================================== *)

Module Schema.
Import JS Profiler.

Definition calculateQueryEfficiency (doc : ProfileDoc) : float :=
  let keysExamined := or_zero (Doc.keysExamined doc) in
  let docsExamined := or_zero (Doc.docsExamined doc) in
  let docsReturned := or_zero (Doc.docsReturned doc) in
  if PrimFloat.eqb docsExamined 0 then 100%float
  else if PrimFloat.eqb docsReturned 0 then 0%float
  else
    let efficiency :=
      ((docsReturned / Math_max docsExamined keysExamined) * 100)%float in
    Math_min 100 (Math_max 0 efficiency).

End Schema.

(* ================================================================== *)
(** ** Statements of the specification and the inputs of the examples *)
(* ================================================================== *)

Module Examples.
Import JS Profiler.

(** A profiler document with the three counters given and nothing else. *)
Definition counters (keys examined returned : option float) : ProfileDoc :=
  Doc.mk None VUndefined None None None None None keys examined returned
         VUndefined VUndefined VUndefined.

(** An explain result whose summary reports the two counters. *)
Definition summary (examined returned : option float) : ExplainResult :=
  mkExplainResult None
    (Some (mkExecutionStats None None examined returned None)) None.

(** A node without children. *)
Definition leaf (name : string) : Stage :=
  mkStage (Some name) None None None None None None None None None None
          None None.

Definition indexScan (name index : string) : Stage :=
  mkStage (Some name) None None None None None None (Some index) None None None
          None None.

(** A node with a single child and two further children. *)
Definition fanIn : Stage :=
  mkStage (Some "SORT_MERGE") None None None None None None None None None None
          (Some (leaf "FETCH")) (Some [leaf "IXSCAN"; leaf "COLLSCAN"]).

(** Two index scans of [status_1] around one of [age_1]. *)
Definition orStage : Stage :=
  mkStage (Some "OR") None None None None None None None None None None
          None
          (Some [indexScan "IXSCAN" "status_1"; indexScan "IXSCAN" "age_1";
                 indexScan "IXSCAN" "status_1"]).

(** An index scan and a collection scan under one node. *)
Definition orScan : Stage :=
  mkStage (Some "OR") None None None None None None None None None None
          None (Some [leaf "IXSCAN"; leaf "COLLSCAN"]).

(** An explain result made of a stage tree alone. *)
Definition planOf (root : Stage) : ExplainResult :=
  mkExplainResult None
    (Some (mkExecutionStats None None None None (Some root))) None.

(** The scenario of a pending-orders query: 50000 documents examined for
    3 returned. *)
Definition pendingOrders : ProfileDoc :=
  Doc.mk (Some (IdObjectId "65a1b2c3d4e5f60718293a4b")) (VString "2025-01-01")
         (Some "find") (Some "shop.orders")
         (Some [("filter", VObject [("status", VString "pending")])]) None
         (Some 420%float) None (Some 50000%float) (Some 3%float)
         VUndefined VUndefined VUndefined.

(** Two explain results for that query: a collection scan of the 50000
    documents, and a scan of the index [status_1] that examined 3. *)
Definition scanOfOrders : ExplainResult :=
  mkExplainResult None
    (Some (mkExecutionStats (Some 400%float) (Some 0%float)
             (Some 50000%float) None (Some (leaf "COLLSCAN")))) None.

Definition indexScanOfOrders : ExplainResult :=
  mkExplainResult None
    (Some (mkExecutionStats (Some 1%float) (Some 3%float) (Some 3%float) None
             (Some (mkStage (Some "FETCH") None None None None None None None
                      None (Some 3%float) None
                      (Some (indexScan "IXSCAN" "status_1")) None)))) None.

(** An operation logged without an identifier of its own and tagged by
    its comment with 24 hexadecimal digits. *)
Definition taggedQuery : ProfileDoc :=
  Doc.mk None VUndefined (Some "find") (Some "shop.orders")
         (Some [("filter", VObject []);
                ("comment", VString "aaaaaaaaaaaaaaaaaaaaaaaa")]) None
         None None None None VUndefined VUndefined VUndefined.

(** A log whose lookups by document identifier are rejected. *)
Definition rejectsIds (message : string) (log : list ProfileDoc) (q : Query)
    : result (option ProfileDoc) :=
  match q with
  | ById _ => Throw message
  | ByStringIdOrComment _ => memoryFindOne log q
  end.


Definition updateWithTwoFilters : document :=
  [("filter", VObject []); ("q", VObject [("a", VNumber 1)])].

(** An engine whose explain call always resolves to the same result, and
    one that always rejects. *)
Definition explainReturns (r : ExplainResult)
    (dbName collectionName : string) (request : ExplainRequest)
    : result ExplainResult := Ok r.

Definition explainRejects (message : string)
    (dbName collectionName : string) (request : ExplainRequest)
    : result ExplainResult := Throw message.

End Examples.

Module Spec.
Import JS Profiler.

(** The filter carried by a rebuilt operation, if it carries one. *)
Definition requestFilter (request : ExplainRequest) : option value :=
  match request with
  | Find filter _ _ _ => Some filter
  | UpdateMany filter _ => Some filter
  | DeleteMany filter => Some filter
  | CountDocuments filter => Some filter
  | Aggregate _ => None
  | FindOnly filter => Some filter
  end.

(** The specification's pipeline: a non-empty sequence of stage
    documents. *)
Definition isStagePipeline (v : value) : bool :=
  match v with
  | VArray items =>
      negb (Nat.eqb (List.length items) 0)
      && forallb (fun item => match item with VObject _ => true | _ => false end)
                 items
  | _ => false
  end.

(** The filter of the operation rebuilt from a logged command (the
    empty filter when the operation carries none or is not rebuilt). *)
Definition rebuiltFilter (op : option string) (command : document) : value :=
  match reconstruct op command with
  | Ok request =>
      match requestFilter request with
      | Some filter => filter
      | None => VObject []
      end
  | Throw _ => VObject []
  end.

(** A string without the separator of namespaces. *)
Fixpoint dotless (s : string) : bool :=
  match s with
  | EmptyString => true
  | String c rest => negb (Ascii.eqb c "."%char) && dotless rest
  end.

(** A summary counter that is 0 or absent. *)
Definition zeroOrAbsent (counter : option float) : Prop :=
  match counter with
  | Some f => PrimFloat.eqb f 0 = true
  | None => True
  end.

(** The specification's efficiency, read on the summary counters of the
    explain result alone. *)
Definition summaryEfficiency (explainResult : ExplainResult) : float :=
  let examined := or_zero (stats_field totalDocsExamined explainResult) in
  let returned := or_zero (stats_field totalDocsReturned explainResult) in
  if PrimFloat.eqb examined 0 then 100%float
  else if PrimFloat.eqb returned 0 then 0%float
  else Math_round (100 * returned / examined)%float.

(** A counter as the storage engine reports it: a number that is not
    infinite, or no number at all. *)
Definition finiteCounter (counter : option float) : Prop :=
  match counter with
  | Some f => is_infinity f = false
  | None => True
  end.

End Spec.

(* ================================================================== *)
(** ** routes/profiler.js: the listing route *)
(* ================================================================== *)

Module Listing.
Import JS Profiler.

(** [doc.executionStats] of a profiler document. *)
Module DocStats.
Record t : Type := mk {
  keysExamined : option float;
  docsExamined : option float;
  docsReturned : option float
}.
End DocStats.

(** A document of [system.profile] with the further fields the listing
    and the schema module read. *)
Module Raw.
Record t : Type := mk {
  doc : ProfileDoc;
  duration : option float;
  executionStats : option DocStats.t;
  lockStats : option document;
  storage : value
}.
End Raw.

(** [doc.executionStats?.field]. *)
Definition docStats (field : DocStats.t -> option float) (raw : Raw.t)
    : option float :=
  match Raw.executionStats raw with
  | Some stats => field stats
  | None => None
  end.

(** [doc.command || doc.query || {}], as a value. *)
Definition loggedCommand (doc : ProfileDoc) : value :=
  match Doc.command doc with
  | Some c => VObject c
  | None =>
      match Doc.query doc with
      | Some q => VObject q
      | None => VObject []
      end
  end.

(** Truthiness of [doc._id] and its [toString()]. *)
Definition id_truthy (id : option DocId) : bool :=
  match id with
  | Some (IdObjectId _) => true
  | Some (IdString s) => negb (String.eqb s EmptyString)
  | None => false
  end.

Definition id_toString (id : DocId) : string :=
  match id with
  | IdObjectId hex => hex
  | IdString s => s
  end.

(** A non-negative integer as a template literal renders it. *)
Definition decimal (n : N) : string := NilEmpty.string_of_uint (N.to_uint n).

(** [`query_${Date.now()}_${index}`]. *)
Definition syntheticId (now : N) (index : nat) : string :=
  ("query_" ++ decimal now ++ "_" ++ index_key index)%string.

Module Row.
Record t : Type := mk {
  queryId : string;
  queryText : string;
  executionTime : float;
  keysExamined : float;
  docsExamined : float;
  docsReturned : float;
  ts : value;
  namespace : option string;
  operation : string;
  planSummary : value;
  originalDoc : Raw.t
}.
End Row.

(** [array.map((item, index) => f(index, item))], from [index]. *)
Fixpoint mapi {A B : Type} (f : nat -> A -> B) (index : nat) (l : list A)
    : list B :=
  match l with
  | [] => []
  | x :: rest => f index x :: mapi f (S index) rest
  end.

(** The filter sent to the profiling log and the cap on its answer. *)
Record ListQuery : Type := mkListQuery {
  qFrom : string;
  qTo : string;
  qCollection : option string;
  qLimit : float
}.

(** The [query] object echoed in the response. *)
Record QueryEcho : Type := mkQueryEcho {
  eFrom : string;
  eTo : string;
  eCollection : string;
  eLimit : float
}.

Inductive ListResponse : Type :=
| List400 (error message : string)
| List500 (error message : string)
| ListOk (data : list Row.t) (total : nat) (query : QueryEcho).

Section ListRoute.

(** [JSON.stringify] on a value. *)
Variable JSON_stringify : value -> string.

(** [Date.now()] when the row at an index is built. *)
Variable Date_now : nat -> N.

(** [parseInt] on the [limit] parameter of the request. *)
Variable parseInt : string -> float.

(** Taking the database handle, building the filter (dates, and the
    regular expression on the namespace when a collection is asked for)
    and running [find(query).sort({ ts: -1 }).limit(n).toArray()]: the
    documents, or the error thrown on the way. *)
Variable find : ListQuery -> result (list Raw.t).

(** The object built for the document at [index]. *)
Definition rowOf (index : nat) (raw : Raw.t) : Row.t :=
  let doc := Raw.doc raw in
  Row.mk
    (match Doc._id doc with
     | Some id =>
         if id_truthy (Some id) then id_toString id
         else syntheticId (Date_now index) index
     | None => syntheticId (Date_now index) index
     end)
    (JSON_stringify (loggedCommand doc))
    (or_zero (or_num (Doc.millis doc) (Raw.duration raw)))
    (or_zero (or_num (Doc.keysExamined doc) (docStats DocStats.keysExamined raw)))
    (or_zero (or_num (Doc.docsExamined doc) (docStats DocStats.docsExamined raw)))
    (or_zero (or_num (Doc.docsReturned doc) (docStats DocStats.docsReturned raw)))
    (Doc.ts doc)
    (Doc.ns doc)
    (match Doc.op doc with
     | Some s => if String.eqb s EmptyString then "unknown" else s
     | None => "unknown"
     end)
    (or (Doc.planSummary doc) VNull)
    raw.

(** [limit = 100] when the parameter is absent, then [parseInt(limit)]. *)
Definition limitOf (limit : option string) : float :=
  match limit with
  | Some s => parseInt s
  | None => 100%float
  end.

(** The message that names the two parameters between quotation marks. *)
Definition missingRange : string :=
  let quote := String (ascii_of_nat 34) EmptyString in
  ("Both " ++ quote ++ "from" ++ quote ++ " and " ++ quote ++ "to" ++ quote
   ++ " date parameters are required")%string.

Definition text (s : option string) : string :=
  match s with
  | Some t => t
  | None => EmptyString
  end.

Definition listRoute (from to collection limit : option string)
    : ListResponse :=
  if negb (truthy_str from) || negb (truthy_str to) then
    List400 "Missing required parameters" missingRange
  else
    let query :=
      mkListQuery (text from) (text to)
        (if truthy_str collection && negb (String.eqb (text collection) "all")
         then collection else None)
        (limitOf limit) in
    match find query with
    | Throw message => List500 "Failed to retrieve profiler data" message
    | Ok profilerData =>
        let transformedData := mapi rowOf 0 profilerData in
        ListOk transformedData (List.length transformedData)
          (mkQueryEcho (text from) (text to)
             (if truthy_str collection then text collection else "all")
             (limitOf limit))
    end.

End ListRoute.

End Listing.

(* ================================================================== *)
(** ** The profiler schema module: the other utilities *)
(* ================================================================== *)

Module SchemaUtils.
Import JS Profiler Listing Schema.

(** [PERFORMANCE_THRESHOLDS]. *)
Definition FAST : float := 10%float.
Definition MODERATE : float := 100%float.
Definition SLOW : float := 1000%float.
Definition VERY_SLOW : float := 5000%float.

Definition categorizeQueryPerformance (executionTime : float) : string :=
  if PrimFloat.ltb executionTime FAST then "fast"
  else if PrimFloat.ltb executionTime MODERATE then "moderate"
  else if PrimFloat.ltb executionTime SLOW then "slow"
  else if PrimFloat.ltb executionTime VERY_SLOW then "very_slow"
  else "critical".

Module Transformed.
Record t : Type := mk {
  queryText : string;
  executionTime : float;
  keysExamined : float;
  docsExamined : float;
  ts : value;
  namespace : option string;
  operation : string;
  client : value;
  planSummary : value;
  isSlowQuery : bool;
  efficiency : float;
  lockAcquisitionTime : value;
  storageEngine : value
}.
End Transformed.

(** The argument of [transformProfilerData]: an array of documents, or
    anything else. *)
Inductive RawData : Type :=
| NotAnArray
| ArrayOf (docs : list Raw.t).

(** The errors of [validateProfilerQuery], in the order they are
    pushed. *)
Inductive ValidationError : Type :=
| FromRequired
| FromInvalid
| ToRequired
| ToInvalid
| FromNotBeforeTo
| LimitNotPositive.

(** The text pushed for an error; parameter names stand between
    quotation marks. *)
Definition errorText (e : ValidationError) : string :=
  let quote := String (ascii_of_nat 34) EmptyString in
  let parameter name := ("Parameter " ++ quote ++ name ++ quote)%string in
  match e with
  | FromRequired => (parameter "from" ++ " is required")%string
  | FromInvalid => (parameter "from" ++ " must be a valid date")%string
  | ToRequired => (parameter "to" ++ " is required")%string
  | ToInvalid => (parameter "to" ++ " must be a valid date")%string
  | FromNotBeforeTo =>
      (parameter "from" ++ " must be before " ++ quote ++ "to" ++ quote)%string
  | LimitNotPositive => (parameter "limit" ++ " must be a positive number")%string
  end.

Module Validation.
Record t : Type := mk {
  isValid : bool;
  errors : list string
}.
End Validation.

(** [isNaN]. *)
Definition isNaN (f : float) : bool := negb (PrimFloat.eqb f f).

Section Builtins.

(** [JSON.stringify(value)] and [JSON.stringify(value, null, 2)]; the
    second may throw. *)
Variable JSON_stringify : value -> string.
Variable JSON_stringify_pretty : value -> result string.

(** [String(value)]. *)
Variable String_of : value -> string.

(** [Date.parse], NaN on a string that is no date; [new Date(s)] has
    the same time value. *)
Variable Date_parse : string -> float.

(** [parseInt]. *)
Variable parseInt : value -> float.

(** [typeof command === 'object']. *)
Definition is_object (v : value) : bool :=
  match v with
  | VNull | VArray _ | VObject _ => true
  | _ => false
  end.

Definition formatQuery (command : value) : string :=
  if negb (truthy command) || negb (is_object command) then
    JSON_stringify (or command (VObject []))
  else
    match JSON_stringify_pretty command with
    | Ok s => s
    | Throw _ => String_of command
    end.

(** The object built for a document by [transformProfilerData]. *)
Definition transformDoc (raw : Raw.t) : Transformed.t :=
  let doc := Raw.doc raw in
  Transformed.mk
    (formatQuery (loggedCommand doc))
    (or_zero (or_num (Doc.millis doc) (Raw.duration raw)))
    (or_zero (or_num (Doc.keysExamined doc) (docStats DocStats.keysExamined raw)))
    (or_zero (or_num (Doc.docsExamined doc) (docStats DocStats.docsExamined raw)))
    (Doc.ts doc)
    (Doc.ns doc)
    (match Doc.op doc with
     | Some s => if String.eqb s EmptyString then "unknown" else s
     | None => "unknown"
     end)
    (or (Doc.client doc) (VString "unknown"))
    (or (Doc.planSummary doc) VNull)
    (PrimFloat.ltb 100 (or_zero (Doc.millis doc)))
    (calculateQueryEfficiency doc)
    (or (match Raw.lockStats raw with
         | Some stats => get stats "acquireTime"
         | None => VUndefined
         end) VNull)
    (or (Raw.storage raw) VNull).

Definition transformProfilerData (rawData : RawData) : list Transformed.t :=
  match rawData with
  | NotAnArray => []
  | ArrayOf docs => map transformDoc docs
  end.

(** The errors pushed by [validateProfilerQuery], one test after the
    other. *)
Definition validationErrors (from to : option string) (limit : value)
    : list ValidationError :=
  let errors := [] in
  let errors :=
    if negb (truthy_str from) then errors ++ [FromRequired]
    else if isNaN (Date_parse (text from)) then errors ++ [FromInvalid]
    else errors in
  let errors :=
    if negb (truthy_str to) then errors ++ [ToRequired]
    else if isNaN (Date_parse (text to)) then errors ++ [ToInvalid]
    else errors in
  let errors :=
    if truthy_str from && truthy_str to
       && PrimFloat.leb (Date_parse (text to)) (Date_parse (text from))
    then errors ++ [FromNotBeforeTo]
    else errors in
  if truthy limit
     && (isNaN (parseInt limit) || PrimFloat.leb (parseInt limit) 0)
  then errors ++ [LimitNotPositive]
  else errors.

Definition validateProfilerQuery (from to : option string) (limit : value)
    : Validation.t :=
  let errors := validationErrors from to limit in
  Validation.mk (Nat.eqb (List.length errors) 0) (map errorText errors).

End Builtins.

End SchemaUtils.

(* ================================================================== *)
(** ** models/database.js: the connection held by the module *)
(* ================================================================== *)

Module Database.
Import JS Profiler.

(** [s.split(sep)]: the pieces between the separators. *)
Fixpoint split_aux (sep : ascii) (s : string) (piece : string) : list string :=
  match s with
  | EmptyString => [piece]
  | String c rest =>
      if Ascii.eqb c sep
      then piece :: split_aux sep rest EmptyString
      else split_aux sep rest (piece ++ String c EmptyString)
  end.

Definition split (sep : ascii) (s : string) : list string :=
  split_aux sep s EmptyString.

(** [uri.split('/').pop().split('?')[0] || 'studio3t_profiler']. *)
Definition dbNameOf (uri : string) : string :=
  let last_piece := List.last (split "/"%char uri) EmptyString in
  let name := nth 0 (split "?"%char last_piece) EmptyString in
  if String.eqb name EmptyString then "studio3t_profiler" else name.

(** [process.env.MONGODB_URI || 'mongodb://localhost:27017/studio3t_profiler']. *)
Definition uriOf (env : option string) : string :=
  if truthy_str env then Listing.text env
  else "mongodb://localhost:27017/studio3t_profiler".

(** A client is known by the URI it was built on, a database handle by
    its client and its name. *)
Record Client : Type := mkClient { clientUri : string }.
Record Db : Type := mkDb { dbClient : Client; dbName : string }.

(** The two module variables. *)
Record State : Type := mkState {
  client : option Client;
  db : option Db
}.

Definition initial : State := mkState None None.

(** The profiling settings of the server behind the connection, and
    whether the user may change them. *)
Record Server : Type := mkServer {
  level : Z;
  slowms : Z;
  mayProfile : bool
}.

(** What the driver does when asked to connect: the constructor rejects
    the URI, a later step fails (the connection, or taking the database
    handle), or the connection is established. *)
Inductive ConnectOutcome : Type :=
| BadUri (message : string)
| Refused (message : string)
| Connected.

(** [enableProfiling]: nothing without a database; the level is read,
    and set to 1 with [slowms: 100] when it was 0; an error of either
    command is caught. *)
Definition enableProfiling (s : State) (server : Server) : Server :=
  match db s with
  | None => server
  | Some _ =>
      if mayProfile server then
        if (level server =? 0)%Z then mkServer 1 100 true else server
      else server
  end.

(** [connectToDatabase]: the state and the server after the call, and
    the handle returned or the error rethrown. *)
Definition connectToDatabase (env : option string) (outcome : ConnectOutcome)
    (s : State) (server : Server) : State * Server * result Db :=
  match db s with
  | Some handle => (s, server, Ok handle)
  | None =>
      let uri := uriOf env in
      match outcome with
      | BadUri message => (s, server, Throw message)
      | Refused message =>
          (mkState (Some (mkClient uri)) None, server, Throw message)
      | Connected =>
          let c := mkClient uri in
          let handle := mkDb c (dbNameOf uri) in
          let s' := mkState (Some c) (Some handle) in
          (s', enableProfiling s' server, Ok handle)
      end
  end.

Definition getDatabase (s : State) : result Db :=
  match db s with
  | Some handle => Ok handle
  | None =>
      Throw "Database not initialized. Call connectToDatabase() first."
  end.

(** [closeDatabaseConnection]: [closes] tells whether [client.close()]
    resolves; when it throws the error is logged and the variables
    stay. *)
Definition closeDatabaseConnection (closes : bool) (s : State) : State :=
  match client s with
  | Some _ => if closes then mkState None None else s
  | None => s
  end.

(** The calls a program can make on the module, with what the driver
    answers. *)
Inductive Call : Type :=
| CallConnect (env : option string) (outcome : ConnectOutcome)
| CallEnableProfiling
| CallClose (closes : bool).

Definition step (st : State * Server) (c : Call) : State * Server :=
  match c with
  | CallConnect env outcome =>
      fst (connectToDatabase env outcome (fst st) (snd st))
  | CallEnableProfiling => (fst st, enableProfiling (fst st) (snd st))
  | CallClose closes => (closeDatabaseConnection closes (fst st), snd st)
  end.

Definition run (calls : list Call) (st : State * Server) : State * Server :=
  fold_left step calls st.

End Database.

(* ================================================================== *)
(** ** The table and the detail view: what they derive from the rows *)
(* ================================================================== *)

Module View.
Import JS Profiler Listing.

(** [getPerformanceColor], the same in the table and in the
    application. *)
Definition getPerformanceColor (ms : float) : string :=
  if PrimFloat.ltb ms 10 then "text-green-600"
  else if PrimFloat.ltb ms 100 then "text-yellow-600"
  else if PrimFloat.ltb ms 1000 then "text-orange-600"
  else "text-red-600".

(** [getEfficiencyColor] of the application. *)
Definition getEfficiencyColor (efficiency : float) : string :=
  if PrimFloat.leb 80 efficiency then "text-green-600"
  else if PrimFloat.leb 50 efficiency then "text-yellow-600"
  else if PrimFloat.leb 20 efficiency then "text-orange-600"
  else "text-red-600".

(** [getEfficiencyIndicator] of the table. *)
Definition getEfficiencyIndicator (query : Row.t) : float * string :=
  let examined := or_zero (Some (Row.docsExamined query)) in
  let returned := or_zero (Some (Row.docsReturned query)) in
  if PrimFloat.eqb examined 0 then (100%float, "text-green-600")
  else if PrimFloat.eqb returned 0 then (0%float, "text-red-600")
  else
    let efficiency := Math_round ((returned / examined) * 100)%float in
    let color :=
      if PrimFloat.leb 80 efficiency then "text-green-600"
      else if PrimFloat.leb 50 efficiency then "text-yellow-600"
      else if PrimFloat.leb 20 efficiency then "text-orange-600"
      else "text-red-600" in
    (efficiency, color).

(** [truncateQuery]; [maxLength] is a length. *)
Definition truncateQuery (queryText : string) (maxLength : nat) : string :=
  if (String.length queryText <=? maxLength)%nat then queryText
  else (substring 0 maxLength queryText ++ "...")%string.

(** The order of the colours, from the best to the worst. *)
Definition colorRank (color : string) : nat :=
  if String.eqb color "text-green-600" then 0
  else if String.eqb color "text-yellow-600" then 1
  else if String.eqb color "text-orange-600" then 2
  else 3.

End View.

(* ================================================================== *)
(** ** Notions used in the statements on the further code *)
(* ================================================================== *)

Module Notions.
Import JS Profiler.

(** The rank of a number in the order of the comparisons: the sign
    class, then the exponent, then the mantissa (both reversed below
    zero).  NaN has no rank. *)
Definition floatKey (x : spec_float) : Z * Z * Z :=
  match x with
  | S754_infinity true => (-2, 0, 0)%Z
  | S754_finite true m e => (-1, - e, Zneg m)%Z
  | S754_zero _ => (0, 0, 0)%Z
  | S754_nan => (0, 0, 0)%Z
  | S754_finite false m e => (1, e, Zpos m)%Z
  | S754_infinity false => (2, 0, 0)%Z
  end.

Definition keyCompare (k1 k2 : Z * Z * Z) : comparison :=
  let '(a1, b1, c1) := k1 in
  let '(a2, b2, c2) := k2 in
  match (a1 ?= a2)%Z with
  | Eq => match (b1 ?= b2)%Z with
          | Eq => (c1 ?= c2)%Z
          | c => c
          end
  | c => c
  end.

(** A string without a given character. *)
Fixpoint lacks (c : ascii) (s : string) : bool :=
  match s with
  | EmptyString => true
  | String d rest => negb (Ascii.eqb d c) && lacks c rest
  end.

(** [s] starts with [p]. *)
Definition startsWith (p s : string) : bool := String.prefix p s.

(** The binding of a key in a document, if it has one. *)
Fixpoint lookup (doc : document) (key : string) : option value :=
  match doc with
  | [] => None
  | (k, v) :: rest => if String.eqb k key then Some v else lookup rest key
  end.

(** A sequence of depths that goes up by one level at most from an
    entry to the next, [previous] standing before the first. *)
Fixpoint gentle (previous : nat) (depths : list nat) : Prop :=
  match depths with
  | [] => True
  | d :: rest => d <= previous + 1 /\ gentle d rest
  end.

(** The categories of [categorizeQueryPerformance], from the fastest. *)
Definition categoryRank (category : string) : nat :=
  if String.eqb category "fast" then 0
  else if String.eqb category "moderate" then 1
  else if String.eqb category "slow" then 2
  else if String.eqb category "very_slow" then 3
  else 4.

(** The identifiers rendered for the documents that have one. *)
Definition renderedIds (docs : list Listing.Raw.t) : list string :=
  flat_map (fun raw =>
              match Doc._id (Listing.Raw.doc raw) with
              | Some id =>
                  if Listing.id_truthy (Some id)
                  then [Listing.id_toString id] else []
              | None => []
              end) docs.

(** What holds of the two variables of the connection module after any
    sequence of calls. *)
Definition consistent (s : Database.State) : Prop :=
  match Database.db s with
  | Some handle =>
      Database.client s = Some (Database.dbClient handle)
      /\ Database.dbName handle =
         Database.dbNameOf (Database.clientUri (Database.dbClient handle))
  | None => True
  end.

End Notions.

Module Samples.
Import JS Profiler Listing.

(** A document of the log with none of the further fields. *)
Definition rawOf (doc : ProfileDoc) : Raw.t :=
  Raw.mk doc None None None VUndefined.

(** A clock that stands still and a serializer that writes nothing. *)
Definition stillClock (index : nat) : N := 1700000000000%N.
Definition noText (v : value) : string := EmptyString.

End Samples.

(* ================================================================== *)
(** ** routes/indexes.js: the index routes *)
(* ================================================================== *)

Module IndexRoutes.
Import JS Profiler Listing Database.

(** [v === 1 || v === -1] and [v === s] for a string [s]. *)
Definition is_direction (v : value) : bool :=
  match v with
  | VNumber f => PrimFloat.eqb f 1 || PrimFloat.eqb f (-1)
  | _ => false
  end.

Definition is_string (s : string) (v : value) : bool :=
  match v with
  | VString t => String.eqb t s
  | _ => false
  end.

(** [getIndexType]; [Object.keys] throws on [undefined] and [null]. *)
Definition getIndexType (keySpec : value) : result string :=
  match keySpec with
  | VUndefined | VNull => Throw "Cannot convert undefined or null to object"
  | _ =>
      let keys := Object_keys keySpec in
      let values := map snd (own_props keySpec) in
      let single :=
        if Nat.eqb (List.length keys) 1 then
          match values with
          | v :: _ =>
              if is_direction v then Some "Single Field"
              else if is_string "2d" v then Some "2D Geospatial"
              else if is_string "2dsphere" v then Some "2D Sphere"
              else if is_string "text" v then Some "Text"
              else if is_string "hashed" v then Some "Hashed"
              else None
          | [] => None
          end
        else None in
      match single with
      | Some type => Ok type
      | None =>
          if Nat.ltb 1 (List.length keys) then
            if forallb is_direction values then Ok "Compound"
            else if existsb (is_string "text") values then Ok "Text Compound"
            else Ok "Other"
          else Ok "Other"
      end
  end.

(** [accesses] of an index description, and the [usage] of a row. *)
Module Usage.
Record t : Type := mk {
  ops : option float;
  since : value
}.
End Usage.

(** An index as [collection.indexes()] describes it: the fields the
    routes read, and a [usage] field should the description carry
    one. *)
Module Described.
Record t : Type := mk {
  name : option string;
  key : value;
  size : option float;
  accesses : option Usage.t;
  usage : option Usage.t
}.
End Described.

(** An element of [allIndexes] in the statistics route:
    [{ ...index, collection, collectionSize, documentCount }]. *)
Module Info.
Record t : Type := mk {
  index : Described.t;
  collection : string;
  collectionSize : float;
  documentCount : float
}.
End Info.

(** [{ name, collection, size }] in a recommendation. *)
Module Brief.
Record t : Type := mk {
  name : option string;
  collection : string;
  size : float
}.
End Brief.

Module Advice.
Record t : Type := mk {
  type : string;
  priority : string;
  count : nat;
  message : string;
  description : string;
  indexes : option (list Brief.t);
  collections : option (list string)
}.
End Advice.

(** [idx.usage?.ops]. *)
Definition usageOps (idx : Info.t) : option float :=
  match Described.usage (Info.index idx) with
  | Some u => Usage.ops u
  | None => None
  end.

(** [idx.name !== '_id_']. *)
Definition notDefault (name : option string) : bool :=
  match name with
  | Some n => negb (String.eqb n "_id_")
  | None => true
  end.

Definition isUnused (idx : Info.t) : bool :=
  notDefault (Described.name (Info.index idx))
  && PrimFloat.eqb (or_zero (usageOps idx)) 0.

(** [(idx.size || 0) > 100 * 1024 * 1024]. *)
Definition isLarge (idx : Info.t) : bool :=
  PrimFloat.ltb 104857600 (or_zero (Described.size (Info.index idx))).

Definition briefOf (idx : Info.t) : Brief.t :=
  Brief.mk (Described.name (Info.index idx)) (Info.collection idx)
           (or_zero (Described.size (Info.index idx))).

(** The test of the third rule on a collection: it has one index, and
    that one is [_id_]. *)
Definition onlyDefault (indexes : list Info.t) (collection : string) : bool :=
  let collectionIndexes :=
    filter (fun idx => String.eqb (Info.collection idx) collection) indexes in
  Nat.eqb (List.length collectionIndexes) 1
  && match collectionIndexes with
     | first :: _ => negb (notDefault (Described.name (Info.index first)))
     | [] => false
     end.

Definition collectionsWithoutIndexes (indexes : list Info.t) : list string :=
  filter (onlyDefault indexes) (Set_of (map Info.collection indexes)).

Definition unusedAdvice (unusedIndexes : list Info.t) : Advice.t :=
  Advice.mk "unused_indexes" "medium" (List.length unusedIndexes)
    (index_key (List.length unusedIndexes) ++ " unused indexes detected")
    "Consider dropping unused indexes to improve write performance and reduce storage"
    (Some (map briefOf unusedIndexes)) None.

Definition largeAdvice (largeIndexes : list Info.t) : Advice.t :=
  Advice.mk "large_indexes" "low" (List.length largeIndexes)
    (index_key (List.length largeIndexes) ++ " large indexes found")
    "Monitor large indexes for performance impact"
    (Some (map briefOf largeIndexes)) None.

Definition missingAdvice (collections : list string) : Advice.t :=
  Advice.mk "missing_indexes" "high" (List.length collections)
    (index_key (List.length collections)
     ++ " collections have only default _id index")
    "Consider adding indexes based on your query patterns"
    None (Some collections).

Definition generateIndexRecommendations (indexes : list Info.t)
    : list Advice.t :=
  let recommendations := [] in
  let unusedIndexes := filter isUnused indexes in
  let recommendations :=
    if Nat.ltb 0 (List.length unusedIndexes)
    then recommendations ++ [unusedAdvice unusedIndexes]
    else recommendations in
  let largeIndexes := filter isLarge indexes in
  let recommendations :=
    if Nat.ltb 0 (List.length largeIndexes)
    then recommendations ++ [largeAdvice largeIndexes]
    else recommendations in
  let withoutIndexes := collectionsWithoutIndexes indexes in
  if Nat.ltb 0 (List.length withoutIndexes)
  then recommendations ++ [missingAdvice withoutIndexes]
  else recommendations.

(** A row of the listing of the indexes:
    [{ ...index, collection, database, size, usage }]. *)
Module IndexRow.
Record t : Type := mk {
  index : Described.t;
  collection : string;
  database : string;
  size : float;
  usage : Usage.t
}.
End IndexRow.

Module IndexStats.
Record t : Type := mk {
  totalIndexes : nat;
  totalSize : float;
  collectionsWithIndexes : nat;
  unusedIndexes : nat
}.
End IndexStats.

(** [collection.stats()]: the two fields read. *)
Module CollStats.
Record t : Type := mk {
  size : option float;
  count : option float
}.
End CollStats.

(** [{ name, collection, size, keys }] among the largest indexes. *)
Module Large.
Record t : Type := mk {
  name : option string;
  collection : string;
  size : float;
  keys : value
}.
End Large.

(** [totalStats]. *)
Module Totals.
Record t : Type := mk {
  totalIndexes : nat;
  totalSize : float;
  collectionsAnalyzed : nat;
  indexTypes : list (string * nat);
  largestIndexes : list Large.t;
  recommendations : list Advice.t
}.
End Totals.

(** [indexTypes[indexType] = (indexTypes[indexType] || 0) + 1]. *)
Fixpoint bump (indexTypes : list (string * nat)) (indexType : string)
    : list (string * nat) :=
  match indexTypes with
  | [] => [(indexType, 1)]
  | (t, n) :: rest =>
      if String.eqb t indexType then (t, n + 1) :: rest
      else (t, n) :: bump rest indexType
  end.

(** [totalStats] and the array [allIndexes] while the collections are
    gone through. *)
Definition Progress : Type := Totals.t * list Info.t.

(** The body of the inner loop, index after index: the index is pushed
    and counted, then its type is tallied; [getIndexType] may throw,
    which ends the loop and is reported by [false]. *)
Fixpoint analyseIndexes (name : string) (stats : CollStats.t)
    (indexes : list Described.t) (progress : Progress) : Progress * bool :=
  match indexes with
  | [] => (progress, true)
  | index :: rest =>
      let (totalStats, allIndexes) := progress in
      let indexInfo :=
        Info.mk index name (or_zero (CollStats.size stats))
                (or_zero (CollStats.count stats)) in
      let counted indexTypes :=
        (Totals.mk (Totals.totalIndexes totalStats + 1)
                   (Totals.totalSize totalStats
                    + or_zero (Described.size index))
                   (Totals.collectionsAnalyzed totalStats)
                   indexTypes
                   (Totals.largestIndexes totalStats)
                   (Totals.recommendations totalStats),
         allIndexes ++ [indexInfo]) in
      match getIndexType (Described.key index) with
      | Throw _ => (counted (Totals.indexTypes totalStats), false)
      | Ok indexType =>
          analyseIndexes name stats rest
            (counted (bump (Totals.indexTypes totalStats) indexType))
      end
  end.

Definition largeOf (idx : Info.t) : Large.t :=
  Large.mk (Described.name (Info.index idx)) (Info.collection idx)
           (or_zero (Described.size (Info.index idx)))
           (Described.key (Info.index idx)).

Inductive IndexResponse : Type :=
| Index400 (error message : string)
| Index500 (error message : string)
| IndexList (data : list IndexRow.t) (stats : IndexStats.t)
            (database : option string) (collection : string)
| IndexTotals (data : Totals.t)
| IndexCreated (indexName collection : string) (indexSpec options : value)
               (created : value) (message : string)
| IndexDropped (message : string).

(** The quotation mark of the messages. *)
Definition quote : string := String (ascii_of_nat 34) EmptyString.

Definition statsOf (indexData : list IndexRow.t) : IndexStats.t :=
  IndexStats.mk
    (List.length indexData)
    (fold_left (fun sum idx => (sum + or_zero (Some (IndexRow.size idx)))%float)
               indexData 0%float)
    (List.length (Set_of (map IndexRow.collection indexData)))
    (List.length
       (filter (fun idx =>
                  PrimFloat.eqb (or_zero (Usage.ops (IndexRow.usage idx))) 0)
               indexData)).

Section Routes.

(** The indexes held by the server, which the driver reads and
    changes. *)
Variable Store : Type.

(** [db.collection(name).indexes()], [db.listCollections().toArray()]
    (the names of the collections), [createIndex] and [dropIndex], each
    with the error the driver may throw; [new Date()]. *)
Variable indexesOf : Store -> string -> result (list Described.t).
Variable listCollections : Store -> result (list string).
Variable createIndex : Store -> string -> value -> value -> Store * result string.
Variable dropIndex : Store -> string -> string -> Store * result unit.
Variable now : value.

(** [collection.stats()], and what
    [array.sort((a, b) => (b.size || 0) - (a.size || 0))] leaves in the
    array. *)
Variable collectionStats : Store -> string -> result CollStats.t.
Variable sort : list Info.t -> list Info.t.

Definition rowsOf (db : Db) (collection : string)
    (indexes : list Described.t) : list IndexRow.t :=
  map (fun index =>
         IndexRow.mk index collection (dbName db)
           (or_zero (Described.size index))
           (match Described.accesses index with
            | Some a => a
            | None => Usage.mk (Some 0%float) now
            end))
      indexes.

(** The [for] loop over the collections: one that fails is skipped. *)
Definition gather (store : Store) (db : Db) (collections : list string)
    : list IndexRow.t :=
  fold_left (fun indexData name =>
               match indexesOf store name with
               | Ok indexes => indexData ++ rowsOf db name indexes
               | Throw _ => indexData
               end)
            collections [].

(** [router.get('/')]. *)
Definition listIndexes (s : State) (store : Store)
    (database collection : option string) : IndexResponse :=
  match getDatabase s with
  | Throw message => Index500 "Failed to retrieve indexes" message
  | Ok db =>
      let gathered :=
        if truthy_str collection && negb (String.eqb (text collection) "all")
        then
          match indexesOf store (text collection) with
          | Ok indexes => Ok (rowsOf db (text collection) indexes)
          | Throw message => Throw message
          end
        else
          match listCollections store with
          | Ok collections => Ok (gather store db collections)
          | Throw message => Throw message
          end in
      match gathered with
      | Throw message => Index500 "Failed to retrieve indexes" message
      | Ok indexData =>
          IndexList indexData (statsOf indexData) database
            (if truthy_str collection then text collection else "all")
      end
  end.

(** [{ background: true, ...options }]. *)
Definition createOptions (options : value) : value :=
  spread2 (VObject [("background", VBool true)]) options.

(** [router.post('/')], on a body that is an object; [options] is [{}]
    when the body has none. *)
Definition createRoute (s : State) (store : Store)
    (collection : option string) (indexSpec : value) (options : option value)
    : Store * IndexResponse :=
  let options :=
    match options with
    | Some VUndefined | None => VObject []
    | Some o => o
    end in
  if negb (truthy_str collection) || negb (truthy indexSpec) then
    (store,
     Index400 "Missing required parameters"
       ("Both " ++ quote ++ "collection" ++ quote ++ " and " ++ quote
        ++ "indexSpec" ++ quote ++ " are required"))
  else
    match getDatabase s with
    | Throw message => (store, Index500 "Failed to create index" message)
    | Ok _ =>
        match createIndex store (text collection) indexSpec
                          (createOptions options) with
        | (store', Ok result) =>
            (store',
             IndexCreated result (text collection) indexSpec options now
               ("Index " ++ quote ++ result ++ quote
                ++ " created successfully on collection " ++ quote
                ++ text collection ++ quote))
        | (store', Throw message) =>
            (store', Index500 "Failed to create index" message)
        end
    end.

(** [router.delete('/')]. *)
Definition dropRoute (s : State) (store : Store)
    (collection indexName : option string) : Store * IndexResponse :=
  if negb (truthy_str collection) || negb (truthy_str indexName) then
    (store,
     Index400 "Missing required parameters"
       ("Both " ++ quote ++ "collection" ++ quote ++ " and " ++ quote
        ++ "indexName" ++ quote ++ " are required"))
  else if String.eqb (text indexName) "_id_" then
    (store,
     Index400 "Cannot drop default index" "The _id index cannot be dropped")
  else
    match getDatabase s with
    | Throw message => (store, Index500 "Failed to drop index" message)
    | Ok _ =>
        match dropIndex store (text collection) (text indexName) with
        | (store', Ok _) =>
            (store',
             IndexDropped
               ("Index " ++ quote ++ text indexName ++ quote
                ++ " dropped successfully from collection " ++ quote
                ++ text collection ++ quote))
        | (store', Throw message) =>
            (store', Index500 "Failed to drop index" message)
        end
    end.

(** The body of the loop over the collections in the statistics route:
    an error of the driver, or of [getIndexType], ends the turn of the
    collection and leaves what was counted before. *)
Definition analyseCollection (store : Store) (progress : Progress)
    (name : string) : Progress :=
  match indexesOf store name with
  | Throw _ => progress
  | Ok indexes =>
      match collectionStats store name with
      | Throw _ => progress
      | Ok stats =>
          let (progress', completed) :=
            analyseIndexes name stats indexes progress in
          if completed then
            let (totalStats, allIndexes) := progress' in
            (Totals.mk (Totals.totalIndexes totalStats)
                       (Totals.totalSize totalStats)
                       (Totals.collectionsAnalyzed totalStats + 1)
                       (Totals.indexTypes totalStats)
                       (Totals.largestIndexes totalStats)
                       (Totals.recommendations totalStats),
             allIndexes)
          else progress'
      end
  end.

Definition noTotals : Totals.t := Totals.mk 0 0%float 0 [] [] [].

Definition analyse (store : Store) (collections : list string) : Progress :=
  fold_left (analyseCollection store) collections (noTotals, []).

(** [router.get('/stats')]: the array is sorted in place, so the
    recommendations are made on the sorted array. *)
Definition statsRoute (s : State) (store : Store) : IndexResponse :=
  match getDatabase s with
  | Throw message => Index500 "Failed to retrieve index statistics" message
  | Ok _ =>
      match listCollections store with
      | Throw message =>
          Index500 "Failed to retrieve index statistics" message
      | Ok collections =>
          let (totalStats, allIndexes) := analyse store collections in
          let sorted := sort allIndexes in
          IndexTotals
            (Totals.mk (Totals.totalIndexes totalStats)
                       (Totals.totalSize totalStats)
                       (Totals.collectionsAnalyzed totalStats)
                       (Totals.indexTypes totalStats)
                       (map largeOf (firstn 10 sorted))
                       (generateIndexRecommendations sorted))
      end
  end.

End Routes.

End IndexRoutes.

(* ================================================================== *)
(** ** routes/analytics.js: the efficiency of a group of operations *)
(* ================================================================== *)

Module Analytics.
Import JS Profiler.

(** A number of an aggregation result in arithmetic and comparisons:
    [$avg] gives [null] for a group without the field, which counts as
    0. *)
Definition number (x : option float) : float :=
  match x with
  | Some f => f
  | None => 0%float
  end.

(** The [efficiency] of a trend bucket, of a collection and of a period:
    [avgDocsExamined > 0 ?
       Math.round((avgDocsReturned / avgDocsExamined) * 100) : 100]. *)
Definition groupEfficiency (avgDocsExamined avgDocsReturned : option float)
    : float :=
  if PrimFloat.ltb 0 (number avgDocsExamined)
  then Math_round ((number avgDocsReturned / number avgDocsExamined) * 100)%float
  else 100%float.

End Analytics.

Module IndexNotions.
Import JS Profiler IndexRoutes.

(** What holds of [totalStats] and [allIndexes] all along the loops of
    the statistics route. *)
Definition tallied (progress : Progress) : Prop :=
  Totals.totalIndexes (fst progress) = List.length (snd progress)
  /\ (list_sum (map snd (Totals.indexTypes (fst progress)))
      <= Totals.totalIndexes (fst progress))%nat
  /\ NoDup (map fst (Totals.indexTypes (fst progress))).

(** An index of the array comes from the description of an index of
    the collection it is filed under. *)
Definition described (Store : Type)
    (indexesOf : Store -> string -> result (list Described.t))
    (store : Store) (collections : list string) (idx : Info.t) : Prop :=
  In (Info.collection idx) collections
  /\ exists indexes,
       indexesOf store (Info.collection idx) = Ok indexes
       /\ In (Info.index idx) indexes.

End IndexNotions.

Module IndexSamples.
Import JS Profiler IndexRoutes.

(** A stable sort by the comparator of the statistics route, by
    insertion: an index goes after those it does not precede. *)
Fixpoint insertBySize (x : Info.t) (sorted : list Info.t) : list Info.t :=
  match sorted with
  | [] => [x]
  | y :: rest =>
      if PrimFloat.ltb 0 (or_zero (Described.size (Info.index y))
                          - or_zero (Described.size (Info.index x)))
      then y :: insertBySize x rest
      else x :: sorted
  end.

Definition sortBySize (indexes : list Info.t) : list Info.t :=
  fold_right insertBySize [] indexes.

(** A server with two collections: [orders] with its default index and
    an index on the status, [users] with its default index only. *)
Definition described (name : string) (key : string) (size : float)
    : Described.t :=
  Described.mk (Some name) (VObject [(key, VNumber 1)]) (Some size) None None.

Definition twoCollections (store : unit) (collection : string)
    : result (list Described.t) :=
  if String.eqb collection "orders"
  then Ok [described "_id_" "_id" 4096; described "status_1" "status" 8192]
  else if String.eqb collection "users"
       then Ok [described "_id_" "_id" 2048]
       else Throw "ns not found".

Definition twoNames (store : unit) : result (list string) :=
  Ok ["orders"; "missing"; "users"].

Definition someStats (store : unit) (collection : string)
    : result CollStats.t :=
  Ok (CollStats.mk (Some 1024%float) (Some 10%float)).

Definition held : Database.State :=
  Database.mkState
    (Some (Database.mkClient "mongodb://localhost:27017/shop"))
    (Some (Database.mkDb (Database.mkClient "mongodb://localhost:27017/shop")
                         "shop")).

End IndexSamples.

Module GroupNotions.

(** Two numbers that are the same, or that differ by the sign of a zero
    only (they are written alike in a response). *)
Definition alike (a b : float) : Prop :=
  a = b \/ (PrimFloat.eqb a 0 = true /\ PrimFloat.eqb b 0 = true).

End GroupNotions.

(* ================================================================== *)
(** ** server.js and the signal handlers: the life of the process *)
(* ================================================================== *)

Module Lifecycle.
Import JS Profiler Database.

(** The process starts, serves requests once [app.listen] was called,
    and is gone after [process.exit]. *)
Inductive Phase : Type :=
| Starting
| Serving
| Exited (code : Z).

Record Process : Type := mkProcess {
  phase : Phase;
  connection : State;
  profiled : Server
}.

(** What happens to the process: [startServer] runs, with what the
    driver answers and whether [app.listen] returns; SIGINT or SIGTERM is
    received, with whether [client.close()] resolves; a request is
    handled by a route, which reads [getDatabase()] only. *)
Inductive Event : Type :=
| Boot (env : option string) (outcome : ConnectOutcome) (listens : bool)
| Signal (closes : bool)
| Request.

(** [startServer]: the database is connected, then the application
    listens; an error on the way ends the process with code 1. *)
Definition startServer (env : option string) (outcome : ConnectOutcome)
    (listens : bool) (p : Process) : Process :=
  match connectToDatabase env outcome (connection p) (profiled p) with
  | (s, server, Ok _) =>
      mkProcess (if listens then Serving else Exited 1) s server
  | (s, server, Throw _) => mkProcess (Exited 1) s server
  end.

(** The handler of SIGINT and of SIGTERM: the connection is closed and
    the process ends with code 0. *)
Definition onSignal (closes : bool) (p : Process) : Process :=
  mkProcess (Exited 0) (closeDatabaseConnection closes (connection p))
            (profiled p).

Definition react (p : Process) (e : Event) : Process :=
  match phase p, e with
  | Starting, Boot env outcome listens => startServer env outcome listens p
  | Starting, Signal closes => onSignal closes p
  | Serving, Signal closes => onSignal closes p
  | _, _ => p
  end.

Definition launched (server : Server) : Process :=
  mkProcess Starting initial server.

Definition life (events : list Event) (server : Server) : Process :=
  fold_left react events (launched server).

(** What holds of a process in each phase. *)
Definition sound (p : Process) : Prop :=
  match phase p with
  | Starting => connection p = initial
  | Serving =>
      (exists handle, db (connection p) = Some handle)
      /\ Notions.consistent (connection p)
      /\ (mayProfile (profiled p) = true -> level (profiled p) <> 0%Z)
  | Exited _ => True
  end.

End Lifecycle.
(* ================================================================== *)
(** ** Stage trees: induction and the two traversals *)
(* ================================================================== *)

Module StageFacts.
Import JS Profiler.

(** Induction on a stage tree, with the hypothesis on every child. *)
Lemma Stage_children_ind (P : Stage -> Prop) :
  (forall s, Forall P (children s) -> P s) -> forall s, P s.
Proof.
  intros step.
  fix IH 1.
  intros [n t w a nt ny eof idx dir de ke single many].
  apply step. unfold children; simpl.
  apply Forall_app. split.
  - destruct single as [child|]; constructor; [apply IH | constructor].
  - destruct many as [l|]; [|constructor].
    induction l as [|child l IHl]; constructor; [apply IH | exact IHl].
Qed.

(** Threading the array through a list of children appends the
    contributions of the children in order. *)
Lemma fold_left_append {A B : Type} (f : B -> list A -> list A)
    (g : B -> list A) (l : list B) :
  Forall (fun b => forall acc, f b acc = acc ++ g b) l ->
  forall acc,
    fold_left (fun acc b => f b acc) l acc = acc ++ List.concat (map g l).
Proof.
  induction 1 as [|b l Hb _ IHl]; intros acc; simpl.
  - now rewrite app_nil_r.
  - now rewrite Hb, IHl, app_assoc.
Qed.

Lemma children_unfold (s : Stage) (A : Type) (g : Stage -> list A) :
  List.concat (map g (children s)) =
  match inputStage s with Some child => g child | None => [] end
  ++ match inputStages s with Some l => List.concat (map g l) | None => [] end.
Proof.
  unfold children.
  rewrite map_app, List.concat_app.
  destruct (inputStage s), (inputStages s); simpl;
    rewrite ?app_nil_r; reflexivity.
Qed.

Lemma Forall_children_inv (P : Stage -> Prop) (s : Stage) :
  Forall P (children s) ->
  (forall c, inputStage s = Some c -> P c) /\
  (forall l, inputStages s = Some l -> Forall P l).
Proof.
  unfold children. intros H. apply Forall_app in H as [H1 H2]. split.
  - intros c E. rewrite E in H1. now inversion H1.
  - intros l E. now rewrite E in H2.
Qed.

(** [traverseStages] appends to the array it is given. *)
Lemma traverseStages_acc (s : Stage) :
  forall depth stages,
    traverseStages s depth stages = stages ++ traverseStages s depth [].
Proof.
  induction s as [s IH] using Stage_children_ind.
  apply Forall_children_inv in IH as [IH1 IHn].
  assert (body : forall depth stages,
    traverseStages s depth stages =
    stages ++ entryOf s depth ::
      List.concat (map (fun c => traverseStages c (depth + 1) []) (children s))).
  { intros depth stages.
    rewrite children_unfold.
    destruct s as [n t w a nt ny eof idx dir de ke single many]; simpl in *.
    destruct single as [child|]; destruct many as [l|]; simpl.
    - rewrite (fold_left_append (fun c acc => traverseStages c (depth + 1) acc)
                 (fun c => traverseStages c (depth + 1) [])).
      + rewrite (IH1 child eq_refl). rewrite <- !app_assoc. reflexivity.
      + eapply Forall_impl; [|apply (IHn l eq_refl)]. intros c Hc acc. apply Hc.
    - rewrite (IH1 child eq_refl). rewrite <- !app_assoc, app_nil_r. reflexivity.
    - rewrite (fold_left_append (fun c acc => traverseStages c (depth + 1) acc)
                 (fun c => traverseStages c (depth + 1) [])).
      + rewrite <- !app_assoc. reflexivity.
      + eapply Forall_impl; [|apply (IHn l eq_refl)]. intros c Hc acc. apply Hc.
    - reflexivity. }
  intros depth stages. rewrite (body depth stages), (body depth []). reflexivity.
Qed.

(** The entries of a tree: the entry of the root, then the entries of
    each child's subtree, in the order of the children, one level down. *)
Lemma traverseStages_unfold (s : Stage) (depth : nat) :
  traverseStages s depth [] =
  entryOf s depth ::
    List.concat (map (fun c => traverseStages c (depth + 1) []) (children s)).
Proof.
  rewrite children_unfold.
  destruct s as [n t w a nt ny eof idx dir de ke single many]; simpl.
  destruct single as [child|]; destruct many as [l|]; simpl;
    rewrite ?app_nil_r; try reflexivity.
  - rewrite (fold_left_append (fun c acc => traverseStages c (depth + 1) acc)
               (fun c => traverseStages c (depth + 1) [])).
    + rewrite (traverseStages_acc child). reflexivity.
    + apply Forall_forall. intros c _ acc. apply traverseStages_acc.
  - rewrite (traverseStages_acc child). reflexivity.
  - rewrite (fold_left_append (fun c acc => traverseStages c (depth + 1) acc)
               (fun c => traverseStages c (depth + 1) [])).
    + reflexivity.
    + apply Forall_forall. intros c _ acc. apply traverseStages_acc.
Qed.

Lemma traverseStages_length (s : Stage) :
  forall depth, List.length (traverseStages s depth []) = nodeCount s.
Proof.
  induction s as [s IH] using Stage_children_ind.
  apply Forall_children_inv in IH as [IH1 IHn].
  intros depth. rewrite traverseStages_unfold, children_unfold.
  destruct s as [n t w a nt ny eof idx dir de ke single many]; simpl in *.
  rewrite length_app. f_equal. f_equal.
  - destruct single as [child|]; [apply (IH1 child eq_refl)|reflexivity].
  - destruct many as [l|]; [|reflexivity].
    specialize (IHn l eq_refl).
    induction IHn as [|c l Hc _ IHl]; simpl; [reflexivity|].
    now rewrite length_app, Hc, IHl.
Qed.

End StageFacts.

(* ================================================================== *)
(** ** The flattened stage list *)
(* ================================================================== *)

Module Stages.
Import JS Profiler StageFacts.

(** C5.  For a stage tree [root] under the execution statistics of an
    explain result, the flattened stage list has as many entries as the
    tree has nodes and is its pre-order traversal: the list of every
    subtree [s] visited at [depth] starts with the entry of [s], recorded
    at [depth], and continues with the lists of the subtrees of the
    children of [s], in the order of the children, each visited at
    [depth + 1]; so the entries of an earlier sibling's subtree all come
    before those of a later sibling's. *)
Theorem extractExecutionStages_preorder :
  (forall qp si t k e r root,
      let explainResult :=
        mkExplainResult qp (Some (mkExecutionStats t k e r (Some root))) si in
      extractExecutionStages explainResult = traverseStages root 0 [] /\
      List.length (extractExecutionStages explainResult) = nodeCount root)
  /\
  (forall s depth,
      traverseStages s depth [] =
      entryOf s depth ::
        List.concat (map (fun c => traverseStages c (depth + 1) []) (children s))
      /\ Entry.depth (entryOf s depth) = depth)
  /\
  (forall s depth before c1 between c2 after,
      children s = before ++ c1 :: between ++ c2 :: after ->
      exists pre mid post,
        traverseStages s depth [] =
        entryOf s depth :: pre ++ traverseStages c1 (depth + 1) []
                     ++ mid ++ traverseStages c2 (depth + 1) [] ++ post).
Proof.
  split; [|split].
  - intros. split.
    + reflexivity.
    + apply traverseStages_length.
  - intros. split; [apply traverseStages_unfold | reflexivity].
  - intros s depth before c1 between c2 after Hch.
    rewrite traverseStages_unfold, Hch.
    set (g := fun c => traverseStages c (depth + 1) []).
    exists (List.concat (map g before)), (List.concat (map g between)),
           (List.concat (map g after)).
    rewrite map_app, List.concat_app. simpl.
    rewrite map_app, List.concat_app. simpl.
    rewrite <- ?app_assoc. reflexivity.
Qed.

Lemma extractExecutionStages_preorder_siblings_witness :
  exists pre mid post,
    traverseStages Examples.fanIn 0 [] =
    entryOf Examples.fanIn 0 :: pre ++ traverseStages (Examples.leaf "FETCH") 1 []
                 ++ mid ++ traverseStages (Examples.leaf "COLLSCAN") 1 [] ++ post.
Proof.
  apply (proj2 (proj2 extractExecutionStages_preorder)
           Examples.fanIn 0 [] (Examples.leaf "FETCH") [Examples.leaf "IXSCAN"] (Examples.leaf "COLLSCAN") []).
  reflexivity.
Defined.

End Stages.

Module SetFacts.
Import JS Profiler.

Lemma existsb_eqb_In (x : string) (l : list string) :
  existsb (String.eqb x) l = true <-> In x l.
Proof.
  rewrite existsb_exists. split.
  - intros [y [Hy E]]. apply String.eqb_eq in E. now subst.
  - intros H. exists x. split; [assumption|apply String.eqb_refl].
Qed.

Lemma Set_of_snoc (l : list string) (x : string) :
  Set_of (l ++ [x]) = Set_add (Set_of l) x.
Proof. unfold Set_of. now rewrite fold_left_app. Qed.

Lemma Set_of_In (l : list string) (x : string) :
  In x (Set_of l) <-> In x l.
Proof.
  induction l as [|z l IH] using rev_ind; [reflexivity|].
  rewrite Set_of_snoc. unfold Set_add.
  destruct (existsb (String.eqb z) (Set_of l)) eqn:E.
  - apply existsb_eqb_In in E. rewrite in_app_iff, IH. simpl.
    split; [tauto|]. intros [H|[<-|[]]]; [assumption|]. now apply IH.
  - rewrite !in_app_iff, IH. reflexivity.
Qed.

Lemma Set_of_NoDup (l : list string) : NoDup (Set_of l).
Proof.
  induction l as [|z l IH] using rev_ind; [constructor|].
  rewrite Set_of_snoc. unfold Set_add.
  destruct (existsb (String.eqb z) (Set_of l)) eqn:E; [assumption|].
  apply NoDup_app; repeat split.
  - assumption.
  - constructor; [intros []|constructor].
  - intros y Hy [<-|[]]. apply existsb_eqb_In in Hy. congruence.
Qed.

Lemma index_of_app_In (x : string) (l r : list string) :
  In x l -> index_of x (l ++ r) = index_of x l.
Proof.
  induction l as [|y l IH]; simpl; [intros []|].
  destruct (String.eqb y x) eqn:E; [reflexivity|].
  intros [->|H]; [rewrite String.eqb_refl in E; discriminate|].
  now rewrite IH.
Qed.

Lemma index_of_lt_length (x : string) (l : list string) :
  In x l -> index_of x l < List.length l.
Proof.
  induction l as [|y l IH]; simpl; [intros []|].
  destruct (String.eqb y x) eqn:E; [lia|].
  intros [->|H]; [rewrite String.eqb_refl in E; discriminate|].
  specialize (IH H). lia.
Qed.

Lemma index_of_snoc_fresh (x : string) (l : list string) :
  ~ In x l -> index_of x (l ++ [x]) = List.length l.
Proof.
  induction l as [|y l IH]; simpl; intros H.
  - now rewrite String.eqb_refl.
  - destruct (String.eqb y x) eqn:E.
    + apply String.eqb_eq in E. tauto.
    + rewrite IH; tauto.
Qed.

(** The set lists its members in the order of their first occurrence. *)
Lemma Set_of_order (l : list string) (x y : string) :
  In x l -> In y l ->
  (index_of x (Set_of l) < index_of y (Set_of l) <->
   index_of x l < index_of y l).
Proof.
  revert x y. induction l as [|z l IH] using rev_ind; [intros x y []|].
  intros x y. rewrite Set_of_snoc. unfold Set_add.
  destruct (existsb (String.eqb z) (Set_of l)) eqn:E.
  - apply existsb_eqb_In in E. apply (proj1 (Set_of_In _ _)) in E.
    intros Hx Hy.
    assert (Hin : forall w, In w (l ++ [z]) -> In w l).
    { intros w Hw. apply in_app_iff in Hw as [Hw|[<-|[]]]; assumption. }
    apply Hin in Hx, Hy.
    rewrite !index_of_app_In by assumption. now apply IH.
  - assert (Hz : ~ In z l).
    { intros H. apply (proj2 (Set_of_In _ _)) in H.
      apply existsb_eqb_In in H. congruence. }
    assert (Hz' : ~ In z (Set_of l)) by now rewrite Set_of_In.
    assert (Hlen : forall w, In w l ->
              index_of w (Set_of l ++ [z]) < List.length (Set_of l) /\
              index_of w (l ++ [z]) < List.length l).
    { intros w Hw.
      assert (Hw' : In w (Set_of l)) by now apply (proj2 (Set_of_In l w)).
      rewrite (index_of_app_In w (Set_of l)), (index_of_app_In w l) by assumption.
      split; apply index_of_lt_length; assumption. }
    intros Hx Hy.
    apply in_app_iff in Hx as [Hx|[<-|[]]]; apply in_app_iff in Hy as [Hy|[<-|[]]].
    + rewrite (index_of_app_In x (Set_of l)), (index_of_app_In y (Set_of l)),
        (index_of_app_In x l), (index_of_app_In y l)
        by (assumption || now apply (proj2 (Set_of_In l _))).
      now apply IH.
    + rewrite !index_of_snoc_fresh by assumption.
      destruct (Hlen x Hx). tauto.
    + rewrite !index_of_snoc_fresh by assumption.
      destruct (Hlen y Hy). lia.
    + lia.
Qed.

End SetFacts.

Module IndexFacts.
Import JS Profiler StageFacts SetFacts.

Lemma traverseIndexes_body (s : Stage) :
  (forall c, In c (children s) ->
     forall acc, traverseIndexes c acc = acc ++ traverseIndexes c []) ->
  forall indexes,
    traverseIndexes s indexes =
    indexes ++ pushedIndex s
      ++ List.concat (map (fun c => traverseIndexes c []) (children s)).
Proof.
  intros IH indexes.
  assert (IHF : Forall (fun c => forall acc,
                  traverseIndexes c acc = acc ++ traverseIndexes c [])
                  (children s)) by now apply Forall_forall.
  apply Forall_children_inv in IHF as [IH1 IHn].
  rewrite children_unfold. unfold pushedIndex.
  destruct s as [n t w a nt ny eof idx dir de ke single many]; simpl in *.
  set (pushed := match idx with
                 | Some name =>
                     if String.eqb name EmptyString then indexes
                     else indexes ++ [name]
                 | None => indexes
                 end).
  assert (Hpushed : pushed = indexes ++
            match idx with
            | Some name => if String.eqb name EmptyString then [] else [name]
            | None => []
            end).
  { subst pushed. destruct idx as [name|]; [|now rewrite app_nil_r].
    destruct (String.eqb name EmptyString); [now rewrite app_nil_r|reflexivity]. }
  destruct single as [child|]; destruct many as [l|]; simpl;
    rewrite ?(fold_left_append (fun c acc => traverseIndexes c acc)
                (fun c => traverseIndexes c []) l) by (apply (IHn l eq_refl));
    rewrite ?(IH1 child eq_refl pushed), Hpushed, ?app_nil_r, <- ?app_assoc;
    reflexivity.
Qed.

Lemma traverseIndexes_acc (s : Stage) :
  forall acc, traverseIndexes s acc = acc ++ traverseIndexes s [].
Proof.
  induction s as [s IH] using Stage_children_ind.
  rewrite Forall_forall in IH.
  intros acc. rewrite (traverseIndexes_body s IH acc).
  rewrite (traverseIndexes_body s IH []). reflexivity.
Qed.

(** The names in the order of the traversal: the node's own, then those
    of each child's subtree in turn. *)
Lemma traverseIndexes_unfold (s : Stage) :
  traverseIndexes s [] =
  pushedIndex s
    ++ List.concat (map (fun c => traverseIndexes c []) (children s)).
Proof.
  apply (traverseIndexes_body s). intros c _. apply traverseIndexes_acc.
Qed.

Lemma pushedIndex_In (s : Stage) (x : string) :
  In x (pushedIndex s) <-> indexName s = Some x /\ x <> EmptyString.
Proof.
  unfold pushedIndex. destruct (indexName s) as [name|]; simpl.
  - destruct (String.eqb name EmptyString) eqn:E; simpl.
    + apply String.eqb_eq in E. subst. split; [intros []|].
      intros [H1 H2]. congruence.
    + apply String.eqb_neq in E. split.
      * intros [<-|[]]. now split.
      * intros [H1 _]. left. congruence.
  - split; [intros []|intros [H _]; discriminate].
Qed.

(** The names pushed are those of the nodes of the tree. *)
Lemma traverseIndexes_In (s : Stage) (x : string) :
  In x (traverseIndexes s []) <->
  exists t, subtree t s /\ indexName t = Some x /\ x <> EmptyString.
Proof.
  induction s as [s IH] using Stage_children_ind.
  rewrite Forall_forall in IH.
  rewrite traverseIndexes_unfold, in_app_iff, pushedIndex_In. split.
  - intros [H|H].
    + exists s. split; [constructor|assumption].
    + apply in_concat in H as [names [Hnames Hx]].
      apply in_map_iff in Hnames as [c [<- Hc]].
      apply (IH c Hc) in Hx as [t [Hsub Ht]].
      exists t. split; [|assumption]. now apply subtree_child with c.
  - intros [t [Hsub Ht]].
    inversion Hsub as [|s' c Hc Hsub']; subst.
    + now left.
    + right. apply in_concat. exists (traverseIndexes c []). split.
      * apply in_map_iff. now exists c.
      * apply (IH c Hc). now exists t.
Qed.

End IndexFacts.

(* ================================================================== *)
(** ** The indexes used *)
(* ================================================================== *)

Module Indexes.
Import JS Profiler StageFacts SetFacts IndexFacts.

(** C6.  For a stage tree [root] under the execution statistics of an
    explain result, [indexesUsed] holds exactly the index names carried
    by the nodes of the tree (a name is carried when the field is present
    and not the empty string), holds none of them twice, and lists them in
    the order of their first occurrence in the traversal, which visits a
    node before its children and the children in their order. *)
Theorem extractIndexesUsed_first_seen :
  forall qp si t k e r root,
    let explainResult :=
      mkExplainResult qp (Some (mkExecutionStats t k e r (Some root))) si in
    let used := extractIndexesUsed explainResult in
    let seen := traverseIndexes root [] in
    (forall x, In x used <->
       exists node, subtree node root /\ indexName node = Some x
                    /\ x <> EmptyString)
    /\ NoDup used
    /\ (forall x y, In x used -> In y used ->
          (index_of x used < index_of y used <->
           index_of x seen < index_of y seen))
    /\ (forall s, traverseIndexes s [] =
          pushedIndex s
            ++ List.concat (map (fun c => traverseIndexes c []) (children s))).
Proof.
  intros qp si t k e r root explainResult used seen.
  assert (Hused : used = Set_of seen) by reflexivity.
  repeat split.
  - intros H. rewrite Hused in H. apply (proj1 (Set_of_In _ _)) in H.
    now apply traverseIndexes_In.
  - intros H. rewrite Hused. apply (proj2 (Set_of_In _ _)).
    now apply traverseIndexes_In.
  - rewrite Hused. apply Set_of_NoDup.
  - rewrite Hused. apply Set_of_order; now apply (proj1 (Set_of_In seen _)).
  - rewrite Hused. apply Set_of_order; now apply (proj1 (Set_of_In seen _)).
  - apply traverseIndexes_unfold.
Qed.

Lemma extractIndexesUsed_first_seen_witness :
  let used := extractIndexesUsed (Examples.planOf Examples.orStage) in
  index_of "status_1" used < index_of "age_1" used.
Proof.
  apply (proj1 (proj2 (proj2 (extractIndexesUsed_first_seen
           None None None None None None Examples.orStage)))
           "status_1" "age_1").
  - vm_compute. auto.
  - vm_compute. auto.
  - vm_compute. lia.
Defined.

End Indexes.

(* ================================================================== *)
(** ** The missing-index recommendation *)
(* ================================================================== *)

Module Recommendations.
Import JS Profiler.





(** And for an update logged with an empty [filter] beside a [q]: the
    operation is rebuilt with the [q], which has a field, and no
    recommendation is made, the [filter] being empty. *)
Example no_missing_index_with_a_rebuilt_filter :
  let command := Examples.updateWithTwoFilters in
  let explainResult := Examples.planOf (Examples.leaf "COLLSCAN") in
  generateIndexRecommendations explainResult command = []
  /\ isCollectionScan explainResult = true
  /\ Spec.rebuiltFilter (Some "update") command = VObject [("a", VNumber 1)].
Proof. repeat split. Qed.

End Recommendations.

(* ================================================================== *)
(** ** Rebuilding the operation *)
(* ================================================================== *)

Module Reconstruction.
Import JS Profiler.

Lemma array_is_truthy (v : value) :
  truthy v && Array_isArray v = Array_isArray v.
Proof. destruct v; simpl; try reflexivity; apply andb_false_r. Qed.

(** The branch taken by [switch (profileDoc.op)], one case per label. *)
Lemma reconstruct_cases (op : option string) (command : document) :
  (op = Some "aggregate" /\
   reconstruct op command =
   if Array_isArray (get command "pipeline")
   then Ok (Aggregate (get command "pipeline"))
   else Throw "Invalid aggregation pipeline")
  \/
  (op <> Some "aggregate" /\
   exists request filter,
     reconstruct op command = Ok request /\
     Spec.requestFilter request = Some filter /\
     (filter = or (or (get command "filter") (get command "query")) emptyObject
      \/ filter = or (or (get command "q") (get command "filter")) emptyObject
      \/ filter = or (or (get command "query") (get command "filter")) emptyObject)).
Proof.
  unfold reconstruct.
  destruct op as [s|]; simpl.
  2:{ right. split; [discriminate|]. do 2 eexists.
      split; [reflexivity|]. split; [reflexivity|]. auto. }
  destruct (String.eqb s "aggregate") eqn:Eagg.
  - apply String.eqb_eq in Eagg. subst s. left. split; [reflexivity|].
    simpl. now rewrite array_is_truthy.
  - right. split.
    { intros E. injection E as ->. discriminate. }
    destruct (String.eqb s "query" || String.eqb s "find");
      [|destruct (String.eqb s "update");
        [|destruct (String.eqb s "delete" || String.eqb s "remove");
          [|destruct (String.eqb s "count")]]];
      (do 2 eexists; split; [reflexivity|]; split; [reflexivity|]; auto).
Qed.

(** C3, as the code has it.  Rebuilding the operation fails exactly when
    the operation type is [aggregate] and the [pipeline] field of the
    logged command is not an array (it is absent, or holds anything
    else); the message is then [Invalid aggregation pipeline] and no
    empty pipeline is substituted.  An array is passed on as it is, the
    empty one included.  No other operation type fails.  The filter is
    the first truthy one of two fields of the command, and the empty
    object when neither is truthy: [filter] then [query] for a find, a
    query and an unknown type, [q] then [filter] for an update, a delete
    and a remove, [query] then [filter] for a count; an update takes its
    modification from [u] then [update] in the same way, and a find its
    sort, limit and skip from the fields of these names. *)
Theorem reconstruct_fails_iff_pipeline_not_array :
  forall op command,
    ((exists message, reconstruct op command = Throw message) <->
     (op = Some "aggregate" /\ Array_isArray (get command "pipeline") = false))
    /\ (forall message, reconstruct op command = Throw message ->
          message = "Invalid aggregation pipeline")
    /\ (forall items, op = Some "aggregate" ->
          get command "pipeline" = VArray items ->
          reconstruct op command = Ok (Aggregate (VArray items)))
    /\ (op <> Some "aggregate" ->
          exists request, reconstruct op command = Ok request /\
            (truthy (get command "filter") = false ->
             truthy (get command "query") = false ->
             truthy (get command "q") = false ->
             Spec.requestFilter request = Some emptyObject))
    /\ (let first_of a b :=
           if truthy (get command a) then get command a
           else if truthy (get command b) then get command b
           else VObject [] in
         let or_else a d :=
           if truthy (get command a) then get command a else d in
         (op = Some "query" \/ op = Some "find" ->
            reconstruct op command =
            Ok (Find (first_of "filter" "query") (or_else "sort" (VObject []))
                     (or_else "limit" (VNumber 0))
                     (or_else "skip" (VNumber 0))))
         /\ (op = Some "update" ->
               reconstruct op command =
               Ok (UpdateMany (first_of "q" "filter") (first_of "u" "update")))
         /\ (op = Some "delete" \/ op = Some "remove" ->
               reconstruct op command = Ok (DeleteMany (first_of "q" "filter")))
         /\ (op = Some "count" ->
               reconstruct op command =
               Ok (CountDocuments (first_of "query" "filter")))
         /\ (~ In op [Some "query"; Some "find"; Some "update"; Some "delete";
                      Some "remove"; Some "count"; Some "aggregate"] ->
               reconstruct op command =
               Ok (FindOnly (first_of "filter" "query")))).
Proof.
  intros op command.
  assert (Hrest :
    let first_of a b :=
      if truthy (get command a) then get command a
      else if truthy (get command b) then get command b
      else VObject [] in
    let or_else a d :=
      if truthy (get command a) then get command a else d in
    (op = Some "query" \/ op = Some "find" ->
       reconstruct op command =
       Ok (Find (first_of "filter" "query") (or_else "sort" (VObject []))
                (or_else "limit" (VNumber 0))
                (or_else "skip" (VNumber 0))))
    /\ (op = Some "update" ->
          reconstruct op command =
          Ok (UpdateMany (first_of "q" "filter") (first_of "u" "update")))
    /\ (op = Some "delete" \/ op = Some "remove" ->
          reconstruct op command = Ok (DeleteMany (first_of "q" "filter")))
    /\ (op = Some "count" ->
          reconstruct op command =
          Ok (CountDocuments (first_of "query" "filter")))
    /\ (~ In op [Some "query"; Some "find"; Some "update"; Some "delete";
                 Some "remove"; Some "count"; Some "aggregate"] ->
          reconstruct op command =
          Ok (FindOnly (first_of "filter" "query")))).
  { assert (Hor : forall a b,
              or (or (get command a) (get command b)) emptyObject =
              if truthy (get command a) then get command a
              else if truthy (get command b) then get command b
              else VObject []).
    { intros a b. unfold or.
      destruct (truthy (get command a)) eqn:Ea; [now rewrite Ea|].
      now destruct (truthy (get command b)). }
    cbv zeta. unfold reconstruct. rewrite !Hor. unfold or, emptyObject.
    split; [|split; [|split; [|split]]].
    - intros [-> | ->]; reflexivity.
    - intros ->; reflexivity.
    - intros [-> | ->]; reflexivity.
    - intros ->; reflexivity.
    - intros Hnot. destruct op as [s|]; [|reflexivity].
      assert (Hs : forall name,
                In (Some name) [Some "query"; Some "find"; Some "update";
                                Some "delete"; Some "remove"; Some "count";
                                Some "aggregate"] ->
                String.eqb s name = false).
      { intros name Hin. apply String.eqb_neq. intros ->. now apply Hnot. }
      rewrite (Hs "query"), (Hs "find"), (Hs "update"), (Hs "delete"),
        (Hs "remove"), (Hs "count"), (Hs "aggregate") by (simpl; tauto).
      reflexivity. }
  cut (((exists message, reconstruct op command = Throw message) <->
        (op = Some "aggregate"
         /\ Array_isArray (get command "pipeline") = false))
       /\ (forall message, reconstruct op command = Throw message ->
             message = "Invalid aggregation pipeline")
       /\ (forall items, op = Some "aggregate" ->
             get command "pipeline" = VArray items ->
             reconstruct op command = Ok (Aggregate (VArray items)))
       /\ (op <> Some "aggregate" ->
             exists request, reconstruct op command = Ok request /\
               (truthy (get command "filter") = false ->
                truthy (get command "query") = false ->
                truthy (get command "q") = false ->
                Spec.requestFilter request = Some emptyObject))).
  { intros [A [B [C D]]].
    split; [exact A|]. split; [exact B|]. split; [exact C|].
    split; [exact D|exact Hrest]. }
  clear Hrest.
  destruct (reconstruct_cases op command)
    as [[Hop Hr]|[Hop [request [filter [Hr [Hf Hcase]]]]]].
  - rewrite Hr. destruct (Array_isArray (get command "pipeline")) eqn:E.
    + split; [split|split; [|split]].
      * intros [m Hm]. discriminate.
      * intros [_ H]. discriminate.
      * intros m Hm. discriminate.
      * intros items _ Hp. now rewrite Hp.
      * intros H. contradiction.
    + split; [split|split; [|split]].
      * intros _. now split.
      * intros _. now eexists.
      * intros m Hm. now injection Hm as <-.
      * intros items _ Hp. rewrite Hp in E. discriminate.
      * intros H. contradiction.
  - rewrite Hr. split; [split|split; [|split]].
    + intros [m Hm]. discriminate.
    + intros [H _]. contradiction.
    + intros m Hm. discriminate.
    + intros items H. contradiction.
    + intros _. exists request. split; [reflexivity|].
      intros H1 H2 H3. rewrite Hf. f_equal.
      destruct Hcase as [-> | [-> | ->]]; unfold or;
        repeat (rewrite ?H1, ?H2, ?H3; cbv iota); reflexivity.
Qed.

Lemma reconstruct_fails_iff_pipeline_not_array_witness :
  reconstruct (Some "aggregate") [("pipeline", VArray [VObject []])] =
  Ok (Aggregate (VArray [VObject []])).
Proof.
  apply (proj1 (proj2 (proj2 (reconstruct_fails_iff_pipeline_not_array
           (Some "aggregate") [("pipeline", VArray [VObject []])])))
           [VObject []]); reflexivity.
Defined.

(** C3, as the specification states it, fails on an empty pipeline: the
    operation is rebuilt although the command holds no non-empty
    sequence of stage documents. *)
Lemma empty_pipeline_is_accepted :
  ~ ((exists message,
        reconstruct (Some "aggregate") [("pipeline", VArray [])] = Throw message)
     <-> Spec.isStagePipeline (get [("pipeline", VArray [])] "pipeline") = false).
Proof.
  intros [_ H]. destruct (H eq_refl) as [message Hm]. discriminate.
Qed.

End Reconstruction.

(* ================================================================== *)
(** ** Locating the operation and assembling the response *)
(* ================================================================== *)

Module Route.
Import JS Profiler.

Section Handler.

Variable ObjectId_valid : string -> bool.
Variable findOne : Query -> result (option ProfileDoc).
Variable explain : string -> string -> ExplainRequest -> result ExplainResult.

Local Abbreviation locate := (Profiler.locate ObjectId_valid findOne).
Local Abbreviation explainRoute :=
  (Profiler.explainRoute ObjectId_valid findOne explain).
Local Abbreviation explainPlanOf := (Profiler.explainPlanOf explain).

(** C4, as the code has it.  The lookup by document identifier is tried
    first.  When it resolves, to a document or to none, its answer is
    the answer: no other lookup is made after a valid identifier that
    matches nothing.  The lookup by literal identifier or by the comment
    of the logged command is made when something is thrown on the way:
    no document identifier can be built from the string, or the first
    lookup is rejected; its answer is then the answer.  The handler
    answers with the document found, with the not-found response when
    the lookup that counts resolves to none, and with status 500 and the
    message of the error when the second lookup is rejected, which is
    the only way for the search to fail. *)
Theorem locate_falls_back_only_after_a_throw :
  forall queryId,
    (ObjectId_valid queryId = true ->
       forall found, findOne (ById queryId) = Ok found ->
         locate queryId = Ok found)
    /\ (ObjectId_valid queryId = false
        \/ (exists message, findOne (ById queryId) = Throw message) ->
          locate queryId = findOne (ByStringIdOrComment queryId))
    /\ (forall message,
          locate queryId = Throw message ->
          findOne (ByStringIdOrComment queryId) = Throw message
          /\ (ObjectId_valid queryId = false
              \/ exists first, findOne (ById queryId) = Throw first))
    /\ (queryId <> EmptyString -> locate queryId = Ok None ->
          explainRoute (Some queryId) =
          Status404 "Query not found"
                    ("No profiler data found for queryId: " ++ queryId))
    /\ (queryId <> EmptyString ->
        forall message,
          locate queryId = Throw message ->
          explainRoute (Some queryId) =
          Status500 "Failed to retrieve explain plan" message).
Proof.
  intros queryId. split; [|split; [|split; [|split]]].
  - unfold Profiler.locate. intros -> found ->. reflexivity.
  - unfold Profiler.locate. intros [-> | [message Hm]]; [reflexivity|].
    rewrite Hm. now destruct (ObjectId_valid queryId).
  - unfold Profiler.locate. intros message.
    destruct (ObjectId_valid queryId); [|auto].
    destruct (findOne (ById queryId)) as [found|first] eqn:E;
      [discriminate|].
    intros H. split; [exact H|]. right. now exists first.
  - intros Hne Hnone. unfold Profiler.explainRoute. simpl.
    apply String.eqb_neq in Hne. rewrite Hne. simpl.
    now rewrite Hnone.
  - intros Hne message Hthrow. unfold Profiler.explainRoute. simpl.
    apply String.eqb_neq in Hne. rewrite Hne. simpl.
    now rewrite Hthrow.
Qed.

(** C8.  Once the operation is located and its namespace names a
    database and a collection, a failure of the plan step (the operation
    cannot be rebuilt, or the explain call is rejected) yields a body with
    [success: false], the message of the error, the identifier, the
    namespace, the operation type, the logged command and the profiler
    metadata, and a null explain plan; a plan step that succeeds yields a
    body with [success: true] and the plan. *)
Theorem partial_result_on_plan_failure :
  forall queryId profileDoc namespace dbName collectionName,
    queryId <> EmptyString ->
    locate queryId = Ok (Some profileDoc) ->
    Doc.ns profileDoc = Some namespace ->
    split_dot2 namespace = [dbName; collectionName] ->
    collectionName <> EmptyString ->
    let command := commandOf profileDoc in
    let data plan :=
      Data.mk queryId namespace (Doc.op profileDoc) command plan
        (ProfilerData.mk (Doc.ts profileDoc) (or_zero (Doc.millis profileDoc))
           (Doc.planSummary profileDoc) (Doc.client profileDoc)
           (Doc.user profileDoc)) in
    (forall message,
        (reconstruct (Doc.op profileDoc) command = Throw message
         \/ exists request,
              reconstruct (Doc.op profileDoc) command = Ok request /\
              explain dbName collectionName request = Throw message) ->
        explainRoute (Some queryId) =
        Json (Body.mk false (Some "Failed to generate explain plan")
                (Some message) (data None)))
    /\ (forall request explainResult,
          reconstruct (Doc.op profileDoc) command = Ok request ->
          explain dbName collectionName request = Ok explainResult ->
          exists plan,
            explainRoute (Some queryId) =
            Json (Body.mk true None None (data (Some plan)))
            /\ ExplainPlan.performance plan =
               performanceOf explainResult profileDoc
            /\ ExplainPlan.recommendations plan =
               generateIndexRecommendations explainResult command
            /\ ExplainPlan.stages plan = extractExecutionStages explainResult).
Proof.
  intros queryId profileDoc namespace dbName collectionName
         Hid Hloc Hns Hsplit Hcoll command data.
  assert (Hnsne : namespace <> EmptyString).
  { intros ->. discriminate. }
  assert (Hroute : explainRoute (Some queryId) =
            match explainPlanOf profileDoc command dbName collectionName with
            | Ok plan => Json (Body.mk true None None (data (Some plan)))
            | Throw msg =>
                Json (Body.mk false (Some "Failed to generate explain plan")
                        (Some msg) (data None))
            end).
  { unfold Profiler.explainRoute.
    simpl. apply String.eqb_neq in Hid. rewrite Hid. simpl.
    rewrite Hloc, Hns. simpl.
    apply String.eqb_neq in Hnsne. rewrite Hnsne. simpl.
    rewrite Hsplit. simpl.
    apply String.eqb_neq in Hcoll. rewrite Hcoll. simpl.
    reflexivity. }
  rewrite Hroute. unfold Profiler.explainPlanOf.
  split.
  - intros message [Hr|[request [Hr He]]]; rewrite Hr; [|rewrite He];
      reflexivity.
  - intros request explainResult Hr He. rewrite Hr, He.
    eexists. split; [reflexivity|]. simpl. auto.
Qed.

End Handler.

(** The identifier is a valid document identifier, no document has it,
    and a document carries it as its comment: the handler does not find
    that document. *)
Lemma no_fallback_after_a_valid_id :
  let log := [Examples.taggedQuery] in
  let queryId := "aaaaaaaaaaaaaaaaaaaaaaaa" in
  ~ (memoryFindOne log (ById queryId) = Ok None ->
     Profiler.locate hex24 (memoryFindOne log) queryId =
     memoryFindOne log (ByStringIdOrComment queryId)).
Proof.
  intros log queryId H. specialize (H eq_refl). vm_compute in H. discriminate.
Qed.

Lemma locate_falls_back_only_after_a_throw_witness :
  Profiler.locate hex24
    (Examples.rejectsIds "connection closed" [Examples.taggedQuery])
    "aaaaaaaaaaaaaaaaaaaaaaaa" =
  Ok (Some Examples.taggedQuery).
Proof.
  rewrite (proj1 (proj2 (locate_falls_back_only_after_a_throw
             hex24
             (Examples.rejectsIds "connection closed" [Examples.taggedQuery])
             (Examples.explainRejects "unreachable")
             "aaaaaaaaaaaaaaaaaaaaaaaa"))).
  - reflexivity.
  - right. now exists "connection closed".
Defined.

Lemma partial_result_on_plan_failure_witness :
  Profiler.explainRoute hex24 (memoryFindOne [Examples.pendingOrders])
    (Examples.explainRejects "ns does not exist")
    (Some "65a1b2c3d4e5f60718293a4b") =
  Json (Body.mk false (Some "Failed to generate explain plan")
          (Some "ns does not exist")
          (Data.mk "65a1b2c3d4e5f60718293a4b" "shop.orders" (Some "find")
             [("filter", VObject [("status", VString "pending")])] None
             (ProfilerData.mk (VString "2025-01-01") 420%float
                VUndefined VUndefined VUndefined))).
Proof.
  apply (proj1 (partial_result_on_plan_failure
           hex24 (memoryFindOne [Examples.pendingOrders])
           (Examples.explainRejects "ns does not exist")
           "65a1b2c3d4e5f60718293a4b" Examples.pendingOrders
           "shop.orders" "shop" "orders"
           ltac:(discriminate) eq_refl eq_refl eq_refl ltac:(discriminate))
           "ns does not exist").
  right. eexists. split; reflexivity.
Defined.

End Route.

(* ================================================================== *)
(** ** The efficiency of the explain route *)
(* ================================================================== *)

Module Efficiency.
Import JS Profiler.

Lemma zeroOrAbsent_falsy (counter : option float) :
  Spec.zeroOrAbsent counter -> truthy_num counter = false.
Proof.
  destruct counter as [f|]; simpl; [|reflexivity].
  unfold truthy_float. intros ->. apply andb_false_r.
Qed.

Lemma or_num_falsy (a b : option float) :
  truthy_num a = false -> or_num a b = b.
Proof. unfold or_num. now intros ->. Qed.

Lemma stats_field_or_empty {A : Type} (field : ExecutionStats -> option A)
    (explainResult : ExplainResult) :
  field emptyStats = None ->
  field (stats_or_empty explainResult) = stats_field field explainResult.
Proof.
  unfold stats_or_empty, stats_field.
  now destruct (executionStats explainResult).
Qed.

(** C9.  A summary counter of the explain result that is 0 or absent
    gives way to the metric recorded in the profiler document: each of the
    four fields of the performance block then holds the recorded metric
    (or 0 when that one is falsy too), and when both document counters of
    the summary are 0 or absent the efficiency is computed from the
    recorded [docsExamined] and [docsReturned] alone: 100 when the
    recorded [docsExamined] is 0 or absent, 0 when it is not and the
    recorded [docsReturned] is 0 or absent, and else the rounded
    percentage of the recorded documents returned among those examined.
    So an explain result that examined nothing reports 25 when the
    recorded operation examined 200 documents for 50, and 0, not 100,
    when it examined 50000 for 3. *)
Theorem summary_counters_fall_back_to_profile :
  (forall explainResult profileDoc,
     let performance := performanceOf explainResult profileDoc in
     (Spec.zeroOrAbsent (stats_field executionTimeMillis explainResult) ->
        Performance.executionTimeMillis performance =
        or_zero (Doc.millis profileDoc))
     /\ (Spec.zeroOrAbsent (stats_field totalKeysExamined explainResult) ->
           Performance.totalKeysExamined performance =
           or_zero (Doc.keysExamined profileDoc))
     /\ (Spec.zeroOrAbsent (stats_field totalDocsExamined explainResult) ->
           Performance.totalDocsExamined performance =
           or_zero (Doc.docsExamined profileDoc))
     /\ (Spec.zeroOrAbsent (stats_field totalDocsReturned explainResult) ->
           Performance.totalDocsReturned performance =
           or_zero (Doc.docsReturned profileDoc))
     /\ (Spec.zeroOrAbsent (stats_field totalDocsExamined explainResult) ->
         Spec.zeroOrAbsent (stats_field totalDocsReturned explainResult) ->
           let examined := or_zero (Doc.docsExamined profileDoc) in
           let returned := or_zero (Doc.docsReturned profileDoc) in
           Performance.efficiency performance =
           if PrimFloat.eqb examined 0 then 100%float
           else if PrimFloat.eqb returned 0 then 0%float
           else Math_round ((returned / examined) * 100)%float))
  /\ Performance.efficiency
       (performanceOf (Examples.summary (Some 0%float) None)
                      Examples.pendingOrders) = 0%float
  /\ Performance.efficiency
       (performanceOf (Examples.summary (Some 0%float) None)
                      (Examples.counters None (Some 200%float)
                                         (Some 50%float))) = 25%float.
Proof.
  split; [|split; vm_compute; reflexivity].
  intros explainResult profileDoc performance. subst performance. simpl.
  repeat split; intros H; try intros H'.
  1-4: apply zeroOrAbsent_falsy in H; now rewrite (or_num_falsy _ _ H).
  apply zeroOrAbsent_falsy in H, H'.
  unfold calculateEfficiency.
  rewrite !stats_field_or_empty by reflexivity.
  rewrite (or_num_falsy _ _ H), (or_num_falsy _ _ H'). reflexivity.
Qed.

Lemma summary_counters_fall_back_to_profile_witness :
  Performance.efficiency
    (performanceOf (Examples.summary (Some 0%float) None)
                   (Examples.counters None (Some 200%float) (Some 29%float)))
  = 14%float.
Proof.
  rewrite (proj2 (proj2 (proj2 (proj2
            (proj1 summary_counters_fall_back_to_profile
               (Examples.summary (Some 0%float) None)
               (Examples.counters None (Some 200%float) (Some 29%float))))))).
  - vm_compute. reflexivity.
  - reflexivity.
  - exact I.
Defined.

(** The counters the efficiency is computed from: the summary counter
    when it is a number other than 0, else the metric recorded in the
    profiler document when that is one, else 0. *)
Lemma effective_counter (summary recorded : option float) :
  or_zero (or_num summary recorded) =
  match summary with
  | Some f => if truthy_float f then f else or_zero recorded
  | None => or_zero recorded
  end.
Proof.
  unfold or_num, or_zero. destruct summary as [f|]; simpl; [|reflexivity].
  destruct (truthy_float f) eqn:E; [now rewrite E|reflexivity].
Qed.

(** C1, as the code has it.  The efficiency is computed from the
    effective counters, each of them the summary counter of the explain
    result unless that one is 0 or absent, in which case it is the metric
    recorded in the profiler document (0 when that is falsy as well).  It
    is 100 when the effective [docsExamined] is 0, whatever
    [docsReturned]; 0 when the effective [docsExamined] is not 0 and the
    effective [docsReturned] is 0; and otherwise, for no more documents
    returned than examined, [Math.round((docsReturned / docsExamined) *
    100)] in the arithmetic of the program. *)
Theorem efficiency_of_effective_counters :
  forall explainResult profileDoc,
    let examined :=
      or_zero (or_num (stats_field totalDocsExamined explainResult)
                      (Doc.docsExamined profileDoc)) in
    let returned :=
      or_zero (or_num (stats_field totalDocsReturned explainResult)
                      (Doc.docsReturned profileDoc)) in
    let efficiency := calculateEfficiency explainResult profileDoc in
    let effective summary recorded :=
      match summary with
      | Some f => if truthy_float f then f else or_zero recorded
      | None => or_zero recorded
      end in
    examined = effective (stats_field totalDocsExamined explainResult)
                         (Doc.docsExamined profileDoc)
    /\ returned = effective (stats_field totalDocsReturned explainResult)
                            (Doc.docsReturned profileDoc)
    /\ (PrimFloat.eqb examined 0 = true -> efficiency = 100%float)
    /\ (PrimFloat.eqb examined 0 = false -> PrimFloat.eqb returned 0 = true ->
          efficiency = 0%float)
    /\ (PrimFloat.eqb examined 0 = false -> PrimFloat.eqb returned 0 = false ->
        PrimFloat.leb returned examined = true ->
          efficiency = Math_round ((returned / examined) * 100)%float).
Proof.
  intros explainResult profileDoc examined returned efficiency effective.
  subst efficiency. unfold calculateEfficiency.
  rewrite !stats_field_or_empty by reflexivity.
  fold examined returned.
  split; [apply effective_counter|].
  split; [apply effective_counter|].
  split; [|split].
  - now intros ->.
  - now intros -> ->.
  - now intros -> -> _.
Qed.

Lemma efficiency_of_effective_counters_witness :
  calculateEfficiency (Examples.summary (Some 200%float) (Some 50%float))
                      (Examples.counters None None None) = 25%float.
Proof.
  apply (proj2 (proj2 (proj2 (proj2 (efficiency_of_effective_counters
           (Examples.summary (Some 200%float) (Some 50%float))
           (Examples.counters None None None)))))); reflexivity.
Defined.

(** C1, as the specification states it, reads the summary counters
    alone; with a summary that examined nothing and a recorded operation
    that examined 50000 documents for 3, the efficiency is 0, not 100. *)
Lemma efficiency_is_not_of_summary_counters :
  calculateEfficiency (Examples.summary (Some 0%float) None)
                      Examples.pendingOrders
  <> Spec.summaryEfficiency (Examples.summary (Some 0%float) None).
Proof.
  vm_compute. intros H. apply (f_equal Prim2SF) in H. vm_compute in H.
  discriminate.
Qed.

(** The product is rounded after the quotient: 29 documents out of 200
    give 14, where the rounding of 14.5 would give 15. *)
Example efficiency_29_of_200 :
  calculateEfficiency (Examples.summary (Some 200%float) (Some 29%float))
                      (Examples.counters None None None) = 14%float
  /\ Math_round (100 * 29 / 200)%float = 15%float.
Proof. split; vm_compute; reflexivity. Qed.

(** C2.  The efficiency of the explain route is not clamped: with twice
    as many documents returned as examined it is 200, above 100. *)
Theorem efficiency_exceeds_100 :
  calculateEfficiency (Examples.summary (Some 1%float) (Some 2%float))
                      (Examples.counters None None None) = 200%float
  /\ PrimFloat.leb 200 100 = false.
Proof. split; vm_compute; reflexivity. Qed.

End Efficiency.

(* ================================================================== *)
(** ** Facts on binary64 arithmetic used by the clamped efficiency *)
(* ================================================================== *)

Module FloatFacts.
Import JS.

(** *** The specification level *)

Lemma SFcompare_antisym (x y : spec_float) (c : comparison) :
  SFcompare x y = Some c -> SFcompare y x = Some (CompOpp c).
Proof.
  destruct x as [sx|sx| |sx mx ex], y as [sy|sy| |sy my ey]; simpl;
    try discriminate;
    try (destruct sx); try (destruct sy); simpl;
    intros H; injection H as <-; try reflexivity;
    rewrite (Z.compare_antisym ex ey); destruct (ex ?= ey)%Z; simpl;
    try reflexivity;
    rewrite (Pos.compare_cont_antisym mx my Eq); reflexivity.
Qed.

Lemma SFcompare_defined (x y : spec_float) :
  x <> S754_nan -> y <> S754_nan -> exists c, SFcompare x y = Some c.
Proof.
  destruct x, y; simpl; intros Hx Hy; try congruence; eexists; reflexivity.
Qed.

Lemma SFeqb_refl_iff (x : spec_float) : SFeqb x x = true <-> x <> S754_nan.
Proof.
  unfold SFeqb. destruct x as [s|s| |s m e]; simpl.
  - split; [discriminate|reflexivity].
  - destruct s; split; (discriminate || reflexivity).
  - split; [discriminate|congruence].
  - rewrite Z.compare_refl.
    assert (H : Pos.compare_cont Eq m m = Eq) by apply Pos.compare_refl.
    destruct s; simpl; rewrite H; simpl; split; (discriminate || reflexivity).
Qed.

(** Shifting a non-negative mantissa to the right keeps it so. *)
Lemma shr_1_nonneg (mrs : shr_record) :
  (0 <= shr_m mrs)%Z -> (0 <= shr_m (shr_1 mrs))%Z.
Proof.
  destruct mrs as [m r s]. simpl.
  destruct m as [|p|p]; [| |lia]; intros _.
  - simpl. lia.
  - destruct p; simpl; lia.
Qed.

Lemma iter_pos_shr_1_nonneg (p : positive) :
  forall mrs, (0 <= shr_m mrs)%Z -> (0 <= shr_m (iter_pos shr_1 p mrs))%Z.
Proof.
  induction p as [p IH|p IH|]; intros mrs H; simpl.
  - apply IH, IH, shr_1_nonneg, H.
  - apply IH, IH, H.
  - apply shr_1_nonneg, H.
Qed.

Lemma shr_fexp_nonneg (prec emax m e : Z) (l : location) :
  (0 <= m)%Z -> (0 <= shr_m (fst (shr_fexp prec emax m e l)))%Z.
Proof.
  intros H. unfold shr_fexp, shr.
  assert (H0 : (0 <= shr_m (shr_record_of_loc m l))%Z).
  { destruct l as [|[ | | ]]; exact H. }
  destruct (fexp prec emax (Zdigits2 m + e) - e)%Z; simpl; try exact H0.
  now apply iter_pos_shr_1_nonneg.
Qed.

Lemma round_nearest_even_nonneg (m : Z) (l : location) :
  (0 <= m)%Z -> (0 <= round_nearest_even m l)%Z.
Proof.
  intros H. destruct l as [|[ | | ]]; simpl; try lia.
  destruct (Z.even m); lia.
Qed.

(** Rounding a non-negative mantissa yields a zero, a finite number or
    an infinity. *)
Lemma binary_round_aux_not_nan (prec emax : Z) (sx : bool) (mx ex : Z)
    (lx : location) :
  (0 <= mx)%Z -> binary_round_aux prec emax sx mx ex lx <> S754_nan.
Proof.
  intros H. unfold binary_round_aux.
  pose proof (shr_fexp_nonneg prec emax mx ex lx H) as H1.
  destruct (shr_fexp prec emax mx ex lx) as [mrs' e']. simpl in H1.
  pose proof (shr_fexp_nonneg prec emax
                (round_nearest_even (shr_m mrs') (loc_of_shr_record mrs'))
                e' loc_Exact (round_nearest_even_nonneg _ _ H1)) as H2.
  destruct (shr_fexp prec emax _ e' loc_Exact) as [mrs'' e'']. simpl in H2.
  destruct (shr_m mrs'') as [|m|m]; [discriminate| |lia].
  destruct (e'' <=? emax - prec)%Z; discriminate.
Qed.

Lemma SFdiv_core_binary_nonneg (prec emax : Z) (m1 : positive) (e1 : Z)
    (m2 : positive) (e2 : Z) :
  (0 <= fst (fst (SFdiv_core_binary prec emax (Zpos m1) e1 (Zpos m2) e2)))%Z.
Proof.
  unfold SFdiv_core_binary.
  set (s := (e1 - e2 - _)%Z).
  set (m' := match s with
             | Zpos _ => Z.shiftl (Zpos m1) s
             | Z0 => Zpos m1
             | Zneg _ => 0%Z
             end).
  assert (Hm : (0 <= m')%Z).
  { subst m'. destruct s; try lia. apply Z.shiftl_nonneg. lia. }
  pose proof (Z_div_mod m' (Zpos m2) eq_refl) as Hdiv.
  destruct (Z.div_eucl m' (Zpos m2)) as [q r]. simpl.
  destruct Hdiv as [Heq Hr]. nia.
Qed.

(** A quotient is NaN only for 0/0, Infinity/Infinity or a NaN operand. *)
Lemma SFdiv_finite_not_nan (prec emax : Z) (sx : bool) (mx : positive)
    (ex : Z) (y : spec_float) :
  y <> S754_nan -> SFdiv prec emax (S754_finite sx mx ex) y <> S754_nan.
Proof.
  intros Hy. destruct y as [sy|sy| |sy my ey]; simpl; try discriminate.
  - congruence.
  - pose proof (SFdiv_core_binary_nonneg prec emax mx ex my ey) as H.
    destruct (SFdiv_core_binary prec emax (Zpos mx) ex (Zpos my) ey)
      as [[mz ez] lz]. simpl in H.
    now apply binary_round_aux_not_nan.
Qed.

(** A product with a finite number other than 0 is NaN only for a NaN
    operand. *)
Lemma SFmul_finite_not_nan (prec emax : Z) (x : spec_float) (sy : bool)
    (my : positive) (ey : Z) :
  x <> S754_nan -> SFmul prec emax x (S754_finite sy my ey) <> S754_nan.
Proof.
  intros Hx. destruct x as [sx|sx| |sx mx ex]; simpl; try discriminate.
  - congruence.
  - apply binary_round_aux_not_nan. lia.
Qed.

End FloatFacts.

Module NumberFacts.
Import JS FloatFacts.
Local Open Scope float_scope.

(** *** The primitive level *)

(** [Math.round] on ties, on negative numbers and next to one half. *)
Example Math_round_values :
  Math_round 14.5 = 15 /\ Math_round (-14.5) = -14
  /\ Math_round 2.25 = 2 /\ Math_round (-2.75) = -3
  /\ Math_round 0x1.fffffffffffffp-2 = 0 /\ Math_round (-0.25) = -0
  /\ Math_round 4503599627370496 = 4503599627370496
  /\ Math_round infinity = infinity.
Proof. repeat split; vm_compute; reflexivity. Qed.

Lemma not_nan_iff (x : float) : (x =? x) = true <-> Prim2SF x <> S754_nan.
Proof. rewrite eqb_spec. apply SFeqb_refl_iff. Qed.

Lemma ltb_leb (x y : float) : (x <? y) = true -> (x <=? y) = true.
Proof.
  rewrite ltb_spec, leb_spec. unfold SFltb, SFleb.
  destruct (SFcompare (Prim2SF x) (Prim2SF y)) as [[ | | ]|];
    (discriminate || reflexivity).
Qed.

(** Two numbers neither of which is below the other compare as equal. *)
Lemma not_ltb_leb (x y : float) :
  (x =? x) = true -> (y =? y) = true ->
  (x <? y) = false -> (y <? x) = false ->
  (x <=? y) = true /\ (y <=? x) = true.
Proof.
  rewrite !not_nan_iff, !ltb_spec, !leb_spec. unfold SFltb, SFleb.
  intros Hx Hy.
  destruct (SFcompare_defined _ _ Hx Hy) as [c Hc].
  rewrite Hc, (SFcompare_antisym _ _ _ Hc).
  destruct c; simpl; intros; (discriminate || now split).
Qed.

Lemma truthy_float_not_nan (f : float) :
  truthy_float f = true -> (f =? f) = true /\ (f =? 0) = false.
Proof.
  unfold truthy_float. intros H. apply andb_true_iff in H as [H1 H2].
  split; [assumption|]. now apply negb_true_iff.
Qed.

(** The end of a counter chain is a number, never NaN. *)
Lemma or_zero_not_nan (a : option float) : (or_zero a =? or_zero a) = true.
Proof.
  destruct a as [f|]; simpl; [|reflexivity].
  destruct (truthy_float f) eqn:E; [|reflexivity].
  now apply truthy_float_not_nan.
Qed.

Lemma or_zero_finite (a : option float) :
  Spec.finiteCounter a -> is_infinity (or_zero a) = false.
Proof.
  destruct a as [f|]; simpl; [|reflexivity].
  intros H. now destruct (truthy_float f).
Qed.

Lemma Math_max_not_nan (x y : float) :
  (x =? x) = true -> (y =? y) = true ->
  (Math_max x y =? Math_max x y) = true.
Proof.
  intros Hx Hy. unfold Math_max. rewrite Hx, Hy. simpl.
  destruct (x <? y); [assumption|].
  destruct (y <? x); [assumption|].
  destruct (get_sign x); assumption.
Qed.

(** A number that is not NaN, not a zero and not infinite is finite. *)
Lemma finite_nonzero (r : float) :
  (r =? r) = true -> (r =? 0) = false -> is_infinity r = false ->
  exists s m e, Prim2SF r = S754_finite s m e.
Proof.
  unfold is_infinity. rewrite not_nan_iff, !eqb_spec, abs_spec.
  change (Prim2SF 0) with (S754_zero false).
  change (Prim2SF infinity) with (S754_infinity false).
  destruct (Prim2SF r) as [s|s| |s m e]; simpl.
  - discriminate.
  - discriminate.
  - congruence.
  - intros _ _ _. now exists s, m, e.
Qed.

(** The quotient of a finite number other than 0 by a number. *)
Lemma div_not_nan (r m : float) :
  (r =? r) = true -> (r =? 0) = false -> is_infinity r = false ->
  (m =? m) = true -> (r / m =? r / m) = true.
Proof.
  intros Hr H0 Hinf Hm.
  destruct (finite_nonzero r Hr H0 Hinf) as [s [mr [er E]]].
  apply not_nan_iff. rewrite div_spec, E.
  apply SFdiv_finite_not_nan. now apply not_nan_iff.
Qed.

Lemma mul_100_not_nan (q : float) :
  (q =? q) = true -> (q * 100 =? q * 100) = true.
Proof.
  intros Hq. apply not_nan_iff. rewrite mul_spec.
  change (Prim2SF 100) with (S754_finite false 7036874417766400 (-46)).
  apply SFmul_finite_not_nan. now apply not_nan_iff.
Qed.

(** [Math.min(100, Math.max(0, x))] lies between 0 and 100 for every
    number [x]. *)
Lemma clamp_range (x : float) :
  (x =? x) = true ->
  (0 <=? Math_min 100 (Math_max 0 x)) = true
  /\ (Math_min 100 (Math_max 0 x) <=? 100) = true.
Proof.
  intros Hx.
  assert (Hmax : Math_max 0 x = 0 \/ (Math_max 0 x = x /\ (0 <? x) = true)).
  { unfold Math_max. rewrite Hx. simpl.
    destruct (0 <? x); [now right|].
    destruct (x <? 0); now left. }
  destruct Hmax as [->|[-> Hpos]]; [split; reflexivity|].
  unfold Math_min. rewrite Hx. simpl.
  destruct (100 <? x) eqn:Habove; [split; reflexivity|].
  destruct (x <? 100) eqn:Hbelow.
  - split; now apply ltb_leb.
  - change (get_sign 100) with false. cbv iota.
    split; [now apply ltb_leb|].
    now apply (not_ltb_leb x 100 Hx eq_refl Hbelow Habove).
Qed.

End NumberFacts.

(* ================================================================== *)
(** ** The trend-side efficiency *)
(* ================================================================== *)

Module Trend.
Import JS Profiler Schema NumberFacts.
Local Open Scope float_scope.

(** C10.  With each counter of the profiler document read as
    [counter || 0], the utility returns 100 when [docsExamined] is 0; 0
    when [docsExamined] is not 0 and [docsReturned] is 0; and otherwise
    [(docsReturned / Math.max(docsExamined, keysExamined)) * 100] in the
    arithmetic of the program, brought into [0, 100] by
    [Math.min(100, Math.max(0, .))] and not rounded.  For every document
    whose [docsReturned] is not infinite the value lies between 0 and 100.
    The denominator differs from the one of the explain route: with 10
    keys and 4 documents examined for 2 returned the utility gives 20
    where the route gives 50. *)
Theorem calculateQueryEfficiency_clamped :
  (forall doc,
     let keysExamined := or_zero (Doc.keysExamined doc) in
     let docsExamined := or_zero (Doc.docsExamined doc) in
     let docsReturned := or_zero (Doc.docsReturned doc) in
     ((docsExamined =? 0) = true -> calculateQueryEfficiency doc = 100)
     /\ ((docsExamined =? 0) = false -> (docsReturned =? 0) = true ->
           calculateQueryEfficiency doc = 0)
     /\ ((docsExamined =? 0) = false -> (docsReturned =? 0) = false ->
           calculateQueryEfficiency doc =
           Math_min 100
             (Math_max 0
                ((docsReturned / Math_max docsExamined keysExamined) * 100)))
     /\ (Spec.finiteCounter (Doc.docsReturned doc) ->
           (0 <=? calculateQueryEfficiency doc) = true
           /\ (calculateQueryEfficiency doc <=? 100) = true))
  /\ (calculateQueryEfficiency
        (Examples.counters (Some 10) (Some 4) (Some 2)) = 20
      /\ calculateEfficiency (mkExplainResult None None None)
           (Examples.counters (Some 10) (Some 4) (Some 2)) = 50).
Proof.
  split; [|split; vm_compute; reflexivity].
  intros doc keysExamined docsExamined docsReturned.
  unfold calculateQueryEfficiency.
  fold keysExamined docsExamined docsReturned.
  split; [|split; [|split]].
  - now intros ->.
  - now intros -> ->.
  - now intros -> ->.
  - intros Hfinite.
    destruct (docsExamined =? 0) eqn:He; [split; reflexivity|].
    destruct (docsReturned =? 0) eqn:Hr; [split; reflexivity|].
    apply clamp_range, mul_100_not_nan, div_not_nan.
    + apply or_zero_not_nan.
    + exact Hr.
    + now apply or_zero_finite.
    + apply Math_max_not_nan; apply or_zero_not_nan.
Qed.

Lemma calculateQueryEfficiency_clamped_witness :
  (0 <=? calculateQueryEfficiency
           (Examples.counters None (Some 3) (Some 50))) = true
  /\ (calculateQueryEfficiency
        (Examples.counters None (Some 3) (Some 50)) <=? 100) = true.
Proof.
  apply (proj1 calculateQueryEfficiency_clamped
           (Examples.counters None (Some 3) (Some 50))).
  reflexivity.
Defined.

(** The hypothesis on [docsReturned] is needed: the quotient of two
    infinities is NaN, and so is its clamped value. *)
Example calculateQueryEfficiency_of_infinities :
  let doc := Examples.counters None (Some infinity) (Some infinity) in
  (calculateQueryEfficiency doc =? calculateQueryEfficiency doc) = false.
Proof. vm_compute. reflexivity. Qed.

End Trend.

(* ================================================================== *)
(** ** Further properties of the diagnostic helpers *)
(* ================================================================== *)

Module Rules.
Import JS Profiler.
Local Open Scope float_scope.

(** X1.  The three rules fire independently and in the order of their
    declaration: the missing-index rule (collection scan and a filter
    with a key), the sort rule (collection scan and a sort with a key),
    the low-efficiency rule (summary counters both above 0 and a ratio
    below 10 percent; the recorded metrics of the profiler document are
    not consulted here). *)
Theorem recommendations_in_rule_order :
  forall explainResult command,
    let filter := recommendationFilter command in
    let sort := recommendationSort command in
    let examined := or_zero (stats_field totalDocsExamined explainResult) in
    let returned := or_zero (stats_field totalDocsReturned explainResult) in
    generateIndexRecommendations explainResult command =
    (if isCollectionScan explainResult
        && negb (Nat.eqb (List.length (Object_keys filter)) 0)
     then [missingIndex filter] else [])
    ++ (if isCollectionScan explainResult
           && negb (Nat.eqb (List.length (Object_keys sort)) 0)
        then [sortIndex filter sort] else [])
    ++ (if (0 <? examined) && (0 <? returned)
           && ((returned / examined) * 100 <? 10)
        then [lowEfficiency ((returned / examined) * 100) examined returned]
        else []).
Proof.
  intros explainResult command filter sort examined returned.
  unfold generateIndexRecommendations.
  rewrite !(Efficiency.stats_field_or_empty _ explainResult) by reflexivity.
  fold filter sort examined returned.
  destruct (isCollectionScan explainResult);
    destruct (Object_keys filter); destruct (Object_keys sort); simpl;
    destruct (0 <? examined); destruct (0 <? returned); simpl;
    try destruct (returned / examined * 100 <? 10); reflexivity.
Qed.

(** X2.  In a tree none of whose nodes carries both a single child and a
    list of children, the collection-scan test finds a COLLSCAN stage wherever
    it stands. *)
Theorem checkForCollScan_iff_some_node :
  forall root,
    (forall node, subtree node root ->
       inputStage node = None \/ inputStages node = None) ->
    (checkForCollScan root = true <->
     exists node, subtree node root /\ stage node = Some "COLLSCAN").
Proof.
  induction root as [s IH] using StageFacts.Stage_children_ind.
  rewrite Forall_forall in IH. intros Hwf.
  assert (Hname : is_COLLSCAN (stage s) = true <-> stage s = Some "COLLSCAN").
  { unfold is_COLLSCAN. destruct (stage s) as [name|].
    - rewrite String.eqb_eq. split; congruence.
    - split; discriminate. }
  assert (IH' : forall c, In c (children s) ->
            (checkForCollScan c = true <->
             exists node, subtree node c /\ stage node = Some "COLLSCAN")).
  { intros c Hc. apply (IH c Hc). intros node Hnode. apply Hwf.
    now apply subtree_child with c. }
  assert (Hunfold : checkForCollScan s =
            is_COLLSCAN (stage s) || existsb checkForCollScan (children s)).
  { pose proof (Hwf s (subtree_here s)) as Hone. unfold children.
    destruct s as [n t w a nt ny eof idx dir de ke single many]; simpl in *.
    destruct (is_COLLSCAN n); simpl; [reflexivity|].
    destruct single as [child|], many as [l|]; simpl;
      rewrite ?orb_false_r; try reflexivity.
    destruct Hone; discriminate. }
  rewrite Hunfold, orb_true_iff, Hname, existsb_exists. split.
  - intros [H|[c [Hc Hscan]]].
    + exists s. split; [constructor|assumption].
    + apply (IH' c Hc) in Hscan as [node [Hsub Hst]].
      exists node. split; [|assumption]. now apply subtree_child with c.
  - intros [node [Hsub Hst]].
    inversion Hsub as [|s' c Hc Hsub']; subst.
    + now left.
    + right. exists c. split; [assumption|]. apply (IH' c Hc). now exists node.
Qed.

Lemma checkForCollScan_iff_some_node_witness :
  checkForCollScan Examples.orScan = true.
Proof.
  apply (proj2 (checkForCollScan_iff_some_node Examples.orScan
    ltac:(intros node H;
          destruct node as [n t w a nt ny eof idx dir de ke [child|] [l|]];
          simpl; auto;
          exfalso;
          inversion H as [|s c Hc Hsub]; subst;
          simpl in Hc; destruct Hc as [<-|[<-|[]]];
          inversion Hsub as [|s' c' Hc' Hsub']; subst; destruct Hc'))).
  exists (Examples.leaf "COLLSCAN"). split; [|reflexivity].
  apply subtree_child with (Examples.leaf "COLLSCAN"); [|constructor].
  simpl. auto.
Defined.

End Rules.

Module Scenarios.
Import JS Profiler.
Local Open Scope float_scope.

(** X3.  For a command whose truthy filter aliases all hold one filter,
    the filter the generator inspects is the filter of the rebuilt
    operation. *)
Theorem recommendationFilter_is_request_filter :
  forall op command request filter,
    reconstruct op command = Ok request ->
    Spec.requestFilter request = Some filter ->
    (forall alias, In alias ["filter"; "query"; "q"] ->
       truthy (get command alias) = true -> get command alias = filter) ->
    recommendationFilter command = filter.
Proof.
  intros op command request filter Hr Hf Hall.
  destruct (Reconstruction.reconstruct_cases op command)
    as [[_ Hagg]|[_ [request' [filter' [Hr' [Hf' Hcase]]]]]].
  - rewrite Hagg in Hr.
    destruct (Array_isArray (get command "pipeline")); [|discriminate].
    injection Hr as <-. discriminate.
  - rewrite Hr' in Hr. injection Hr as ->. rewrite Hf in Hf'.
    injection Hf' as <-.
    pose proof (Hall "filter" ltac:(simpl; auto)) as H1.
    pose proof (Hall "query" ltac:(simpl; auto)) as H2.
    pose proof (Hall "q" ltac:(simpl; auto)) as H3.
    unfold recommendationFilter, or in *.
    destruct (truthy (get command "filter")) eqn:E1;
      destruct (truthy (get command "query")) eqn:E2;
      destruct (truthy (get command "q")) eqn:E3;
      rewrite ?E1, ?E2, ?E3; cbv iota; rewrite ?E1, ?E2, ?E3; cbv iota;
      auto;
      destruct Hcase as [-> | [-> | ->]];
      rewrite ?E1, ?E2, ?E3; cbv iota; rewrite ?E1, ?E2, ?E3; reflexivity.
Qed.

Lemma recommendationFilter_is_request_filter_witness :
  recommendationFilter
    [("q", VObject [("age", VObject [("$lt", VNumber 18)])]);
     ("u", VObject [("$set", VObject [("flag", VBool true)])])] =
  VObject [("age", VObject [("$lt", VNumber 18)])].
Proof.
  apply (recommendationFilter_is_request_filter (Some "update")
           [("q", VObject [("age", VObject [("$lt", VNumber 18)])]);
            ("u", VObject [("$set", VObject [("flag", VBool true)])])]
           (UpdateMany (VObject [("age", VObject [("$lt", VNumber 18)])])
                       (VObject [("$set", VObject [("flag", VBool true)])]))
           (VObject [("age", VObject [("$lt", VNumber 18)])])
           eq_refl eq_refl).
  intros alias [<-|[<-|[<-|[]]]]; simpl; (discriminate || reflexivity).
Defined.

(** The pending-orders query explained as a collection scan:
    efficiency 0, the scan flag, and the missing-index recommendation on the filter
    first. *)
Example pending_orders_collection_scan :
  exists plan,
    explainRoute hex24 (memoryFindOne [Examples.pendingOrders])
      (Examples.explainReturns Examples.scanOfOrders)
      (Some "65a1b2c3d4e5f60718293a4b") =
    Json (Body.mk true None None
            (Data.mk "65a1b2c3d4e5f60718293a4b" "shop.orders" (Some "find")
               [("filter", VObject [("status", VString "pending")])]
               (Some plan)
               (ProfilerData.mk (VString "2025-01-01") 420
                  VUndefined VUndefined VUndefined)))
    /\ Performance.efficiency (ExplainPlan.performance plan) = 0
    /\ Performance.isCollectionScan (ExplainPlan.performance plan) = true
    /\ Performance.indexesUsed (ExplainPlan.performance plan) = []
    /\ hd_error (ExplainPlan.recommendations plan) =
       Some (missingIndex (VObject [("status", VString "pending")])).
Proof. eexists. split; [vm_compute; reflexivity|]. vm_compute. auto. Qed.

(** The same query explained as an index scan that examined the 3
    documents it returned: efficiency 100, no scan flag, no
    recommendation. *)
Example pending_orders_index_scan :
  exists plan,
    explainRoute hex24 (memoryFindOne [Examples.pendingOrders])
      (Examples.explainReturns Examples.indexScanOfOrders)
      (Some "65a1b2c3d4e5f60718293a4b") =
    Json (Body.mk true None None
            (Data.mk "65a1b2c3d4e5f60718293a4b" "shop.orders" (Some "find")
               [("filter", VObject [("status", VString "pending")])]
               (Some plan)
               (ProfilerData.mk (VString "2025-01-01") 420
                  VUndefined VUndefined VUndefined)))
    /\ Performance.efficiency (ExplainPlan.performance plan) = 100
    /\ Performance.isCollectionScan (ExplainPlan.performance plan) = false
    /\ Performance.indexesUsed (ExplainPlan.performance plan) = ["status_1"]
    /\ ExplainPlan.recommendations plan = [].
Proof. eexists. split; [vm_compute; reflexivity|]. vm_compute. auto. Qed.

End Scenarios.

Module Namespace.
Import JS Profiler.
Local Open Scope string_scope.

Lemma append_empty_r (s : string) : s ++ EmptyString = s.
Proof. induction s; simpl; congruence. Qed.

Lemma split_dot_aux_dotless (a s piece : string) :
  Spec.dotless a = true ->
  split_dot_aux (a ++ s) piece = split_dot_aux s (piece ++ a).
Proof.
  revert piece. induction a as [|c a IH]; intros piece; simpl.
  - intros _. f_equal. induction piece; simpl; congruence.
  - destruct (Ascii.eqb c "."%char) eqn:E; simpl; [discriminate|].
    intros H. rewrite (IH _ H). f_equal.
    induction piece; simpl; congruence.
Qed.

(** X4.  The namespace is cut at every separator and the first two
    pieces are the database and the collection: a namespace without a
    separator has no collection, and what follows a second separator is
    dropped. *)
Theorem namespace_pieces :
  forall db coll rest,
    Spec.dotless db = true -> Spec.dotless coll = true ->
    split_dot2 db = [db]
    /\ split_dot2 (db ++ "." ++ coll) = [db; coll]
    /\ split_dot2 (db ++ "." ++ coll ++ "." ++ rest) = [db; coll].
Proof.
  intros db coll rest Hdb Hcoll. unfold split_dot2.
  split; [|split].
  - rewrite <- (append_empty_r db) at 1.
    rewrite split_dot_aux_dotless by assumption. reflexivity.
  - rewrite split_dot_aux_dotless by assumption. simpl.
    rewrite <- (append_empty_r coll) at 1.
    rewrite split_dot_aux_dotless by assumption. reflexivity.
  - rewrite split_dot_aux_dotless by assumption. simpl.
    rewrite split_dot_aux_dotless by assumption. simpl.
    destruct (split_dot_aux rest EmptyString); reflexivity.
Qed.

Lemma namespace_pieces_witness :
  split_dot2 "shop.orders.archive" = ["shop"; "orders"].
Proof.
  apply (proj2 (proj2 (namespace_pieces "shop" "orders" "archive"
                         eq_refl eq_refl))).
Defined.

End Namespace.

(* ================================================================== *)
(** ** The order of the comparisons on numbers *)
(* ================================================================== *)

Module OrderFacts.
Import JS Notions.
Local Open Scope float_scope.

Lemma SFcompare_key (x y : spec_float) :
  x <> S754_nan -> y <> S754_nan ->
  SFcompare x y = Some (keyCompare (floatKey x) (floatKey y)).
Proof.
  destruct x as [sx|sx| |sx mx ex], y as [sy|sy| |sy my ey];
    intros Hx Hy; try congruence;
    try destruct sx; try destruct sy; simpl; try reflexivity;
    rewrite ?Z.compare_opp, ?(Z.compare_antisym ex ey);
    destruct (ex ?= ey)%Z; simpl; reflexivity.
Qed.

Lemma keyCompare_spec (k1 k2 : Z * Z * Z) :
  let '(a1, b1, c1) := k1 in
  let '(a2, b2, c2) := k2 in
  match keyCompare k1 k2 with
  | Lt => (a1 < a2 \/ (a1 = a2 /\ (b1 < b2 \/ (b1 = b2 /\ c1 < c2))))%Z
  | Eq => (a1 = a2 /\ b1 = b2 /\ c1 = c2)%Z
  | Gt => (a2 < a1 \/ (a1 = a2 /\ (b2 < b1 \/ (b1 = b2 /\ c2 < c1))))%Z
  end.
Proof.
  destruct k1 as [[a1 b1] c1], k2 as [[a2 b2] c2]. simpl.
  destruct (Z.compare_spec a1 a2); try lia.
  destruct (Z.compare_spec b1 b2); try lia.
  destruct (Z.compare_spec c1 c2); lia.
Qed.

(** The comparisons of three numbers, read on their ranks. *)
Lemma SFcompare_trans (x y z : spec_float) (c1 c2 : comparison) :
  SFcompare x y = Some c1 -> SFcompare y z = Some c2 ->
  c1 <> Gt -> c2 <> Gt ->
  exists c3, SFcompare x z = Some c3 /\ c3 <> Gt
             /\ (c1 = Lt \/ c2 = Lt -> c3 = Lt).
Proof.
  intros H1 H2 Hc1 Hc2.
  assert (Hx : x <> S754_nan) by (intros ->; discriminate).
  assert (Hy : y <> S754_nan) by (intros ->; destruct x; discriminate).
  assert (Hz : z <> S754_nan) by (intros ->; destruct y; discriminate).
  rewrite (SFcompare_key x y Hx Hy) in H1.
  rewrite (SFcompare_key y z Hy Hz) in H2.
  rewrite (SFcompare_key x z Hx Hz).
  injection H1 as H1. injection H2 as H2.
  pose proof (keyCompare_spec (floatKey x) (floatKey y)) as K1.
  pose proof (keyCompare_spec (floatKey y) (floatKey z)) as K2.
  pose proof (keyCompare_spec (floatKey x) (floatKey z)) as K3.
  destruct (floatKey x) as [[a1 b1] d1], (floatKey y) as [[a2 b2] d2],
           (floatKey z) as [[a3 b3] d3].
  rewrite H1 in K1. rewrite H2 in K2.
  eexists. split; [reflexivity|].
  destruct (keyCompare (a1, b1, d1) (a3, b3, d3));
    destruct c1; try congruence; destruct c2; try congruence;
    (split; [try discriminate; try lia | intros [E|E]; try discriminate;
                                         try reflexivity; try lia]).
Qed.

Lemma leb_trans (x y z : float) :
  (x <=? y) = true -> (y <=? z) = true -> (x <=? z) = true.
Proof.
  rewrite !leb_spec. unfold SFleb.
  destruct (SFcompare (Prim2SF x) (Prim2SF y)) as [c1|] eqn:E1; [|discriminate].
  destruct (SFcompare (Prim2SF y) (Prim2SF z)) as [c2|] eqn:E2; [|discriminate].
  intros H1 H2.
  destruct (SFcompare_trans _ _ _ c1 c2 E1 E2) as [c3 [-> [H3 _]]].
  - destruct c1; congruence.
  - destruct c2; congruence.
  - destruct c3; congruence.
Qed.

Lemma leb_ltb_trans (x y z : float) :
  (x <=? y) = true -> (y <? z) = true -> (x <? z) = true.
Proof.
  rewrite leb_spec, !ltb_spec. unfold SFleb, SFltb.
  destruct (SFcompare (Prim2SF x) (Prim2SF y)) as [c1|] eqn:E1; [|discriminate].
  destruct (SFcompare (Prim2SF y) (Prim2SF z)) as [c2|] eqn:E2; [|discriminate].
  intros H1 H2.
  destruct (SFcompare_trans _ _ _ c1 c2 E1 E2) as [c3 [-> [_ H3]]].
  - destruct c1; congruence.
  - destruct c2; congruence.
  - rewrite H3; [reflexivity|]. right. destruct c2; congruence.
Qed.

(** Of two numbers one is below the other or they compare as equal. *)
Lemma ltb_false_leb (x y : float) :
  (x =? x) = true -> (y =? y) = true -> (x <? y) = false -> (y <=? x) = true.
Proof.
  rewrite !NumberFacts.not_nan_iff, ltb_spec, leb_spec. unfold SFltb, SFleb.
  intros Hx Hy.
  destruct (FloatFacts.SFcompare_defined _ _ Hx Hy) as [c Hc].
  rewrite Hc, (FloatFacts.SFcompare_antisym _ _ _ Hc).
  destruct c; simpl; congruence.
Qed.

Lemma leb_false_ltb (x y : float) :
  (x =? x) = true -> (y =? y) = true -> (x <=? y) = false -> (y <? x) = true.
Proof.
  rewrite !NumberFacts.not_nan_iff, ltb_spec, leb_spec. unfold SFltb, SFleb.
  intros Hx Hy.
  destruct (FloatFacts.SFcompare_defined _ _ Hx Hy) as [c Hc].
  rewrite Hc, (FloatFacts.SFcompare_antisym _ _ _ Hc).
  destruct c; simpl; congruence.
Qed.

Lemma ltb_not_nan (x y : float) :
  (x <? y) = true -> (x =? x) = true /\ (y =? y) = true.
Proof.
  rewrite ltb_spec, !NumberFacts.not_nan_iff. unfold SFltb.
  destruct (Prim2SF x), (Prim2SF y); simpl; try discriminate;
    intros _; split; discriminate.
Qed.

Lemma leb_not_nan (x y : float) :
  (x <=? y) = true -> (x =? x) = true /\ (y =? y) = true.
Proof.
  rewrite leb_spec, !NumberFacts.not_nan_iff. unfold SFleb.
  destruct (Prim2SF x), (Prim2SF y); simpl; try discriminate;
    intros _; split; discriminate.
Qed.

Lemma ltb_leb_false (x y : float) :
  (x <? y) = true -> (y <=? x) = false.
Proof.
  rewrite ltb_spec, leb_spec. unfold SFltb, SFleb.
  destruct (SFcompare (Prim2SF x) (Prim2SF y)) as [c|] eqn:E; [|discriminate].
  rewrite (FloatFacts.SFcompare_antisym _ _ _ E).
  destruct c; simpl; congruence.
Qed.

End OrderFacts.

(* ================================================================== *)
(** ** Categories and colours *)
(* ================================================================== *)

Module Categories.
Import JS Profiler Listing SchemaUtils View Notions OrderFacts.
Local Open Scope float_scope.

Lemma categoryRank_ltb (t : float) :
  let rank := categoryRank (categorizeQueryPerformance t) in
  ((rank < 1)%nat <-> (t <? 10) = true)
  /\ ((rank < 2)%nat <-> (t <? 100) = true)
  /\ ((rank < 3)%nat <-> (t <? 1000) = true)
  /\ ((rank < 4)%nat <-> (t <? 5000) = true)
  /\ (rank <= 4)%nat.
Proof.
  unfold categorizeQueryPerformance, FAST, MODERATE, SLOW, VERY_SLOW.
  assert (H12 : (t <? 10) = true -> (t <? 100) = true).
  { intros H. apply (leb_ltb_trans t 10 100);
      [now apply NumberFacts.ltb_leb|reflexivity]. }
  assert (H23 : (t <? 100) = true -> (t <? 1000) = true).
  { intros H. apply (leb_ltb_trans t 100 1000);
      [now apply NumberFacts.ltb_leb|reflexivity]. }
  assert (H34 : (t <? 1000) = true -> (t <? 5000) = true).
  { intros H. apply (leb_ltb_trans t 1000 5000);
      [now apply NumberFacts.ltb_leb|reflexivity]. }
  destruct (t <? 10) eqn:E1; destruct (t <? 100) eqn:E2;
    destruct (t <? 1000) eqn:E3; destruct (t <? 5000) eqn:E4;
    try (specialize (H12 eq_refl); discriminate);
    try (specialize (H23 eq_refl); discriminate);
    try (specialize (H34 eq_refl); discriminate);
    cbn; repeat split; intros; (lia || congruence).
Qed.

(** X12.  [categorizeQueryPerformance] cuts the execution times at 10,
    100, 1000 and 5000: a time is in a category below the n-th exactly
    when it is below the n-th threshold, so a time of exactly 10 is
    moderate, 100 is slow, 1000 is very slow and 5000 is critical; a time
    that is no number (NaN, as a missing one is) is critical; and a
    longer time never gets a faster category. *)
Theorem categorizeQueryPerformance_thresholds :
  (forall t,
     ((t <? 10) = true <-> categorizeQueryPerformance t = "fast")
     /\ ((t <? 100) = true <->
         (categoryRank (categorizeQueryPerformance t) < 2)%nat)
     /\ ((t <? 1000) = true <->
         (categoryRank (categorizeQueryPerformance t) < 3)%nat)
     /\ ((t <? 5000) = true <->
         (categoryRank (categorizeQueryPerformance t) < 4)%nat)
     /\ ((t =? t) = false -> categorizeQueryPerformance t = "critical"))
  /\ (forall t1 t2,
        (t1 <=? t2) = true ->
        (categoryRank (categorizeQueryPerformance t1)
         <= categoryRank (categorizeQueryPerformance t2))%nat).
Proof.
  split.
  - intros t.
    destruct (categoryRank_ltb t) as [H1 [H2 [H3 [H4 _]]]].
    split; [|split; [|split; [|split]]]; try (symmetry; assumption).
    + rewrite <- H1. unfold categorizeQueryPerformance, FAST, MODERATE, SLOW,
        VERY_SLOW.
      destruct (t <? 10); [split; [reflexivity|cbn; lia]|].
      destruct (t <? 100); [split; [cbn; lia|discriminate]|].
      destruct (t <? 1000); [split; [cbn; lia|discriminate]|].
      destruct (t <? 5000); split; ((cbn; lia) || discriminate).
    + intros Hnan. unfold categorizeQueryPerformance, FAST, MODERATE, SLOW,
        VERY_SLOW.
      assert (Hlt : forall T, (t <? T) = false).
      { intros T. destruct (t <? T) eqn:E; [|reflexivity].
        apply ltb_not_nan in E as [E _]. congruence. }
      now rewrite !Hlt.
  - intros t1 t2 Hle.
    destruct (categoryRank_ltb t1) as [A1 [A2 [A3 [A4 A5]]]].
    destruct (categoryRank_ltb t2) as [B1 [B2 [B3 [B4 B5]]]].
    pose proof (fun T => leb_ltb_trans t1 t2 T Hle) as Hdown.
    pose proof (Hdown 10) as D1. rewrite <- A1, <- B1 in D1.
    pose proof (Hdown 100) as D2. rewrite <- A2, <- B2 in D2.
    pose proof (Hdown 1000) as D3. rewrite <- A3, <- B3 in D3.
    pose proof (Hdown 5000) as D4. rewrite <- A4, <- B4 in D4.
    cbv zeta in *. lia.
Qed.

Lemma categorizeQueryPerformance_thresholds_witness :
  (categoryRank (categorizeQueryPerformance 420)
   <= categoryRank (categorizeQueryPerformance 1000))%nat.
Proof.
  apply (proj2 categorizeQueryPerformance_thresholds 420 1000). reflexivity.
Defined.

End Categories.

Module Colours.
Import JS Profiler Listing SchemaUtils View Notions OrderFacts.
Local Open Scope float_scope.

Lemma or_zero_idem (a : option float) : or_zero (Some (or_zero a)) = or_zero a.
Proof.
  destruct a as [f|]; simpl; [|reflexivity].
  destruct (truthy_float f) eqn:E; [now rewrite E|reflexivity].
Qed.

Lemma or_zero_or_num_none (a : option float) :
  or_zero (or_num a None) = or_zero a.
Proof.
  unfold or_num. destruct (truthy_num a) eqn:E; [reflexivity|].
  destruct a as [f|]; simpl in *; [now rewrite E|reflexivity].
Qed.

Lemma efficiencyColor_rank (e : float) :
  let rank := colorRank (getEfficiencyColor e) in
  ((rank < 1)%nat <-> (80 <=? e) = true)
  /\ ((rank < 2)%nat <-> (50 <=? e) = true)
  /\ ((rank < 3)%nat <-> (20 <=? e) = true)
  /\ (rank <= 3)%nat.
Proof.
  unfold getEfficiencyColor.
  assert (H12 : (80 <=? e) = true -> (50 <=? e) = true).
  { intros H. now apply (leb_trans 50 80 e). }
  assert (H23 : (50 <=? e) = true -> (20 <=? e) = true).
  { intros H. now apply (leb_trans 20 50 e). }
  destruct (80 <=? e) eqn:E1; destruct (50 <=? e) eqn:E2;
    destruct (20 <=? e) eqn:E3;
    try (specialize (H12 eq_refl); discriminate);
    try (specialize (H23 eq_refl); discriminate);
    cbn; repeat split; intros; (lia || congruence).
Qed.

(** X17.  The efficiency shown in the table for a listed document
    without [executionStats] is the efficiency the explain route reports
    when the explain summary holds no counters; its colour is the one the
    detail view gives to that efficiency; a higher efficiency never gets
    a worse colour, with the cuts at 80, 50 and 20; and the colour of an
    execution time is green, yellow, orange or red as its category is
    fast, moderate, slow or worse. *)
Theorem table_and_detail_agree :
  (forall JSON_stringify Date_now index raw,
     Raw.executionStats raw = None ->
     fst (getEfficiencyIndicator (rowOf JSON_stringify Date_now index raw)) =
     calculateEfficiency (mkExplainResult None None None) (Raw.doc raw))
  /\ (forall query,
        snd (getEfficiencyIndicator query) =
        getEfficiencyColor (fst (getEfficiencyIndicator query)))
  /\ (forall e1 e2,
        (e1 <=? e2) = true ->
        (colorRank (getEfficiencyColor e2)
         <= colorRank (getEfficiencyColor e1))%nat)
  /\ (forall ms,
        colorRank (getPerformanceColor ms) =
        Nat.min 3 (categoryRank (categorizeQueryPerformance ms))).
Proof.
  split; [|split; [|split]].
  - intros JSON_stringify Date_now index raw Hstats.
    unfold getEfficiencyIndicator, rowOf, calculateEfficiency, docStats.
    rewrite Hstats. cbn -[or_zero or_num Math_round].
    rewrite !or_zero_idem, !or_zero_or_num_none.
    unfold or_num at 1 2. cbn -[or_zero Math_round].
    destruct (or_zero (Doc.docsExamined (Raw.doc raw)) =? 0); [reflexivity|].
    destruct (or_zero (Doc.docsReturned (Raw.doc raw)) =? 0); reflexivity.
  - intros query. unfold getEfficiencyIndicator.
    destruct (or_zero (Some (Row.docsExamined query)) =? 0); [reflexivity|].
    destruct (or_zero (Some (Row.docsReturned query)) =? 0); reflexivity.
  - intros e1 e2 Hle.
    destruct (efficiencyColor_rank e1) as [A1 [A2 [A3 A4]]].
    destruct (efficiencyColor_rank e2) as [B1 [B2 [B3 B4]]].
    pose proof (fun T H => leb_trans T e1 e2 H Hle) as Hup.
    pose proof (Hup 80) as U1. rewrite <- A1, <- B1 in U1.
    pose proof (Hup 50) as U2. rewrite <- A2, <- B2 in U2.
    pose proof (Hup 20) as U3. rewrite <- A3, <- B3 in U3.
    cbv zeta in *. lia.
  - intros ms.
    unfold getPerformanceColor, categorizeQueryPerformance, FAST, MODERATE,
      SLOW, VERY_SLOW.
    destruct (ms <? 10); [reflexivity|].
    destruct (ms <? 100); [reflexivity|].
    destruct (ms <? 1000); [reflexivity|].
    destruct (ms <? 5000); reflexivity.
Qed.

Lemma table_and_detail_agree_witness :
  (colorRank (getEfficiencyColor 200) <= colorRank (getEfficiencyColor 25))%nat.
Proof.
  apply (proj1 (proj2 (proj2 table_and_detail_agree)) 25 200). reflexivity.
Defined.

End Colours.

(* ================================================================== *)
(** ** The listing route and the identifiers it hands out *)
(* ================================================================== *)

Module Links.
Import JS Profiler Listing Notions.
Local Open Scope string_scope.

Lemma mapi_length {A B : Type} (f : nat -> A -> B) (l : list A) :
  forall index, List.length (mapi f index l) = List.length l.
Proof. induction l; intros index; simpl; [reflexivity|now rewrite IHl]. Qed.

Lemma lacks_digits (d : Decimal.uint) :
  lacks "_"%char (NilEmpty.string_of_uint d) = true.
Proof. induction d; simpl; auto. Qed.

Lemma append_separator_inj (c : ascii) (a a' b b' : string) :
  lacks c a = true -> lacks c a' = true ->
  a ++ String c b = a' ++ String c b' -> a = a' /\ b = b'.
Proof.
  revert a'. induction a as [|x a IH]; intros [|x' a']; simpl.
  - intros _ _ E. injection E as ->. now split.
  - intros _ H E. injection E as <- _. rewrite Ascii.eqb_refl in H. discriminate.
  - intros H _ E. injection E as -> _. rewrite Ascii.eqb_refl in H. discriminate.
  - intros H H' E. injection E as -> E.
    apply andb_true_iff in H as [_ H]. apply andb_true_iff in H' as [_ H'].
    destruct (IH a' H H' E) as [-> ->]. now split.
Qed.

Lemma index_key_inj (i j : nat) : index_key i = index_key j -> i = j.
Proof.
  unfold index_key. intros E.
  apply (f_equal NilEmpty.uint_of_string) in E. rewrite !NilEmpty.usu in E.
  injection E as E. apply (f_equal Nat.of_uint) in E.
  now rewrite !DecimalNat.Unsigned.of_to in E.
Qed.

Lemma syntheticId_inj (now now' : N) (i j : nat) :
  syntheticId now i = syntheticId now' j -> i = j.
Proof.
  unfold syntheticId, decimal. intros E.
  apply (f_equal (fun s => substring 6 (String.length s - 6) s)) in E.
  simpl in E. rewrite !Nat.sub_0_r in E.
  assert (Hsub : forall s, substring 0 (String.length s) s = s).
  { induction s; simpl; congruence. }
  rewrite !Hsub in E.
  apply append_separator_inj in E as [_ E]; try apply lacks_digits.
  now apply index_key_inj.
Qed.

Lemma syntheticId_prefix (now : N) (i : nat) :
  startsWith "query_" (syntheticId now i) = true.
Proof.
  unfold startsWith, syntheticId. cbn.
  now destruct (decimal now ++ String "_" (index_key i)).
Qed.

Lemma syntheticId_not_hex (now : N) (i : nat) :
  hex24 (syntheticId now i) = false.
Proof. unfold hex24. simpl. apply andb_false_r. Qed.

Section Rows.

Variable JSON_stringify : value -> string.
Variable Date_now : nat -> N.

Local Abbreviation rowOf := (Listing.rowOf JSON_stringify Date_now).

(** The identifier of a row is the rendered identifier of its document,
    or the synthetic one built on its index. *)
Lemma queryId_cases (index : nat) (raw : Raw.t) :
  (exists id, Doc._id (Raw.doc raw) = Some id /\ id_truthy (Some id) = true
              /\ Row.queryId (rowOf index raw) = id_toString id)
  \/ (id_truthy (Doc._id (Raw.doc raw)) = false
      /\ Row.queryId (rowOf index raw) = syntheticId (Date_now index) index).
Proof.
  unfold Listing.rowOf. cbn -[id_truthy syntheticId].
  destruct (Doc._id (Raw.doc raw)) as [id|]; [|right; now split].
  destruct (id_truthy (Some id)) eqn:E.
  - left. exists id. now repeat split.
  - right. now split.
Qed.

Lemma renderedIds_cons (raw : Raw.t) (docs : list Raw.t) :
  renderedIds (raw :: docs) = (renderedIds [raw] ++ renderedIds docs)%list.
Proof. unfold renderedIds. simpl. now rewrite app_nil_r. Qed.

Lemma renderedIds_one (raw : Raw.t) (id : DocId) :
  Doc._id (Raw.doc raw) = Some id -> id_truthy (Some id) = true ->
  renderedIds [raw] = [id_toString id].
Proof.
  intros E1 E2. unfold renderedIds. cbn -[id_truthy]. now rewrite E1, E2.
Qed.

Lemma queryIds_from (docs : list Raw.t) :
  forall start x,
    In x (map Row.queryId (mapi rowOf start docs)) ->
    In x (renderedIds docs)
    \/ exists index, start <= index /\ x = syntheticId (Date_now index) index.
Proof.
  induction docs as [|raw docs IH]; intros start x Hin; cbn [mapi map] in Hin;
    [destruct Hin|].
  destruct Hin as [<-|H].
  - destruct (queryId_cases start raw) as [[id [E1 [E2 E3]]]|[E1 E2]].
    + left. rewrite renderedIds_cons, (renderedIds_one raw id E1 E2), E3.
      now left.
    + right. exists start. split; [lia|assumption].
  - destruct (IH (S start) x H) as [Hin|[index [Hle ->]]].
    + left. rewrite renderedIds_cons. apply in_app_iff. now right.
    + right. exists index. split; [lia|reflexivity].
Qed.

(** X9.  The rows of a listing carry pairwise distinct identifiers,
    provided the documents that have an identifier of their own render to
    pairwise distinct strings none of which starts with [query_]: the
    identifier made up for a document without one is built on the index
    of the row. *)
Theorem listed_queryIds_distinct :
  forall docs,
    NoDup (renderedIds docs) ->
    (forall x, In x (renderedIds docs) -> startsWith "query_" x = false) ->
    NoDup (map Row.queryId (mapi rowOf 0 docs)).
Proof.
  intros docs. generalize 0 as start.
  induction docs as [|raw docs IH]; intros start Hnodup Hforeign;
    [constructor|].
  change (mapi rowOf start (raw :: docs))
    with (rowOf start raw :: mapi rowOf (S start) docs).
  change (map Row.queryId (rowOf start raw :: mapi rowOf (S start) docs))
    with (Row.queryId (rowOf start raw)
          :: map Row.queryId (mapi rowOf (S start) docs)).
  rewrite renderedIds_cons in Hnodup, Hforeign.
  constructor.
  - intros Hin. apply queryIds_from in Hin as [Hin|[index [Hle E]]].
    + destruct (queryId_cases start raw) as [[id [E1 [E2 E3]]]|[E1 E2]].
      * apply NoDup_app_remove_l in Hnodup as Hn.
        rewrite (renderedIds_one raw id E1 E2) in Hnodup. simpl in Hnodup.
        inversion Hnodup as [|? ? Hnot _]. apply Hnot. now rewrite <- E3.
      * rewrite E2 in Hin.
        assert (Hf := Hforeign _ (proj2 (in_app_iff _ _ _) (or_intror Hin))).
        rewrite syntheticId_prefix in Hf. discriminate.
    + destruct (queryId_cases start raw) as [[id [E1 [E2 E3]]]|[E1 E2]].
      * assert (Hhead : In (id_toString id) (renderedIds [raw])).
        { rewrite (renderedIds_one raw id E1 E2). now left. }
        assert (Hf := Hforeign _ (proj2 (in_app_iff _ _ _) (or_introl Hhead))).
        rewrite <- E3, E in Hf. rewrite syntheticId_prefix in Hf. discriminate.
      * rewrite E2 in E. apply syntheticId_inj in E. lia.
  - apply IH.
    + now apply NoDup_app_remove_l in Hnodup.
    + intros x Hx. apply Hforeign. apply in_app_iff. now right.
Qed.

End Rows.

Lemma listed_queryIds_distinct_witness :
  NoDup (map Row.queryId
           (mapi (Listing.rowOf Samples.noText Samples.stillClock)
                 0 [Samples.rawOf Examples.taggedQuery;
                    Samples.rawOf Examples.pendingOrders;
                    Samples.rawOf Examples.taggedQuery])).
Proof.
  apply (listed_queryIds_distinct Samples.noText
           Samples.stillClock).
  - repeat constructor. intros [].
  - intros x [<-|[]]. reflexivity.
Defined.

End Links.

Module Handlers.
Import JS Profiler Listing Notions Links.
Local Open Scope string_scope.

Lemma mapi_nth_error {A B : Type} (f : nat -> A -> B) (l : list A) :
  forall start i x,
    nth_error l i = Some x ->
    nth_error (mapi f start l) i = Some (f (start + i) x).
Proof.
  induction l as [|y l IH]; intros start [|i] x; simpl; try discriminate.
  - intros E. injection E as ->. now rewrite Nat.add_0_r.
  - intros E. rewrite (IH (S start) i x E). f_equal. f_equal. lia.
Qed.

Lemma mapi_originalDoc (JSON_stringify : value -> string) (Date_now : nat -> N)
    (docs : list Raw.t) :
  forall start,
    map Row.originalDoc (mapi (rowOf JSON_stringify Date_now) start docs) = docs.
Proof.
  induction docs as [|raw docs IH]; intros start; simpl; [reflexivity|].
  now rewrite IH.
Qed.

(** X8.  The listing answers 400 when [from] or [to] is missing or
    empty, whatever the log holds.  Otherwise the log is asked once, with
    a namespace filter only for a collection other than [all]; an error
    on the way gives 500 with its message; the documents found give one
    row each, in their order, the row at index [i] built from the [i]-th
    document and carrying it, and [total] is their number. *)
Theorem listRoute_rows :
  forall JSON_stringify Date_now parseInt find from to collection limit,
    let respond :=
      listRoute JSON_stringify Date_now parseInt find from to collection limit in
    let query :=
      mkListQuery (text from) (text to)
        (if truthy_str collection && negb (String.eqb (text collection) "all")
         then collection else None)
        (limitOf parseInt limit) in
    (truthy_str from && truthy_str to = false ->
       respond = List400 "Missing required parameters" missingRange)
    /\ (truthy_str from && truthy_str to = true ->
          (forall message, find query = Throw message ->
             respond = List500 "Failed to retrieve profiler data" message)
          /\ (forall docs, find query = Ok docs ->
                exists data echo,
                  respond = ListOk data (List.length docs) echo
                  /\ map Row.originalDoc data = docs
                  /\ (forall i raw, nth_error docs i = Some raw ->
                        nth_error data i =
                        Some (rowOf JSON_stringify Date_now i raw))
                  /\ eLimit echo = limitOf parseInt limit
                  /\ eCollection echo =
                     (if truthy_str collection then text collection else "all")))
    /\ (qCollection query = None <->
        (truthy_str collection = false \/ collection = Some "all")).
Proof.
  intros JSON_stringify Date_now parseInt find from to collection limit
         respond query.
  subst respond. unfold listRoute. fold query.
  split; [|split].
  - intros H. destruct (truthy_str from), (truthy_str to); try discriminate;
      reflexivity.
  - intros H. apply andb_true_iff in H as [-> ->]. simpl. split.
    + intros message ->. reflexivity.
    + intros docs ->. do 2 eexists. split; [|split; [|split; [|split]]].
      * rewrite mapi_length. reflexivity.
      * apply mapi_originalDoc.
      * intros i raw E. now rewrite (mapi_nth_error _ _ 0 i raw E).
      * reflexivity.
      * reflexivity.
  - subst query. simpl.
    destruct collection as [c|]; simpl.
    + destruct (String.eqb c EmptyString) eqn:E0; simpl.
      * split; [auto|reflexivity].
      * destruct (String.eqb c "all") eqn:E; simpl.
        -- apply String.eqb_eq in E. subst. split; [auto|reflexivity].
        -- apply String.eqb_neq in E. split; [discriminate|].
           intros [H|H]; [discriminate|]. injection H as ->. contradiction.
    + split; [auto|reflexivity].
Qed.

Lemma listRoute_rows_witness :
  listRoute Samples.noText Samples.stillClock (fun _ => 50%float)
    (fun _ => Throw "topology was destroyed")
    (Some "2025-01-01") (Some "2025-01-02") None (Some "50") =
  List500 "Failed to retrieve profiler data" "topology was destroyed".
Proof.
  apply (proj1 (proj1 (proj2 (listRoute_rows Samples.noText Samples.stillClock
           (fun _ => 50%float) (fun _ => Throw "topology was destroyed")
           (Some "2025-01-01") (Some "2025-01-02") None (Some "50")))
           eq_refl)).
  reflexivity.
Defined.

Section Explain.

Variable ObjectId_valid : string -> bool.
Variable JSON_stringify : value -> string.
Variable Date_now : nat -> N.
Variable log : list ProfileDoc.

Local Abbreviation rowOf := (Listing.rowOf JSON_stringify Date_now).
Local Abbreviation locate :=
  (Profiler.locate ObjectId_valid (memoryFindOne log)).

(** X10.  With a driver that builds document identifiers from strings
    of 24 hexadecimal digits only, the identifier made up for a listed
    document without [_id] is looked up as a literal identifier or a
    comment: the explain route finds a document only if one carries that
    very string as its string [_id] or as the comment of its command, and
    answers 404 when none does.  It finds the listed document itself only
    if the comment of that document is the very string. *)
Theorem made_up_id_finds_no_document :
  forall index raw,
    (forall s, ObjectId_valid s = true -> hex24 s = true) ->
    id_truthy (Doc._id (Raw.doc raw)) = false ->
    let queryId := Row.queryId (rowOf index raw) in
    queryId = syntheticId (Date_now index) index
    /\ locate queryId = memoryFindOne log (ByStringIdOrComment queryId)
    /\ (forall found, locate queryId = Ok (Some found) ->
          matches (ByStringIdOrComment queryId) found = true)
    /\ (locate queryId = Ok (Some (Raw.doc raw)) ->
          exists c, Doc.command (Raw.doc raw) = Some c
                    /\ get c "comment" = VString queryId)
    /\ ((forall d, In d log ->
           matches (ByStringIdOrComment queryId) d = false) ->
        forall explain,
          explainRoute ObjectId_valid (memoryFindOne log) explain (Some queryId)
          = Status404 "Query not found"
              ("No profiler data found for queryId: " ++ queryId)).
Proof.
  intros index raw Hdriver Hid queryId.
  assert (Hq : queryId = syntheticId (Date_now index) index).
  { destruct (queryId_cases JSON_stringify Date_now index raw)
      as [[id [E1 [E2 _]]]|[_ E]]; [|exact E].
    rewrite E1 in Hid. congruence. }
  assert (Hinvalid : ObjectId_valid queryId = false).
  { destruct (ObjectId_valid queryId) eqn:E; [|reflexivity].
    apply Hdriver in E. rewrite Hq, syntheticId_not_hex in E. discriminate. }
  assert (Hloc : locate queryId =
                 memoryFindOne log (ByStringIdOrComment queryId)).
  { unfold Profiler.locate. now rewrite Hinvalid. }
  assert (Hfound : forall found, locate queryId = Ok (Some found) ->
                     matches (ByStringIdOrComment queryId) found = true).
  { intros found H. rewrite Hloc in H. unfold memoryFindOne in H.
    injection H as H. now apply find_some in H. }
  split; [exact Hq|]. split; [exact Hloc|]. split; [exact Hfound|]. split.
  - intros H. apply Hfound in H. unfold matches in H.
    assert (Hnoid : match Doc._id (Raw.doc raw) with
                    | Some (IdString s) => String.eqb s queryId
                    | _ => false
                    end = false).
    { destruct (Doc._id (Raw.doc raw)) as [[h|s]|]; try reflexivity.
      simpl in Hid. apply negb_false_iff, String.eqb_eq in Hid. subst s.
      rewrite Hq. reflexivity. }
    rewrite Hnoid in H. simpl in H.
    destruct (Doc.command (Raw.doc raw)) as [c|]; [|discriminate].
    exists c. split; [reflexivity|].
    destruct (get c "comment"); simpl in H; try discriminate.
    apply String.eqb_eq in H. now subst.
  - intros Hnone explain. unfold explainRoute.
    assert (Hne : truthy_str (Some queryId) = true).
    { rewrite Hq. reflexivity. }
    rewrite Hne. fold (locate queryId). rewrite Hloc.
    unfold memoryFindOne.
    destruct (find (matches (ByStringIdOrComment queryId)) log) as [d|] eqn:E;
      [|reflexivity].
    apply find_some in E as [Hin Hm]. rewrite (Hnone d Hin) in Hm. discriminate.
Qed.

(** X11.  A listed document whose [_id] is a document identifier the
    driver accepts, and which is the only document of the log under that
    identifier, is found again by the explain route from the identifier
    of its row.  A document whose [_id] is a string the driver accepts as
    a document identifier is not: it is looked up as a document
    identifier and never as a string. *)
Theorem listed_id_finds_its_document :
  forall index raw,
    In (Raw.doc raw) log ->
    (forall hex,
       Doc._id (Raw.doc raw) = Some (IdObjectId hex) ->
       ObjectId_valid hex = true ->
       (forall d, In d log -> Doc._id d = Some (IdObjectId hex) ->
                  d = Raw.doc raw) ->
       locate (Row.queryId (rowOf index raw)) = Ok (Some (Raw.doc raw)))
    /\ (forall s,
          Doc._id (Raw.doc raw) = Some (IdString s) ->
          s <> EmptyString ->
          ObjectId_valid s = true ->
          locate (Row.queryId (rowOf index raw)) <> Ok (Some (Raw.doc raw))).
Proof.
  intros index raw Hin. split.
  - intros hex Hid Hvalid Hunique.
    destruct (queryId_cases JSON_stringify Date_now index raw)
      as [[id [E1 [_ ->]]]|[E _]]; [|rewrite Hid in E; discriminate].
    rewrite Hid in E1. injection E1 as <-. simpl.
    unfold Profiler.locate. rewrite Hvalid. unfold memoryFindOne.
    destruct (find (matches (ById hex)) log) as [d|] eqn:E.
    + apply find_some in E as [Hd Hm]. do 2 f_equal. apply (Hunique d Hd).
      unfold matches in Hm. destruct (Doc._id d) as [[h|s]|]; try discriminate.
      apply String.eqb_eq in Hm. now subst.
    + exfalso. apply (find_none _ _ E) in Hin. unfold matches in Hin.
      rewrite Hid, String.eqb_refl in Hin. discriminate.
  - intros s Hid Hne Hvalid H.
    assert (Hq : Row.queryId (rowOf index raw) = s).
    { destruct (queryId_cases JSON_stringify Date_now index raw)
        as [[id [E1 [_ ->]]]|[E1 _]].
      - rewrite Hid in E1. now injection E1 as <-.
      - rewrite Hid in E1. simpl in E1.
        apply negb_false_iff, String.eqb_eq in E1. contradiction. }
    rewrite Hq in H. unfold Profiler.locate in H. rewrite Hvalid in H.
    unfold memoryFindOne in H. injection H as H.
    apply find_some in H as [_ H].
    unfold matches in H. rewrite Hid in H. discriminate.
Qed.

End Explain.

Lemma made_up_id_finds_no_document_witness :
  Profiler.locate hex24 (memoryFindOne [Examples.taggedQuery])
    (Row.queryId (Listing.rowOf Samples.noText Samples.stillClock 0
                    (Samples.rawOf Examples.taggedQuery))) =
  memoryFindOne [Examples.taggedQuery]
    (ByStringIdOrComment
       (Row.queryId (Listing.rowOf Samples.noText Samples.stillClock 0
                       (Samples.rawOf Examples.taggedQuery)))).
Proof.
  apply (proj1 (proj2 (made_up_id_finds_no_document hex24 Samples.noText
           Samples.stillClock [Examples.taggedQuery] 0
           (Samples.rawOf Examples.taggedQuery)
           (fun s H => H) eq_refl))).
Defined.

Lemma listed_id_finds_its_document_witness :
  Profiler.locate hex24
    (memoryFindOne [Examples.taggedQuery; Examples.pendingOrders])
    (Row.queryId (Listing.rowOf Samples.noText Samples.stillClock 1
                    (Samples.rawOf Examples.pendingOrders))) =
  Ok (Some Examples.pendingOrders).
Proof.
  apply (proj1 (listed_id_finds_its_document hex24 Samples.noText
           Samples.stillClock [Examples.taggedQuery; Examples.pendingOrders] 1
           (Samples.rawOf Examples.pendingOrders)
           ltac:(simpl; auto)) "65a1b2c3d4e5f60718293a4b" eq_refl eq_refl).
  intros d [<-|[<-|[]]] H; [discriminate|reflexivity].
Defined.

End Handlers.

Module Decisions.
Import JS Profiler.
Local Open Scope string_scope.

(** X7.  The explain handler validates before it explains: a missing or
    empty [queryId] gives 400; a located document without a namespace
    gives 400, and so does a namespace without a second piece; whenever
    the answer is not a JSON body it does not depend on the engine, which
    is not consulted; and in a JSON body [success] is false exactly when
    the explain plan is null. *)
Theorem explainRoute_validates_first :
  forall ObjectId_valid findOne explain queryId,
    let respond e := explainRoute ObjectId_valid findOne e queryId in
    (truthy_str queryId = false ->
       respond explain =
       Status400 "Missing required parameter" missingQueryId)
    /\ (forall q doc,
          queryId = Some q -> q <> EmptyString ->
          locate ObjectId_valid findOne q = Ok (Some doc) ->
          (truthy_str (Doc.ns doc) = false ->
             respond explain =
             Status400 "Invalid query data"
                       "Cannot determine collection from profiler data")
          /\ (forall ns,
                Doc.ns doc = Some ns -> ns <> EmptyString ->
                truthy_str (nth_error (split_dot2 ns) 1) = false ->
                respond explain =
                Status400 "Invalid namespace"
                  ("Cannot parse collection from namespace: " ++ ns)))
    /\ (forall other,
          (forall body, respond explain <> Json body) ->
          respond other = respond explain)
    /\ (forall body,
          respond explain = Json body ->
          (Body.success body = false <->
           Data.explainPlan (Body.data body) = None)).
Proof.
  intros ObjectId_valid findOne explain queryId respond. subst respond.
  unfold explainRoute.
  split; [|split; [|split]].
  - now intros ->.
  - intros q doc -> Hq Hloc. simpl.
    apply String.eqb_neq in Hq. rewrite Hq. simpl. rewrite Hloc. split.
    + now intros ->.
    + intros ns Hns Hne Hcoll. rewrite Hns. simpl.
      apply String.eqb_neq in Hne. rewrite Hne. simpl. now rewrite Hcoll.
  - intros other Hnot.
    destruct (truthy_str queryId); [|reflexivity].
    destruct (locate ObjectId_valid findOne _) as [[doc|]|message];
      [|reflexivity|reflexivity].
    destruct (truthy_str (Doc.ns doc)); [|reflexivity].
    destruct (truthy_str (nth_error _ 1)); [|reflexivity].
    exfalso.
    destruct (explainPlanOf explain doc _ _ _); eapply Hnot; reflexivity.
  - intros body.
    destruct (truthy_str queryId); [|discriminate].
    destruct (locate ObjectId_valid findOne _) as [[doc|]|message];
      [|discriminate|discriminate].
    destruct (truthy_str (Doc.ns doc)); [|discriminate].
    destruct (truthy_str (nth_error _ 1)); [|discriminate].
    destruct (explainPlanOf explain doc _ _ _); intros E; injection E as <-;
      simpl; split; (discriminate || reflexivity).
Qed.

Lemma explainRoute_validates_first_witness :
  explainRoute hex24 (memoryFindOne [Examples.pendingOrders])
    (Examples.explainRejects "unreachable") None =
  Status400 "Missing required parameter" missingQueryId.
Proof.
  apply (proj1 (explainRoute_validates_first hex24
           (memoryFindOne [Examples.pendingOrders])
           (Examples.explainRejects "unreachable") None)).
  reflexivity.
Defined.

End Decisions.

(* ================================================================== *)
(** ** The schema utilities *)
(* ================================================================== *)

Module Utilities.
Import JS Profiler Listing Schema SchemaUtils Notions OrderFacts.
Local Open Scope float_scope.

Lemma clamped_efficiency_range (doc : ProfileDoc) :
  Spec.finiteCounter (Doc.docsReturned doc) ->
  (0 <=? calculateQueryEfficiency doc) = true
  /\ (calculateQueryEfficiency doc <=? 100) = true.
Proof.
  intros Hfinite. unfold calculateQueryEfficiency.
  destruct (or_zero (Doc.docsExamined doc) =? 0); [split; reflexivity|].
  destruct (or_zero (Doc.docsReturned doc) =? 0) eqn:Hr; [split; reflexivity|].
  apply NumberFacts.clamp_range, NumberFacts.mul_100_not_nan,
    NumberFacts.div_not_nan.
  - apply NumberFacts.or_zero_not_nan.
  - exact Hr.
  - now apply NumberFacts.or_zero_finite.
  - apply NumberFacts.Math_max_not_nan; apply NumberFacts.or_zero_not_nan.
Qed.

Lemma falsy_or_zero (a : option float) :
  truthy_num a = false -> or_zero a = 0.
Proof.
  destruct a as [f|]; simpl; [|reflexivity]. now intros ->.
Qed.

Section Transform.

Variable JSON_stringify : value -> string.
Variable JSON_stringify_pretty : value -> result string.
Variable String_of : value -> string.

Local Abbreviation transformDoc :=
  (SchemaUtils.transformDoc JSON_stringify JSON_stringify_pretty String_of).
Local Abbreviation transformProfilerData :=
  (SchemaUtils.transformProfilerData JSON_stringify JSON_stringify_pretty
     String_of).

(** X13.  [transformProfilerData] returns no row for an argument that
    is not an array and one row per document otherwise, in order.  In a
    row the efficiency lies between 0 and 100 when [docsReturned] is not
    infinite; a document flagged slow has an execution time categorized
    slow or worse; a document whose [millis] is 0 or absent is never
    flagged slow, whatever its [duration], which is then the execution
    time shown; and a document without a top-level [docsExamined] gets
    efficiency 100, whatever its [executionStats] report. *)
Theorem transformProfilerData_rows :
  transformProfilerData NotAnArray = []
  /\ forall docs,
       transformProfilerData (ArrayOf docs) = map transformDoc docs
       /\ List.length (transformProfilerData (ArrayOf docs)) = List.length docs
       /\ forall raw, In raw docs ->
            let row := transformDoc raw in
            let doc := Raw.doc raw in
            (Spec.finiteCounter (Doc.docsReturned doc) ->
               (0 <=? Transformed.efficiency row) = true
               /\ (Transformed.efficiency row <=? 100) = true)
            /\ (Transformed.isSlowQuery row = true ->
                  (2 <= categoryRank
                          (categorizeQueryPerformance
                             (Transformed.executionTime row)))%nat)
            /\ (truthy_num (Doc.millis doc) = false ->
                  Transformed.isSlowQuery row = false
                  /\ Transformed.executionTime row = or_zero (Raw.duration raw))
            /\ (truthy_num (Doc.docsExamined doc) = false ->
                  Transformed.efficiency row = 100
                  /\ Transformed.docsExamined row =
                     or_zero (docStats DocStats.docsExamined raw)).
Proof.
  split; [reflexivity|]. intros docs.
  split; [reflexivity|]. split; [apply length_map|].
  intros raw _ row doc. subst row doc. simpl.
  split; [|split; [|split]].
  - apply clamped_efficiency_range.
  - intros Hslow.
    assert (Htruthy : truthy_num (Doc.millis (Raw.doc raw)) = true).
    { destruct (truthy_num (Doc.millis (Raw.doc raw))) eqn:E; [reflexivity|].
      rewrite (falsy_or_zero _ E) in Hslow. discriminate. }
    unfold or_num. rewrite Htruthy.
    destruct (Categories.categoryRank_ltb (or_zero (Doc.millis (Raw.doc raw))))
      as [_ [H2 _]].
    cbv zeta in H2.
    destruct (Nat.lt_ge_cases
                (categoryRank (categorizeQueryPerformance
                                 (or_zero (Doc.millis (Raw.doc raw))))) 2)
      as [Hlt|Hge]; [|exact Hge].
    apply H2 in Hlt. apply NumberFacts.ltb_leb in Hlt.
    apply ltb_leb_false in Hslow. congruence.
  - intros Hfalsy. rewrite (falsy_or_zero _ Hfalsy).
    split; [reflexivity|]. unfold or_num. now rewrite Hfalsy.
  - intros Hfalsy. split.
    + unfold calculateQueryEfficiency. now rewrite (falsy_or_zero _ Hfalsy).
    + unfold or_num. now rewrite Hfalsy.
Qed.

End Transform.

Lemma transformProfilerData_rows_witness :
  Transformed.isSlowQuery
    (SchemaUtils.transformDoc Samples.noText (fun _ => Ok EmptyString)
       Samples.noText
       (Raw.mk (Examples.counters None None None) (Some 5000) None None
               VUndefined)) = false.
Proof.
  apply (proj1 (proj1 (proj2 (proj2 (proj2 (proj2 (proj2
           (transformProfilerData_rows Samples.noText
              (fun _ => Ok EmptyString) Samples.noText)
           [Raw.mk (Examples.counters None None None) (Some 5000) None None
                   VUndefined]))
           (Raw.mk (Examples.counters None None None) (Some 5000) None None
                   VUndefined)
           ltac:(simpl; auto)))) eq_refl)).
Defined.

Section Validate.

Variable Date_parse : string -> float.
Variable parseInt : value -> float.

Local Abbreviation validationErrors :=
  (SchemaUtils.validationErrors Date_parse parseInt).
Local Abbreviation validateProfilerQuery :=
  (SchemaUtils.validateProfilerQuery Date_parse parseInt).

Lemma validationErrors_parts (from to : option string) (limit : value) :
  validationErrors from to limit =
  (if negb (truthy_str from) then [FromRequired]
   else if isNaN (Date_parse (text from)) then [FromInvalid] else [])
  ++ (if negb (truthy_str to) then [ToRequired]
      else if isNaN (Date_parse (text to)) then [ToInvalid] else [])
  ++ (if truthy_str from && truthy_str to
         && (Date_parse (text to) <=? Date_parse (text from))
      then [FromNotBeforeTo] else [])
  ++ (if truthy limit
         && (isNaN (parseInt limit) || (parseInt limit <=? 0))
      then [LimitNotPositive] else []).
Proof.
  unfold SchemaUtils.validationErrors.
  destruct (negb (truthy_str from)); destruct (negb (truthy_str to));
    destruct (isNaN (Date_parse (text from)));
    destruct (isNaN (Date_parse (text to)));
    destruct (truthy_str from && truthy_str to
              && (Date_parse (text to) <=? Date_parse (text from)));
    destruct (truthy limit
              && (isNaN (parseInt limit) || (parseInt limit <=? 0)));
    reflexivity.
Qed.

(** X14.  [validateProfilerQuery] accepts exactly the parameters whose
    [from] and [to] are present, parse as dates and have [from] strictly
    before [to], and whose [limit] is falsy or parses to a number above
    0.  The texts returned are those of the errors found, in the order
    of the tests, and there is one at least exactly when the parameters
    are rejected.  The range error is reported only when both dates are
    present and parse, so it never comes with another error on a date. *)
Theorem validateProfilerQuery_accepts :
  forall from to limit,
    let result := validateProfilerQuery from to limit in
    let errors := validationErrors from to limit in
    (Validation.isValid result = true <->
       truthy_str from = true /\ truthy_str to = true
       /\ (Date_parse (text from) <? Date_parse (text to)) = true
       /\ (truthy limit = false \/ (0 <? parseInt limit) = true))
    /\ Validation.errors result = map errorText errors
    /\ (Validation.isValid result = true <-> Validation.errors result = [])
    /\ (In FromNotBeforeTo errors ->
          ~ In FromInvalid errors /\ ~ In ToInvalid errors
          /\ ~ In FromRequired errors /\ ~ In ToRequired errors)
    /\ (List.length errors <= 3)%nat.
Proof.
  intros from to limit result errors. subst result errors.
  unfold SchemaUtils.validateProfilerQuery.
  cbn [Validation.isValid Validation.errors].
  rewrite validationErrors_parts. unfold isNaN.
  set (f := Date_parse (text from)). set (t := Date_parse (text to)).
  set (n := parseInt limit).
  assert (Hdates : (t <=? f) = false /\ (f =? f) = true /\ (t =? t) = true
                   <-> (f <? t) = true).
  { split.
    - intros [H [Hf Ht]]. now apply leb_false_ltb.
    - intros H. split; [now apply ltb_leb_false|now apply ltb_not_nan]. }
  assert (Hnan : (t <=? f) = true -> (f =? f) = true /\ (t =? t) = true).
  { intros H. apply leb_not_nan in H. tauto. }
  assert (Hlimit : (n <=? 0) = false /\ (n =? n) = true <-> (0 <? n) = true).
  { split.
    - intros [H Hn]. now apply leb_false_ltb.
    - intros H. split; [now apply ltb_leb_false|now apply ltb_not_nan in H]. }
  destruct (truthy_str from) eqn:Efrom; destruct (truthy_str to) eqn:Eto;
    destruct (f =? f) eqn:Ef; destruct (t =? t) eqn:Et;
    destruct (t <=? f) eqn:Etf;
    try (destruct (Hnan eq_refl); discriminate);
    destruct (truthy limit) eqn:El;
    destruct (n =? n) eqn:En; destruct (n <=? 0) eqn:En0;
    cbn;
    (split; [|split; [reflexivity|split; [|split]]]);
    try lia;
    try (split; [discriminate|intros H; discriminate H]);
    try (split; reflexivity);
    try (intros Hin; repeat (destruct Hin as [Hin|Hin]; [discriminate|]);
         try destruct Hin;
         repeat split; intros Hx;
         repeat (destruct Hx as [Hx|Hx]; [discriminate|]); destruct Hx);
    try (split; [discriminate|];
         intros [Ha [Hb [Hc Hd]]]; try discriminate;
         try (apply Hdates in Hc; destruct Hc as [Hc1 [Hc2 Hc3]]; discriminate);
         destruct Hd as [Hd|Hd]; try discriminate;
         apply Hlimit in Hd; destruct Hd; discriminate);
    try (split; [intros _|reflexivity];
         repeat split; try reflexivity;
         try (apply Hdates; repeat split; reflexivity);
         try (left; reflexivity);
         try (right; apply Hlimit; split; reflexivity)).
Qed.

End Validate.

End Utilities.

(* ================================================================== *)
(** ** The connection module *)
(* ================================================================== *)

Module Connection.
Import JS Profiler Database Notions.
Local Open Scope string_scope.

Lemma split_aux_nonempty (sep : ascii) (s piece : string) :
  split_aux sep s piece <> [].
Proof.
  revert piece. induction s as [|c s IH]; intros piece; simpl; [discriminate|].
  destruct (Ascii.eqb c sep); [discriminate|apply IH].
Qed.

Lemma split_aux_lacks (sep : ascii) (a s piece : string) :
  lacks sep a = true ->
  split_aux sep (a ++ s) piece = split_aux sep s (piece ++ a).
Proof.
  revert piece. induction a as [|c a IH]; intros piece; simpl.
  - intros _. now rewrite Namespace.append_empty_r.
  - destruct (Ascii.eqb c sep); simpl; [discriminate|].
    intros H. rewrite (IH _ H). f_equal.
    induction piece; simpl; congruence.
Qed.

Lemma split_aux_separator (sep : ascii) (p rest piece : string) :
  exists pieces,
    split_aux sep (p ++ String sep rest) piece =
    (pieces ++ split_aux sep rest EmptyString)%list.
Proof.
  revert piece. induction p as [|c p IH]; intros piece; simpl.
  - rewrite Ascii.eqb_refl. now exists [piece].
  - destruct (Ascii.eqb c sep).
    + destruct (IH EmptyString) as [pieces ->]. now exists (piece :: pieces).
    + apply IH.
Qed.

Lemma last_app_nonempty {A : Type} (l l' : list A) (d : A) :
  l' <> [] -> List.last (l ++ l') d = List.last l' d.
Proof.
  intros H. induction l as [|x l IH]; [reflexivity|].
  simpl. rewrite IH. destruct (l ++ l')%list eqn:E; [|reflexivity].
  apply app_eq_nil in E as [_ E]. contradiction.
Qed.

(** X16.  The database name is what stands between the last [/] of the
    URI and the first [?] after it, and [studio3t_profiler] when that is
    empty: the path of the URI when it has one, with or without options,
    and, for a URI without a path, the rest of its last piece, which is
    its host and port. *)
Theorem dbNameOf_last_piece :
  forall before name options,
    lacks "/"%char name = true -> lacks "?"%char name = true ->
    lacks "/"%char options = true ->
    let expected :=
      if String.eqb name EmptyString then "studio3t_profiler" else name in
    dbNameOf (before ++ "/" ++ name) = expected
    /\ dbNameOf (before ++ "/" ++ name ++ "?" ++ options) = expected
    /\ dbNameOf name = expected.
Proof.
  intros before name options Hslash Hquery Hopts expected.
  assert (Hfirst : nth 0 (split "?"%char name) EmptyString = name).
  { unfold split. rewrite <- (Namespace.append_empty_r name) at 1.
    rewrite split_aux_lacks by assumption. reflexivity. }
  assert (Hfirst' : nth 0 (split "?"%char (name ++ "?" ++ options))
                        EmptyString = name).
  { unfold split. rewrite split_aux_lacks by assumption. simpl. reflexivity. }
  assert (Hwhole : forall s, lacks "/"%char s = true ->
                     split "/"%char s = [s]).
  { intros s H. unfold split. rewrite <- (Namespace.append_empty_r s) at 1.
    rewrite split_aux_lacks by assumption. reflexivity. }
  assert (Hlacks : lacks "/"%char (name ++ "?" ++ options) = true).
  { clear -Hslash Hopts. induction name as [|c name IH]; simpl in *.
    - exact Hopts.
    - apply andb_true_iff in Hslash as [-> H]. simpl. now apply IH. }
  assert (Hlast : forall s, lacks "/"%char s = true ->
                    List.last (split "/"%char (before ++ "/" ++ s))
                              EmptyString = s).
  { intros s H. unfold split.
    destruct (split_aux_separator "/"%char before s EmptyString)
      as [pieces E].
    change (before ++ "/" ++ s) with (before ++ String "/" s).
    rewrite E, last_app_nonempty by apply split_aux_nonempty.
    fold (split "/"%char s). now rewrite (Hwhole s H). }
  unfold dbNameOf. split; [|split].
  - rewrite (Hlast name Hslash), Hfirst. reflexivity.
  - rewrite (Hlast _ Hlacks), Hfirst'. reflexivity.
  - rewrite (Hwhole name Hslash). simpl. rewrite Hfirst. reflexivity.
Qed.

Lemma dbNameOf_last_piece_witness :
  dbNameOf "mongodb://localhost:27017" = "localhost:27017".
Proof.
  apply (proj1 (dbNameOf_last_piece "mongodb:/" "localhost:27017" EmptyString
                  eq_refl eq_refl eq_refl)).
Defined.

Lemma step_consistent (st : State * Server) (c : Call) :
  consistent (fst st) -> consistent (fst (step st c)).
Proof.
  destruct st as [s server]. unfold consistent, step. simpl.
  destruct c as [env outcome| |closes].
  - unfold connectToDatabase. destruct (db s) as [handle|] eqn:E.
    + simpl. now rewrite E.
    + intros _. destruct outcome; simpl; rewrite ?E; auto.
  - auto.
  - unfold closeDatabaseConnection. intros H.
    destruct (client s) eqn:Ec; [destruct closes|]; simpl; auto;
      rewrite ?Ec; exact H.
Qed.

(** X15.  Whatever calls are made on the module and whatever the driver
    answers, a database handle is held only together with the client it
    was opened on, and under the name read from that client's URI.
    [getDatabase] returns the handle held and throws when none is; a
    connect call made while a handle is held returns that handle and
    opens no client; and a close that succeeds leaves neither client nor
    handle, so that [getDatabase] throws again. *)
Theorem connection_lifecycle :
  forall calls server,
    let s := fst (run calls (initial, server)) in
    consistent s
    /\ (forall handle, db s = Some handle -> getDatabase s = Ok handle)
    /\ (db s = None ->
          getDatabase s =
          Throw "Database not initialized. Call connectToDatabase() first.")
    /\ (forall handle env outcome server',
          db s = Some handle ->
          connectToDatabase env outcome s server' = (s, server', Ok handle))
    /\ (client s <> None ->
          closeDatabaseConnection true s = initial)
    /\ getDatabase (closeDatabaseConnection true s) =
       Throw "Database not initialized. Call connectToDatabase() first.".
Proof.
  intros calls server s.
  assert (Hcons : consistent s).
  { subst s. unfold run.
    assert (H : forall st, consistent (fst st) ->
                  consistent (fst (fold_left step calls st))).
    { induction calls as [|c calls IH]; intros st Hst; simpl; [assumption|].
      apply IH. now apply step_consistent. }
    apply H. exact I. }
  split; [exact Hcons|]. split; [|split; [|split; [|split]]].
  - intros handle E. unfold getDatabase. now rewrite E.
  - intros E. unfold getDatabase. now rewrite E.
  - intros handle env outcome server' E. unfold connectToDatabase. now rewrite E.
  - intros H. unfold closeDatabaseConnection.
    destruct (client s); [reflexivity|contradiction].
  - unfold closeDatabaseConnection, getDatabase.
    destruct (client s) eqn:E; [reflexivity|].
    unfold consistent in Hcons. destruct (db s) as [handle|]; [|reflexivity].
    destruct Hcons as [Hc _]. congruence.
Qed.

Lemma connection_lifecycle_witness :
  getDatabase
    (fst (run [CallConnect None (Refused "ECONNREFUSED");
               CallConnect None Connected]
              (initial, mkServer 0 100 true))) =
  Ok (mkDb (mkClient "mongodb://localhost:27017/studio3t_profiler")
           "studio3t_profiler").
Proof.
  apply (proj1 (proj2 (connection_lifecycle
           [CallConnect None (Refused "ECONNREFUSED");
            CallConnect None Connected] (mkServer 0 100 true)))).
  reflexivity.
Defined.

Lemma step_server (st : State * Server) (c : Call) :
  snd (step st c) = snd st
  \/ (level (snd st) = 0%Z /\ mayProfile (snd st) = true
      /\ snd (step st c) = mkServer 1 100 true
      /\ (c = CallEnableProfiling \/ exists env, c = CallConnect env Connected)).
Proof.
  destruct st as [s server]. destruct c as [env outcome| |closes]; simpl;
    [| |now left].
  - unfold connectToDatabase. destruct (db s); [now left|].
    destruct outcome; simpl; try (now left).
    unfold enableProfiling. simpl.
    destruct (mayProfile server) eqn:Em; [|now left].
    destruct (level server =? 0)%Z eqn:El; [|now left].
    right. apply Z.eqb_eq in El. repeat split; auto. right. now exists env.
  - unfold enableProfiling. destruct (db s); [|now left].
    destruct (mayProfile server) eqn:Em; [|now left].
    destruct (level server =? 0)%Z eqn:El; [|now left].
    right. apply Z.eqb_eq in El. repeat split; auto.
Qed.

(** X18.  The module changes the profiling of the server in one way
    only: a connection that is established, or a call of
    [enableProfiling], while profiling is off and the user may change
    it, turns it on at level 1 with a threshold of 100 ms.  A server
    that profiles already, or that refuses the command, is left as it is
    by every sequence of calls. *)
Theorem profiling_is_only_switched_on :
  forall calls s server,
    let server' := snd (run calls (s, server)) in
    (server' = server \/ server' = mkServer 1 100 true)
    /\ (level server <> 0%Z \/ mayProfile server = false -> server' = server)
    /\ (server' <> server ->
          In CallEnableProfiling calls
          \/ exists env, In (CallConnect env Connected) calls).
Proof.
  intros calls. unfold run.
  induction calls as [|c calls IH]; intros s server; simpl.
  - split; [now left|]. split; [reflexivity|]. intros H. contradiction.
  - destruct (step (s, server) c) as [s1 server1] eqn:E.
    pose proof (step_server (s, server) c) as Hstep. rewrite E in Hstep.
    simpl in Hstep. specialize (IH s1 server1). cbv zeta in IH.
    destruct IH as [IH1 [IH2 IH3]].
    destruct Hstep as [->|[Hl [Hm [-> Hc]]]].
    + split; [exact IH1|]. split; [exact IH2|].
      intros H. destruct (IH3 H) as [Hin|[env Hin]];
        [left; now right|right; exists env; now right].
    + assert (Hkeep : snd (fold_left step calls (s1, mkServer 1 100 true))
                      = mkServer 1 100 true).
      { apply IH2. left. simpl. discriminate. }
      rewrite Hkeep. split; [now right|]. split.
      * intros [H|H]; congruence.
      * intros _. destruct Hc as [->|[env ->]];
          [left; now left|right; exists env; now left].
Qed.

Lemma profiling_is_only_switched_on_witness :
  snd (run [CallConnect None Connected; CallClose true;
            CallConnect None Connected]
           (initial, mkServer 2 50 true)) = mkServer 2 50 true.
Proof.
  apply (proj1 (proj2 (profiling_is_only_switched_on
           [CallConnect None Connected; CallClose true;
            CallConnect None Connected] initial (mkServer 2 50 true)))).
  left. discriminate.
Defined.

End Connection.

(* ================================================================== *)
(** ** The suggested sort index, the depths of the stages, the cut text *)
(* ================================================================== *)

Module Merging.
Import JS Profiler Notions.

Lemma update_keys (target : document) (key : string) (v : value) :
  map fst (update target key v) = map fst target.
Proof.
  induction target as [|[k w] target IH]; simpl; [reflexivity|].
  destruct (String.eqb k key); simpl; [reflexivity|]. now rewrite IH.
Qed.

Lemma update_lookup (target : document) (key key' : string) (v : value) :
  existsb (String.eqb key) (map fst target) = true ->
  lookup (update target key v) key' =
  if String.eqb key key' then Some v else lookup target key'.
Proof.
  induction target as [|[k w] target IH]; simpl; [discriminate|].
  rewrite (String.eqb_sym key k).
  destruct (String.eqb k key) eqn:E; simpl.
  - intros _. apply String.eqb_eq in E. subst k.
    now destruct (String.eqb key key').
  - intros H. rewrite (IH H).
    destruct (String.eqb key key') eqn:E'; [|reflexivity].
    apply String.eqb_eq in E'. subst key'. now rewrite E.
Qed.

Lemma lookup_None (doc : document) (key : string) :
  lookup doc key = None <-> ~ In key (map fst doc).
Proof.
  induction doc as [|[k w] doc IH]; simpl; [tauto|].
  destruct (String.eqb k key) eqn:E.
  - apply String.eqb_eq in E. split; [discriminate|]. intros H. tauto.
  - apply String.eqb_neq in E. rewrite IH. tauto.
Qed.


Lemma place_lookup (target : document) (key key' : string) (n : N)
    (v : value) :
  existsb (String.eqb key) (map fst target) = false ->
  lookup (place target key n v) key' =
  if String.eqb key key' then Some v else lookup target key'.
Proof.
  induction target as [|[k w] target IH]; simpl; [reflexivity|].
  intros H. apply orb_false_iff in H as [Hk H].
  destruct (array_index k) as [m|]; [destruct (m <? n)%N|]; simpl;
    try reflexivity.
  rewrite (IH H). destruct (String.eqb key key') eqn:E; [|reflexivity].
  apply String.eqb_eq in E. subst key'.
  rewrite String.eqb_sym. now rewrite Hk.
Qed.


Lemma append_lookup (target : document) (key key' : string) (v : value) :
  existsb (String.eqb key) (map fst target) = false ->
  lookup (target ++ [(key, v)]) key' =
  if String.eqb key key' then Some v else lookup target key'.
Proof.
  induction target as [|[k w] target IH]; simpl; [reflexivity|].
  intros H. apply orb_false_iff in H as [Hk H].
  rewrite (IH H). destruct (String.eqb k key') eqn:E; [|reflexivity].
  apply String.eqb_eq in E. subst key'. now rewrite Hk.
Qed.

(** A property assigned is read back, and no other property changes. *)
Lemma assign_lookup (target : document) (key key' : string) (v : value) :
  lookup (assign target key v) key' =
  if String.eqb key key' then Some v else lookup target key'.
Proof.
  unfold assign.
  destruct (existsb (String.eqb key) (map fst target)) eqn:E.
  - now apply update_lookup.
  - destruct (array_index key) as [n|].
    + now apply place_lookup.
    + now apply append_lookup.
Qed.

(** A key that is no array index keeps its place or goes last. *)
Lemma assign_keys (target : document) (key : string) (v : value) :
  array_index key = None ->
  map fst (assign target key v) =
  if existsb (String.eqb key) (map fst target)
  then map fst target else map fst target ++ [key].
Proof.
  intros Hkey. unfold assign. rewrite Hkey.
  destruct (existsb (String.eqb key) (map fst target)).
  - apply update_keys.
  - now rewrite map_app.
Qed.



Lemma fold_assign_lookup (l : document) :
  NoDup (map fst l) ->
  forall acc key,
    lookup (fold_left (fun acc kv => assign acc (fst kv) (snd kv)) l acc) key =
    match lookup l key with
    | Some v => Some v
    | None => lookup acc key
    end.
Proof.
  induction l as [|[k w] l IH]; intros Hnodup acc key; simpl; [reflexivity|].
  inversion Hnodup as [|? ? Hnot Hrest]; subst.
  rewrite (IH Hrest). rewrite assign_lookup.
  destruct (String.eqb k key) eqn:E; [|reflexivity].
  apply String.eqb_eq in E. subst key.
  now rewrite (proj2 (lookup_None l k) Hnot).
Qed.

Lemma filter_fresh_ext (seen : list string) (k : string) (l : list string) :
  ~ In k l ->
  filter (fun x => negb (existsb (String.eqb x) (seen ++ [k]))) l =
  filter (fun x => negb (existsb (String.eqb x) seen)) l.
Proof.
  intros Hnot. apply filter_ext_in. intros x Hx.
  rewrite existsb_app. simpl. rewrite orb_false_r.
  destruct (String.eqb x k) eqn:E; [|now rewrite orb_false_r].
  apply String.eqb_eq in E. subst. contradiction.
Qed.

Lemma fold_assign_keys (l : document) :
  NoDup (map fst l) ->
  Forall (fun key => array_index key = None) (map fst l) ->
  forall acc,
    map fst (fold_left (fun acc kv => assign acc (fst kv) (snd kv)) l acc) =
    map fst acc
    ++ filter (fun x => negb (existsb (String.eqb x) (map fst acc))) (map fst l).
Proof.
  induction l as [|[k w] l IH]; intros Hnodup Hplain acc; simpl;
    [now rewrite app_nil_r|].
  inversion Hnodup as [|? ? Hnot Hrest]; subst.
  inversion Hplain as [|? ? Hk Hplain']; subst.
  rewrite (IH Hrest Hplain'), (assign_keys _ _ _ Hk).
  destruct (existsb (String.eqb k) (map fst acc)) eqn:E; simpl; [reflexivity|].
  rewrite filter_fresh_ext by assumption. now rewrite <- app_assoc.
Qed.



(** A sort on a field named by a year: the key is an array index and is
    enumerated first. *)
Example spread_enumerates_array_indices_first :
  Object_keys (spread2 (VObject [("name", VNumber 1)])
                       (VObject [("2024", VNumber (-1))]))
  = ["2024"; "name"]
  /\ Object_keys (spread2 (VObject [("background", VBool true)])
                          (VObject [("10", VBool true); ("9", VBool true)]))
     = ["9"; "10"; "background"].
Proof. split; reflexivity. Qed.

End Merging.

Module Depths.
Import JS Profiler Notions StageFacts.

Lemma gentle_app (d x : nat) (r l : list nat) :
  gentle x r -> d <= x -> Forall (fun p => d <= p) r ->
  (forall p, d <= p -> gentle p l) -> gentle x (r ++ l).
Proof.
  revert x. induction r as [|y r IH]; intros x Hg Hx Hall Hl; simpl.
  - now apply Hl.
  - destruct Hg as [Hy Hg]. inversion Hall as [|? ? Hdy Hall']; subst.
    split; [exact Hy|]. now apply IH.
Qed.

Lemma blocks_gentle (d : nat) (blocks : list (list nat)) :
  Forall (fun b => exists rest, b = S d :: rest
                                /\ Forall (fun x => S d < x) rest
                                /\ gentle (S d) rest) blocks ->
  Forall (fun x => d < x) (List.concat blocks)
  /\ forall p, d <= p -> gentle p (List.concat blocks).
Proof.
  induction 1 as [|b blocks [rest [-> [Hdeep Hg]]] _ [IH1 IH2]]; simpl.
  - split; [constructor|]. intros p _. exact I.
  - split.
    + constructor; [lia|]. apply Forall_app. split; [|exact IH1].
      eapply Forall_impl; [|exact Hdeep]. simpl. intros. lia.
    + intros p Hp. split; [lia|].
      apply (gentle_app d); try assumption; try lia.
      * eapply Forall_impl; [|exact Hdeep]. simpl. intros. lia.
Qed.

(** X6.  In the flattened stage list of a subtree visited at a depth,
    the first entry is at that depth, every later entry is deeper, and
    from an entry to the next the depth goes up by one level at most. *)
Theorem stage_depths_step_gently :
  forall s depth,
    exists rest,
      map Entry.depth (traverseStages s depth []) = depth :: rest
      /\ Forall (fun d => depth < d) rest
      /\ gentle depth rest.
Proof.
  induction s as [s IH] using Stage_children_ind. intros depth.
  rewrite traverseStages_unfold. simpl.
  exists (map Entry.depth
            (List.concat (map (fun c => traverseStages c (depth + 1) [])
                              (children s)))).
  split; [reflexivity|].
  rewrite concat_map, map_map.
  destruct (blocks_gentle depth
              (map (fun c => map Entry.depth (traverseStages c (depth + 1) []))
                   (children s))) as [H1 H2].
  - apply Forall_map. eapply Forall_impl; [|exact IH].
    intros c Hc. cbv beta. replace (depth + 1) with (S depth) by lia.
    apply Hc.
  - split; [exact H1|]. apply H2. lia.
Qed.

End Depths.

Module Cutting.
Import JS View.
Local Open Scope string_scope.

Lemma length_append (a b : string) :
  String.length (a ++ b) = String.length a + String.length b.
Proof. induction a; simpl; congruence. Qed.

Lemma length_substring_0 (n : nat) (s : string) :
  n <= String.length s -> String.length (substring 0 n s) = n.
Proof.
  revert s. induction n as [|n IH]; intros s H.
  - now destruct s.
  - destruct s as [|c s]; simpl in *; [lia|]. rewrite IH; lia.
Qed.

Lemma substring_0_prefix (n : nat) (s : string) :
  String.prefix (substring 0 n s) s = true.
Proof.
  revert s. induction n as [|n IH]; intros s.
  - destruct s; reflexivity.
  - destruct s as [|c s]; simpl; [reflexivity|].
    destruct (ascii_dec c c); [apply IH|contradiction].
Qed.

(** X19.  [truncateQuery] returns a text no longer than the limit as it
    is; a longer one is cut to its first [maxLength] characters followed
    by three dots, so that the result never exceeds the limit by more
    than three characters, and is longer than the text it cuts when that
    one exceeds the limit by one or two. *)
Theorem truncateQuery_length :
  forall queryText maxLength,
    (String.length queryText <= maxLength ->
       truncateQuery queryText maxLength = queryText)
    /\ (maxLength < String.length queryText ->
          truncateQuery queryText maxLength =
          substring 0 maxLength queryText ++ "..."
          /\ String.prefix (substring 0 maxLength queryText) queryText = true
          /\ String.length (truncateQuery queryText maxLength) = maxLength + 3)
    /\ String.length (truncateQuery queryText maxLength) <= maxLength + 3.
Proof.
  intros queryText maxLength. unfold truncateQuery.
  destruct (String.length queryText <=? maxLength)%nat eqn:E.
  - apply Nat.leb_le in E. split; [reflexivity|]. split; [lia|lia].
  - apply Nat.leb_gt in E.
    assert (Hlen : String.length (substring 0 maxLength queryText ++ "...")
                   = maxLength + 3).
    { rewrite length_append, length_substring_0 by lia. reflexivity. }
    split; [lia|]. split; [|lia].
    intros _. split; [reflexivity|]. split; [apply substring_0_prefix|exact Hlen].
Qed.

Lemma truncateQuery_length_witness :
  String.length (truncateQuery "db.orders.find()" 15) = 18.
Proof.
  apply (proj1 (proj2 (truncateQuery_length "db.orders.find()" 15))).
  simpl. lia.
Defined.

End Cutting.

(* ================================================================== *)
(** ** The index routes *)
(* ================================================================== *)

Module IndexTypes.
Import JS Profiler IndexRoutes.
Local Open Scope string_scope.

Lemma forallb_Permutation {A : Type} (f : A -> bool) (l l' : list A) :
  Permutation l l' -> forallb f l = forallb f l'.
Proof.
  induction 1; simpl; try congruence.
  - now rewrite !andb_assoc, (andb_comm (f y)).
Qed.

Lemma existsb_Permutation {A : Type} (f : A -> bool) (l l' : list A) :
  Permutation l l' -> existsb f l = existsb f l'.
Proof.
  induction 1; simpl; try congruence.
  - now rewrite !orb_assoc, (orb_comm (f y)).
Qed.

(** The type of a specification of two keys or more. *)
Lemma getIndexType_many (kv1 kv2 : string * value) (rest : document) :
  getIndexType (VObject (kv1 :: kv2 :: rest)) =
  if forallb is_direction (map snd (kv1 :: kv2 :: rest)) then Ok "Compound"
  else if existsb (is_string "text") (map snd (kv1 :: kv2 :: rest))
       then Ok "Text Compound"
       else Ok "Other".
Proof. reflexivity. Qed.

Lemma getIndexType_one (k : string) (v : value) :
  getIndexType (VObject [(k, v)]) =
  if is_direction v then Ok "Single Field"
  else if is_string "2d" v then Ok "2D Geospatial"
  else if is_string "2dsphere" v then Ok "2D Sphere"
  else if is_string "text" v then Ok "Text"
  else if is_string "hashed" v then Ok "Hashed"
  else Ok "Other".
Proof.
  unfold getIndexType. cbn.
  destruct (is_direction v); [reflexivity|].
  destruct (is_string "2d" v); [reflexivity|].
  destruct (is_string "2dsphere" v); [reflexivity|].
  destruct (is_string "text" v); [reflexivity|].
  destruct (is_string "hashed" v); reflexivity.
Qed.

Lemma forallb_snd (f : value -> bool) (props : document) :
  forallb f (map snd props) = true
  <-> Forall (fun kv => f (snd kv) = true) props.
Proof.
  rewrite forallb_forall, Forall_forall. split.
  - intros H kv Hin. apply H. now apply in_map.
  - intros H v Hin. apply in_map_iff in Hin as [kv [<- Hin]]. now apply H.
Qed.

Lemma existsb_snd (f : value -> bool) (props : document) :
  existsb f (map snd props) = true
  <-> Exists (fun kv => f (snd kv) = true) props.
Proof.
  rewrite existsb_exists, Exists_exists. split.
  - intros [v [Hin Hv]]. apply in_map_iff in Hin as [kv [<- Hin]].
    now exists kv.
  - intros [kv [Hin Hv]]. exists (snd kv). split; [now apply in_map|assumption].
Qed.

(** X20.  [getIndexType] throws on [undefined] and [null] only.  On a
    key specification that is an object the type depends on the number of
    the keys and on their values, not on their names nor on their order:
    it is [Single Field] exactly for one key of direction 1 or -1,
    [Compound] exactly for two keys or more all of direction 1 or -1, and
    [Text Compound] exactly for two keys or more, not all of them
    directions, one of which is [text]; so a hashed or geospatial key
    together with another key is [Other]. *)
Theorem getIndexType_of_key_pattern :
  (forall keySpec,
     (exists message, getIndexType keySpec = Throw message)
     <-> (keySpec = VUndefined \/ keySpec = VNull))
  /\ forall props,
       let type := getIndexType (VObject props) in
       (type = Ok "Single Field" <->
          exists k v, props = [(k, v)] /\ is_direction v = true)
       /\ (type = Ok "Compound" <->
             (2 <= List.length props)%nat
             /\ Forall (fun kv => is_direction (snd kv) = true) props)
       /\ (type = Ok "Text Compound" <->
             (2 <= List.length props)%nat
             /\ ~ Forall (fun kv => is_direction (snd kv) = true) props
             /\ Exists (fun kv => is_string "text" (snd kv) = true) props)
       /\ (forall props',
             Permutation props props' ->
             getIndexType (VObject props') = type)
       /\ (forall props',
             map snd props' = map snd props ->
             getIndexType (VObject props') = type).
Proof.
  split.
  - intros keySpec. split.
    + intros [message H]. destruct keySpec; auto; exfalso.
      * unfold getIndexType in H. cbn in H. discriminate.
      * unfold getIndexType in H. cbn in H. discriminate.
      * unfold getIndexType in H.
        destruct (if Nat.eqb _ 1 then _ else None) as [t|];
          [discriminate|].
        destruct (Nat.ltb 1 _); [|discriminate].
        destruct (forallb _ _); [discriminate|].
        destruct (existsb _ _); discriminate.
      * unfold getIndexType in H.
        destruct (if Nat.eqb _ 1 then _ else None) as [t|];
          [discriminate|].
        destruct (Nat.ltb 1 _); [|discriminate].
        destruct (forallb _ _); [discriminate|].
        destruct (existsb _ _); discriminate.
      * unfold getIndexType in H.
        destruct (if Nat.eqb _ 1 then _ else None) as [t|];
          [discriminate|].
        destruct (Nat.ltb 1 _); [|discriminate].
        destruct (forallb _ _); [discriminate|].
        destruct (existsb _ _); discriminate.
    + intros [-> | ->]; eexists; reflexivity.
  - intros props type. subst type.
    destruct props as [|[k v] [|kv2 rest]].
    + (* no key *)
      change (getIndexType (VObject [])) with (@Ok string "Other").
      split; [|split; [|split; [|split]]].
      * split; [discriminate|]. intros [k [v [H _]]]. discriminate.
      * split; [discriminate|]. simpl. intros [H _]. lia.
      * split; [discriminate|]. simpl. intros [H _]. lia.
      * intros props' H. apply Permutation_nil in H. now subst.
      * intros props' H. destruct props'; [reflexivity|discriminate].
    + (* one key *)
      rewrite getIndexType_one.
      split; [|split; [|split; [|split]]].
      * split.
        -- intros H. exists k, v. split; [reflexivity|].
           destruct (is_direction v); [reflexivity|].
           destruct (is_string "2d" v); [discriminate|].
           destruct (is_string "2dsphere" v); [discriminate|].
           destruct (is_string "text" v); [discriminate|].
           destruct (is_string "hashed" v); discriminate.
        -- intros [k' [v' [E H]]]. injection E as <- <-. now rewrite H.
      * split; [|simpl; intros [H _]; lia].
        destruct (is_direction v); [discriminate|].
        destruct (is_string "2d" v); [discriminate|].
        destruct (is_string "2dsphere" v); [discriminate|].
        destruct (is_string "text" v); [discriminate|].
        destruct (is_string "hashed" v); discriminate.
      * split; [|simpl; intros [H _]; lia].
        destruct (is_direction v); [discriminate|].
        destruct (is_string "2d" v); [discriminate|].
        destruct (is_string "2dsphere" v); [discriminate|].
        destruct (is_string "text" v); [discriminate|].
        destruct (is_string "hashed" v); discriminate.
      * intros props' H. apply Permutation_length_1_inv in H. subst.
        apply getIndexType_one.
      * intros props' H. destruct props' as [|[k' v'] [|? ?]];
          try discriminate.
        injection H as ->. apply getIndexType_one.
    + (* two keys or more *)
      rewrite getIndexType_many.
      assert (Hall := forallb_snd is_direction ((k, v) :: kv2 :: rest)).
      assert (Hsome := existsb_snd (is_string "text") ((k, v) :: kv2 :: rest)).
      split; [|split; [|split; [|split]]].
      * split.
        -- destruct (forallb _ _); [discriminate|].
           destruct (existsb _ _); discriminate.
        -- intros [k' [v' [E _]]]. discriminate.
      * split.
        -- intros H. split; [simpl; lia|]. apply Hall.
           destruct (forallb _ _); [reflexivity|].
           destruct (existsb _ _); discriminate.
        -- intros [_ H]. apply Hall in H. now rewrite H.
      * split.
        -- intros H. split; [simpl; lia|].
           destruct (forallb _ _) eqn:E1; [discriminate|].
           destruct (existsb _ _) eqn:E2; [|discriminate].
           split; [|now apply Hsome].
           intros Hf. apply Hall in Hf. discriminate.
        -- intros [_ [Hn Hs]]. apply Hsome in Hs. rewrite Hs.
           destruct (forallb _ _) eqn:E1; [|reflexivity].
           exfalso. apply Hn. now apply Hall.
      * intros props' H.
        assert (Hlen := Permutation_length H).
        destruct props' as [|kv1' [|kv2' rest']]; try discriminate.
        rewrite getIndexType_many.
        assert (Hv := Permutation_map snd H).
        now rewrite <- (forallb_Permutation _ _ _ Hv),
                    <- (existsb_Permutation _ _ _ Hv).
      * intros props' H.
        destruct props' as [|kv1' [|kv2' rest']]; try discriminate.
        rewrite getIndexType_many. now rewrite H.
Qed.

Lemma getIndexType_of_key_pattern_witness :
  getIndexType (VObject [("createdAt", VNumber (-1)); ("status", VNumber 1)])
  = getIndexType (VObject [("status", VNumber 1); ("createdAt", VNumber (-1))]).
Proof.
  apply (proj1 (proj2 (proj2 (proj2
           (proj2 getIndexType_of_key_pattern
              [("status", VNumber 1); ("createdAt", VNumber (-1))]))))).
  apply perm_swap.
Defined.

End IndexTypes.

Module IndexAdvice.
Import JS Profiler IndexRoutes SetFacts.
Local Open Scope string_scope.

Lemma filter_nonempty {A : Type} (f : A -> bool) (l : list A) :
  Nat.ltb 0 (List.length (filter f l)) = existsb f l.
Proof.
  induction l as [|x l IH]; simpl; [reflexivity|].
  destruct (f x); simpl; [reflexivity|assumption].
Qed.

Lemma onlyDefault_spec (indexes : list Info.t) (collection : string) :
  onlyDefault indexes collection = true
  <-> exists idx,
        filter (fun i => String.eqb (Info.collection i) collection) indexes
        = [idx]
        /\ Described.name (Info.index idx) = Some "_id_".
Proof.
  unfold onlyDefault.
  destruct (filter _ indexes) as [|first [|second rest]]; simpl.
  - split; [discriminate|]. intros [idx [H _]]. discriminate.
  - unfold notDefault. split.
    + intros H. exists first. split; [reflexivity|].
      destruct (Described.name (Info.index first)) as [n|]; [|discriminate].
      apply negb_true_iff, negb_false_iff, String.eqb_eq in H. now subst.
    + intros [idx [E H]]. injection E as ->. now rewrite H.
  - split; [discriminate|]. intros [idx [H _]]. discriminate.
Qed.

Lemma onlyDefault_listed (indexes : list Info.t) (collection : string) :
  onlyDefault indexes collection = true ->
  In collection (map Info.collection indexes).
Proof.
  intros H. apply onlyDefault_spec in H as [idx [E _]].
  assert (Hin : In idx (filter (fun i => String.eqb (Info.collection i)
                                                    collection) indexes)).
  { rewrite E. now left. }
  apply filter_In in Hin as [Hin Hc]. apply String.eqb_eq in Hc. subst.
  now apply in_map.
Qed.

(** The recommendation on the unused indexes, when there is one. *)
Lemma unused_advice_is (indexes : list Info.t) (a : Advice.t) :
  In a (generateIndexRecommendations indexes) ->
  Advice.type a = "unused_indexes" ->
  a = unusedAdvice (filter isUnused indexes).
Proof.
  unfold generateIndexRecommendations. intros Hin Htype.
  destruct (Nat.ltb 0 (List.length (filter isUnused indexes)));
    destruct (Nat.ltb 0 (List.length (filter isLarge indexes)));
    destruct (Nat.ltb 0 (List.length (collectionsWithoutIndexes indexes)));
    simpl in Hin;
    repeat match goal with
           | H : _ \/ _ |- _ => destruct H as [H|H]
           | H : False |- _ => contradiction
           end;
    subst a; try reflexivity; discriminate.
Qed.

Lemma unused_advice_given (indexes : list Info.t) :
  existsb isUnused indexes = true ->
  In (unusedAdvice (filter isUnused indexes))
     (generateIndexRecommendations indexes).
Proof.
  unfold generateIndexRecommendations.
  rewrite (filter_nonempty isUnused). intros ->.
  destruct (Nat.ltb 0 (List.length (filter isLarge indexes)));
    destruct (Nat.ltb 0 (List.length (collectionsWithoutIndexes indexes)));
    simpl; auto.
Qed.

(** X21.  The recommendations on the indexes come in the order unused,
    large, missing, each at most once and only with something to report:
    its count is the length of its list and is 1 at least.  The unused
    ones are the indexes not named [_id_] whose usage shows no access,
    in the order given, the large ones those above 100 MiB; the
    collections reported are, without repetition, those with exactly one
    index in the list, named [_id_]. *)
Theorem index_advice_rules :
  forall indexes,
    let advice := generateIndexRecommendations indexes in
    map Advice.type advice =
      ((if existsb isUnused indexes then ["unused_indexes"] else [])
       ++ (if existsb isLarge indexes then ["large_indexes"] else [])
       ++ (if existsb (onlyDefault indexes) (map Info.collection indexes)
           then ["missing_indexes"] else []))%list
    /\ (forall a,
          In a advice ->
          (1 <= Advice.count a)%nat
          /\ (Advice.type a = "unused_indexes" ->
                Advice.indexes a = Some (map briefOf (filter isUnused indexes))
                /\ Advice.count a = List.length (filter isUnused indexes))
          /\ (Advice.type a = "large_indexes" ->
                Advice.indexes a = Some (map briefOf (filter isLarge indexes))
                /\ Advice.count a = List.length (filter isLarge indexes))
          /\ (Advice.type a = "missing_indexes" ->
                exists collections,
                  Advice.collections a = Some collections
                  /\ Advice.count a = List.length collections
                  /\ NoDup collections
                  /\ forall c,
                       In c collections <->
                       exists idx,
                         filter (fun i => String.eqb (Info.collection i) c)
                                indexes = [idx]
                         /\ Described.name (Info.index idx) = Some "_id_"))
    /\ (forall idx,
          In idx (filter isUnused indexes) ->
          Described.name (Info.index idx) <> Some "_id_").
Proof.
  intros indexes advice. subst advice. unfold generateIndexRecommendations.
  assert (Hmissing :
            existsb (onlyDefault indexes)
                    (Set_of (map Info.collection indexes))
            = existsb (onlyDefault indexes) (map Info.collection indexes)).
  { apply eq_true_iff_eq. rewrite !existsb_exists.
    split; intros [c [Hin H]]; exists c; split; try assumption;
      now apply Set_of_In. }
  assert (Hcoll : NoDup (collectionsWithoutIndexes indexes)
                  /\ forall c,
                       In c (collectionsWithoutIndexes indexes) <->
                       exists idx,
                         filter (fun i => String.eqb (Info.collection i) c)
                                indexes = [idx]
                         /\ Described.name (Info.index idx) = Some "_id_").
  { unfold collectionsWithoutIndexes. split.
    - apply NoDup_filter, Set_of_NoDup.
    - intros c. rewrite filter_In, Set_of_In, <- onlyDefault_spec.
      split; [tauto|]. intros H. split; [|assumption].
      now apply onlyDefault_listed. }
  assert (Hu := filter_nonempty isUnused indexes).
  assert (Hl := filter_nonempty isLarge indexes).
  assert (Hm : Nat.ltb 0 (List.length (collectionsWithoutIndexes indexes))
               = existsb (onlyDefault indexes) (map Info.collection indexes)).
  { unfold collectionsWithoutIndexes. now rewrite filter_nonempty. }
  rewrite Hu, Hl, Hm.
  split; [|split].
  - destruct (existsb isUnused indexes), (existsb isLarge indexes),
      (existsb (onlyDefault indexes) (map Info.collection indexes));
      reflexivity.
  - intros a Hin.
    assert (Hcases :
              (a = unusedAdvice (filter isUnused indexes)
               /\ existsb isUnused indexes = true)
              \/ (a = largeAdvice (filter isLarge indexes)
                  /\ existsb isLarge indexes = true)
              \/ (a = missingAdvice (collectionsWithoutIndexes indexes)
                  /\ existsb (onlyDefault indexes)
                             (map Info.collection indexes) = true)).
    { destruct (existsb isUnused indexes), (existsb isLarge indexes),
        (existsb (onlyDefault indexes) (map Info.collection indexes));
        simpl in Hin; intuition (subst; auto). }
    destruct Hcases as [[-> H] | [[-> H] | [-> H]]]; simpl.
    + rewrite <- Hu in H. apply Nat.ltb_lt in H.
      split; [lia|]. split; [auto|]. split; [discriminate|discriminate].
    + rewrite <- Hl in H. apply Nat.ltb_lt in H.
      split; [lia|]. split; [discriminate|]. split; [auto|discriminate].
    + rewrite <- Hm in H. apply Nat.ltb_lt in H.
      split; [lia|]. split; [discriminate|]. split; [discriminate|].
      intros _. exists (collectionsWithoutIndexes indexes).
      split; [reflexivity|]. split; [reflexivity|]. exact Hcoll.
  - intros idx Hin. apply filter_In in Hin as [_ H].
    unfold isUnused in H. apply andb_true_iff in H as [H _].
    intros E. rewrite E in H. discriminate.
Qed.

End IndexAdvice.

Module IndexHandlers.
Import JS Profiler Listing Database IndexRoutes SetFacts Notions.
Local Open Scope string_scope.

Lemma Set_of_length (l : list string) :
  (List.length (Set_of l) <= List.length l)%nat.
Proof.
  apply NoDup_incl_length; [apply Set_of_NoDup|].
  intros x. apply Set_of_In.
Qed.

Lemma Set_of_nil_iff (l : list string) : Set_of l = [] <-> l = [].
Proof.
  split; [|now intros ->].
  destruct l as [|x l]; [reflexivity|]. intros H.
  assert (Hin : In x (Set_of (x :: l))) by (apply Set_of_In; now left).
  rewrite H in Hin. contradiction.
Qed.

Section Handlers.

Variable Store : Type.
Variable indexesOf : Store -> string -> result (list Described.t).
Variable listCollections : Store -> result (list string).
Variable createIndex : Store -> string -> value -> value -> Store * result string.
Variable dropIndex : Store -> string -> string -> Store * result unit.
Variable now : value.

Local Abbreviation listIndexes :=
  (IndexRoutes.listIndexes Store indexesOf listCollections now).
Local Abbreviation gather := (IndexRoutes.gather Store indexesOf now).
Local Abbreviation rowsOf := (IndexRoutes.rowsOf now).
Local Abbreviation createRoute :=
  (IndexRoutes.createRoute Store createIndex now).
Local Abbreviation dropRoute := (IndexRoutes.dropRoute Store dropIndex).

(** The rows gathered from the collections, one collection after the
    other. *)
Lemma gather_flat_map (store : Store) (db : Db) (collections : list string) :
  gather store db collections =
  flat_map (fun name =>
              match indexesOf store name with
              | Ok indexes => rowsOf db name indexes
              | Throw _ => []
              end) collections.
Proof.
  unfold IndexRoutes.gather.
  assert (H : forall acc,
            fold_left (fun indexData name =>
                         match indexesOf store name with
                         | Ok indexes => (indexData ++ rowsOf db name indexes)%list
                         | Throw _ => indexData
                         end) collections acc
            = (acc ++ flat_map (fun name =>
                                  match indexesOf store name with
                                  | Ok indexes => rowsOf db name indexes
                                  | Throw _ => []
                                  end) collections)%list).
  { induction collections as [|name collections IH]; intros acc; simpl.
    - now rewrite app_nil_r.
    - rewrite IH. destruct (indexesOf store name); [|reflexivity].
      now rewrite <- app_assoc. }
  apply (H []).
Qed.

(** X22.  The listing of the indexes answers 500 when no database is
    held.  For a collection asked by name an error of the driver fails
    the request; when all collections are listed, a collection whose
    indexes cannot be read is skipped and the others are reported, in
    the order of the collections.  In an answer every row carries the
    name of the database held; the total is the number of rows; the
    collections counted and the unused indexes never exceed it; and no
    collection is counted exactly when there is no row. *)
Theorem listIndexes_skips_unreadable_collections :
  forall s store database collection,
    let respond := listIndexes s store database collection in
    (forall message,
       getDatabase s = Throw message ->
       respond = Index500 "Failed to retrieve indexes" message)
    /\ (forall db name,
          getDatabase s = Ok db ->
          collection = Some name -> name <> EmptyString -> name <> "all" ->
          match indexesOf store name with
          | Throw message =>
              respond = Index500 "Failed to retrieve indexes" message
          | Ok indexes =>
              respond =
              IndexList (rowsOf db name indexes)
                        (statsOf (rowsOf db name indexes)) database name
          end)
    /\ (forall db,
          getDatabase s = Ok db ->
          truthy_str collection = false \/ collection = Some "all" ->
          match listCollections store with
          | Throw message =>
              respond = Index500 "Failed to retrieve indexes" message
          | Ok collections =>
              let data :=
                flat_map (fun name =>
                            match indexesOf store name with
                            | Ok indexes => rowsOf db name indexes
                            | Throw _ => []
                            end) collections in
              respond = IndexList data (statsOf data) database "all"
          end)
    /\ (forall data stats d c,
          respond = IndexList data stats d c ->
          IndexStats.totalIndexes stats = List.length data
          /\ (IndexStats.collectionsWithIndexes stats
              <= IndexStats.totalIndexes stats)%nat
          /\ (IndexStats.unusedIndexes stats
              <= IndexStats.totalIndexes stats)%nat
          /\ (IndexStats.collectionsWithIndexes stats = 0%nat <-> data = [])
          /\ forall db row,
               getDatabase s = Ok db -> In row data ->
               IndexRow.database row = dbName db).
Proof.
  intros s store database collection respond. subst respond.
  unfold IndexRoutes.listIndexes.
  split; [|split; [|split]].
  - intros message ->. reflexivity.
  - intros db name -> -> Hne Hall. simpl.
    apply String.eqb_neq in Hne, Hall. rewrite Hne, Hall. simpl.
    destruct (indexesOf store name); reflexivity.
  - intros db -> Hc.
    assert (E : truthy_str collection
                && negb (String.eqb (text collection) "all") = false).
    { destruct Hc as [-> | ->]; reflexivity. }
    rewrite E. destruct (listCollections store) as [collections|message];
      [|reflexivity].
    cbv zeta. rewrite gather_flat_map.
    destruct Hc as [-> | ->]; reflexivity.
  - intros data stats d c H.
    assert (Hstats : stats = statsOf data
                     /\ forall db row, getDatabase s = Ok db -> In row data ->
                                       IndexRow.database row = dbName db).
    { destruct (getDatabase s) as [db|message]; [|discriminate].
      destruct (truthy_str collection
                && negb (String.eqb (text collection) "all")).
      - destruct (indexesOf store (text collection)) as [indexes|message];
          [|discriminate].
        injection H as <- <- _ _. split; [reflexivity|].
        intros db' row E Hin. injection E as <-.
        unfold IndexRoutes.rowsOf in Hin.
        apply in_map_iff in Hin as [index [<- _]]. reflexivity.
      - destruct (listCollections store) as [collections|message];
          [|discriminate].
        injection H as <- <- _ _. split; [reflexivity|].
        intros db' row E Hin. injection E as <-.
        rewrite gather_flat_map in Hin.
        apply in_flat_map in Hin as [name [_ Hin]].
        destruct (indexesOf store name) as [indexes|message];
          [|contradiction].
        unfold IndexRoutes.rowsOf in Hin.
        apply in_map_iff in Hin as [index [<- _]]. reflexivity. }
    destruct Hstats as [-> Hdb]. unfold statsOf. simpl.
    split; [reflexivity|]. split; [|split; [|split]].
    + rewrite <- (length_map IndexRow.collection data). apply Set_of_length.
    + apply filter_length_le.
    + rewrite length_zero_iff_nil, Set_of_nil_iff. split.
      * apply map_eq_nil.
      * now intros ->.
    + exact Hdb.
Qed.

(** X23.  The route that drops an index leaves the indexes of the
    server as they are when a parameter is missing, when the index is
    [_id_], which is answered by 400 whatever database is held, and when
    no database is held.  Otherwise the driver is asked once, for the
    very collection and index of the request, and the answer is the
    success message or the error of the driver. *)
Theorem dropRoute_spares_default_index :
  forall s store collection indexName,
    let outcome := dropRoute s store collection indexName in
    (indexName = Some "_id_" ->
       fst outcome = store
       /\ exists error message, snd outcome = Index400 error message)
    /\ (truthy_str collection = false \/ truthy_str indexName = false
        \/ getDatabase s
           = Throw "Database not initialized. Call connectToDatabase() first." ->
        fst outcome = store
        /\ forall message, snd outcome <> IndexDropped message)
    /\ (forall message,
          snd outcome = IndexDropped message ->
          exists c i db,
            collection = Some c /\ indexName = Some i /\ i <> "_id_"
            /\ getDatabase s = Ok db
            /\ dropIndex store c i = (fst outcome, Ok tt))
    /\ (fst outcome = store
        \/ fst outcome
           = fst (dropIndex store (text collection) (text indexName))).
Proof.
  intros s store collection indexName outcome. subst outcome.
  unfold IndexRoutes.dropRoute.
  split; [|split; [|split]].
  - intros ->. simpl. destruct (truthy_str collection); simpl;
      (split; [reflexivity|eexists; eexists; reflexivity]).
  - intros H.
    destruct (truthy_str collection) eqn:Ec; simpl;
      [|split; [reflexivity|discriminate]].
    destruct (truthy_str indexName) eqn:Ei; simpl;
      [|split; [reflexivity|discriminate]].
    destruct (String.eqb (text indexName) "_id_");
      [split; [reflexivity|discriminate]|].
    destruct H as [H|[H|H]]; try discriminate.
    rewrite H. split; [reflexivity|discriminate].
  - intros message.
    destruct collection as [c|]; [|discriminate].
    destruct indexName as [i|]; simpl;
      [|destruct (negb (String.eqb c EmptyString)); discriminate].
    destruct (String.eqb c EmptyString); [discriminate|].
    destruct (String.eqb i EmptyString); [discriminate|]. simpl.
    destruct (String.eqb i "_id_") eqn:Ei; [discriminate|].
    destruct (getDatabase s) as [db|m]; [|discriminate].
    destruct (dropIndex store c i) as [store' [[]|m]] eqn:Ed; [|discriminate].
    intros _. exists c, i, db. apply String.eqb_neq in Ei. auto.
  - destruct (negb (truthy_str collection) || negb (truthy_str indexName));
      [now left|].
    destruct (String.eqb (text indexName) "_id_"); [now left|].
    destruct (getDatabase s); [|now left].
    right. destruct (dropIndex store _ _) as [store' [[]|m]]; reflexivity.
Qed.

(** X24.  The route that creates an index asks the driver only when
    the collection and the specification are given and a database is
    held, and leaves the indexes of the server as they are otherwise.
    The options passed to the driver are those of the request (with
    distinct keys) merged into [background: true]: every option of the
    request is passed with its value, and [background] is true unless
    the request sets it.  When no key of the request is an array index,
    the keys passed are [background] followed by the other keys of the
    request in their order. *)
Theorem createRoute_builds_in_background :
  (forall s store collection indexSpec options,
     let outcome := createRoute s store collection indexSpec options in
     (truthy_str collection = false \/ truthy indexSpec = false
      \/ getDatabase s
         = Throw "Database not initialized. Call connectToDatabase() first." ->
      fst outcome = store
      /\ exists error message,
           snd outcome = Index400 error message
           \/ snd outcome = Index500 error message)
     /\ (forall c db requested,
           collection = Some c -> c <> EmptyString ->
           truthy indexSpec = true -> getDatabase s = Ok db ->
           options = Some (VObject requested) ->
           fst outcome
           = fst (createIndex store c indexSpec
                    (createOptions (VObject requested)))))
  /\ (forall requested,
        NoDup (map fst requested) ->
        exists passed,
          createOptions (VObject requested) = VObject passed
          /\ lookup passed "background" =
             Some (match lookup requested "background" with
                   | Some choice => choice
                   | None => VBool true
                   end)
          /\ (forall option v,
                lookup requested option = Some v ->
                lookup passed option = Some v)
          /\ (Forall (fun option => array_index option = None)
                     (map fst requested) ->
              map fst passed =
              "background"
              :: filter (fun option => negb (String.eqb option "background"))
                        (map fst requested))).
Proof.
  split.
  - intros s store collection indexSpec options outcome. subst outcome.
    unfold IndexRoutes.createRoute. split.
    + intros H.
      destruct (truthy_str collection) eqn:Ec; simpl;
        [|split; [reflexivity|eexists; eexists; left; reflexivity]].
      destruct (truthy indexSpec) eqn:Ei; simpl;
        [|split; [reflexivity|eexists; eexists; left; reflexivity]].
      destruct H as [H|[H|H]]; try discriminate.
      rewrite H. split; [reflexivity|eexists; eexists; right; reflexivity].
    + intros c db requested -> Hc Hi Hdb ->. simpl.
      apply String.eqb_neq in Hc. rewrite Hc, Hi, Hdb. simpl.
      destruct (createIndex store c indexSpec _) as [store' [name|m]];
        reflexivity.
  - intros requested Hnodup. unfold createOptions, spread2.
    eexists. split; [reflexivity|].
    cbn [own_props]. rewrite fold_left_app.
    change (fold_left (fun acc kv => assign acc (fst kv) (snd kv))
                      [("background", VBool true)] [])
      with [("background", VBool true)].
    split; [|split].
    + rewrite (Merging.fold_assign_lookup requested Hnodup). simpl.
      now destruct (lookup requested "background").
    + intros option v H.
      rewrite (Merging.fold_assign_lookup requested Hnodup). now rewrite H.
    + intros Hplain.
      rewrite (Merging.fold_assign_keys requested Hnodup Hplain). simpl.
      f_equal. apply filter_ext. intros k.
      now rewrite orb_false_r.
Qed.

End Handlers.

Lemma listIndexes_skips_unreadable_collections_witness :
  exists data stats,
    IndexRoutes.listIndexes unit IndexSamples.twoCollections
      IndexSamples.twoNames VNull IndexSamples.held tt None None
    = IndexList data stats None "all"
    /\ map IndexRow.collection data = ["orders"; "orders"; "users"].
Proof.
  pose proof (proj1 (proj2 (proj2
    (listIndexes_skips_unreadable_collections unit IndexSamples.twoCollections
       IndexSamples.twoNames VNull IndexSamples.held tt None None)))
    _ eq_refl (or_introl eq_refl)) as H.
  simpl in H. eexists. eexists. split; [exact H|reflexivity].
Defined.

Lemma dropRoute_spares_default_index_witness :
  fst (IndexRoutes.dropRoute (list string)
         (fun store collection indexName => ([], Ok tt))
         IndexSamples.held ["_id_"; "status_1"] (Some "orders") (Some "_id_"))
  = ["_id_"; "status_1"].
Proof.
  apply (proj1 (dropRoute_spares_default_index (list string)
                  (fun store collection indexName => ([], Ok tt))
                  IndexSamples.held ["_id_"; "status_1"]
                  (Some "orders") (Some "_id_"))).
  reflexivity.
Defined.

Lemma createRoute_builds_in_background_witness :
  exists passed,
    createOptions (VObject [("unique", VBool true); ("background", VBool false)])
    = VObject passed
    /\ lookup passed "background" = Some (VBool false)
    /\ map fst passed = ["background"; "unique"].
Proof.
  destruct (proj2 (createRoute_builds_in_background unit
                     (fun store c spec options => (store, Ok c)) VNull)
              [("unique", VBool true); ("background", VBool false)])
    as [passed [E [Hb [_ Hk]]]].
  - repeat constructor; simpl; intuition discriminate.
  - exists passed. split; [exact E|]. split; [exact Hb|].
    apply Hk. repeat constructor.
Defined.

End IndexHandlers.

Module IndexTotals.
Import JS Profiler Listing Database IndexRoutes IndexNotions.
Local Open Scope string_scope.

(** The number of indexes tallied by type. *)
Lemma bump_sum (indexTypes : list (string * nat)) (indexType : string) :
  list_sum (map snd (bump indexTypes indexType))
  = S (list_sum (map snd indexTypes)).
Proof.
  induction indexTypes as [|[t n] rest IH]; simpl; [reflexivity|].
  destruct (String.eqb t indexType); simpl; [lia|]. rewrite IH. lia.
Qed.

Lemma bump_keys (indexTypes : list (string * nat)) (indexType : string) :
  map fst (bump indexTypes indexType)
  = Set_add (map fst indexTypes) indexType.
Proof.
  unfold Set_add.
  induction indexTypes as [|[t n] rest IH]; simpl; [reflexivity|].
  rewrite (String.eqb_sym indexType t).
  destruct (String.eqb t indexType); simpl; [reflexivity|].
  rewrite IH. now destruct (existsb (String.eqb indexType) (map fst rest)).
Qed.

Lemma Set_add_NoDup (s : list string) (x : string) :
  NoDup s -> NoDup (Set_add s x).
Proof.
  intros H. unfold Set_add.
  destruct (existsb (String.eqb x) s) eqn:E; [assumption|].
  apply NoDup_app; repeat split; try assumption.
  - repeat constructor. intros [].
  - intros y Hy [Ey|[]]. subst y.
    apply (proj2 (SetFacts.existsb_eqb_In x s)) in Hy. congruence.
Qed.

Section Statistics.

Variable Store : Type.
Variable indexesOf : Store -> string -> result (list Described.t).
Variable listCollections : Store -> result (list string).
Variable collectionStats : Store -> string -> result CollStats.t.
Variable sort : list Info.t -> list Info.t.

(** All that is taken of the sort of the engine: it rearranges. *)
Hypothesis sort_permutes : forall l, Permutation (sort l) l.

Local Abbreviation analyseCollection :=
  (IndexRoutes.analyseCollection Store indexesOf collectionStats).
Local Abbreviation analyse :=
  (IndexRoutes.analyse Store indexesOf collectionStats).
Local Abbreviation statsRoute :=
  (IndexRoutes.statsRoute Store indexesOf listCollections collectionStats sort).

Local Abbreviation described := (IndexNotions.described Store indexesOf).

Lemma analyseIndexes_spec (name : string) (stats : CollStats.t)
    (indexes : list Described.t) :
  forall progress,
    tallied progress ->
    let result := analyseIndexes name stats indexes progress in
    tallied (fst result)
    /\ Totals.collectionsAnalyzed (fst (fst result))
       = Totals.collectionsAnalyzed (fst progress)
    /\ (exists pushed,
          snd (fst result) = (snd progress ++ pushed)%list
          /\ forall idx, In idx pushed ->
               Info.collection idx = name /\ In (Info.index idx) indexes)
    /\ (snd result = true ->
          list_sum (map snd (Totals.indexTypes (fst (fst result))))
          = (list_sum (map snd (Totals.indexTypes (fst progress)))
             + List.length indexes)%nat).
Proof.
  induction indexes as [|index rest IH]; intros [totalStats allIndexes] Ht.
  - simpl. split; [assumption|]. split; [reflexivity|]. split.
    + exists []. split; [now rewrite app_nil_r|]. intros idx [].
    + intros _. lia.
  - destruct Ht as [Hlen [Hsum Hnodup]]. simpl in Hlen, Hsum, Hnodup.
    cbn [analyseIndexes].
    destruct (getIndexType (Described.key index)) as [indexType|message].
    + match goal with
      | |- context [analyseIndexes name stats rest ?p] =>
          specialize (IH p)
      end.
      destruct IH as [IH1 [IH2 [[pushed [IH3 IH4]] IH5]]].
      { repeat split; simpl.
        - rewrite length_app. simpl. lia.
        - rewrite bump_sum. lia.
        - rewrite bump_keys. now apply Set_add_NoDup. }
      cbv zeta. split; [exact IH1|]. split; [exact IH2|]. split.
      * eexists. split.
        -- rewrite IH3. simpl. rewrite <- app_assoc. reflexivity.
        -- intros idx [<-|Hin]; simpl.
           ++ split; [reflexivity|now left].
           ++ destruct (IH4 idx Hin) as [H1 H2]. split; [assumption|now right].
      * intros H. rewrite (IH5 H). simpl. rewrite bump_sum. lia.
    + cbv zeta. simpl. split; [|split; [reflexivity|split]].
      * repeat split; simpl; try assumption.
        -- rewrite length_app. simpl. lia.
        -- lia.
      * eexists. split; [reflexivity|].
        intros idx [<-|[]]. simpl. split; [reflexivity|now left].
      * discriminate.
Qed.

Lemma analyseCollection_spec (store : Store) (progress : Progress)
    (name : string) :
  tallied progress ->
  let progress' := analyseCollection store progress name in
  tallied progress'
  /\ (Totals.collectionsAnalyzed (fst progress')
      <= Totals.collectionsAnalyzed (fst progress) + 1)%nat
  /\ (Totals.collectionsAnalyzed (fst progress)
      <= Totals.collectionsAnalyzed (fst progress'))%nat
  /\ exists pushed,
       snd progress' = (snd progress ++ pushed)%list
       /\ forall idx, In idx pushed ->
            Info.collection idx = name
            /\ exists indexes,
                 indexesOf store name = Ok indexes
                 /\ In (Info.index idx) indexes.
Proof.
  intros Ht. unfold IndexRoutes.analyseCollection.
  assert (Hsame : tallied progress
                  /\ (Totals.collectionsAnalyzed (fst progress)
                      <= Totals.collectionsAnalyzed (fst progress) + 1)%nat
                  /\ (Totals.collectionsAnalyzed (fst progress)
                      <= Totals.collectionsAnalyzed (fst progress))%nat
                  /\ exists pushed,
                       snd progress = (snd progress ++ pushed)%list
                       /\ forall idx, In idx pushed ->
                            Info.collection idx = name
                            /\ exists indexes,
                                 indexesOf store name = Ok indexes
                                 /\ In (Info.index idx) indexes).
  { split; [assumption|]. split; [lia|]. split; [lia|].
    exists []. split; [now rewrite app_nil_r|]. intros idx []. }
  destruct (indexesOf store name) as [indexes|message] eqn:Ei;
    [|exact Hsame].
  destruct (collectionStats store name) as [stats|message]; [|exact Hsame].
  pose proof (analyseIndexes_spec name stats indexes progress Ht) as H.
  cbv zeta in H.
  destruct (analyseIndexes name stats indexes progress)
    as [[totalStats allIndexes] completed].
  simpl in H. destruct H as [[H1 [H2 H3]] [H4 [[pushed [H5 H6]] _]]].
  assert (Hpushed : exists pushed0,
            allIndexes = (snd progress ++ pushed0)%list
            /\ forall idx, In idx pushed0 ->
                 Info.collection idx = name
                 /\ exists indexes0,
                      Ok indexes = Ok indexes0
                      /\ In (Info.index idx) indexes0).
  { exists pushed. split; [assumption|]. intros idx Hin.
    destruct (H6 idx Hin) as [Hc Hd]. split; [assumption|].
    now exists indexes. }
  destruct completed; cbv zeta; simpl.
  - split; [repeat split; assumption|]. split; [lia|]. split; [lia|].
    exact Hpushed.
  - split; [repeat split; assumption|]. split; [lia|]. split; [lia|].
    exact Hpushed.
Qed.

Lemma analyse_from (store : Store) (collections : list string) :
  forall progress,
    tallied progress ->
    let progress' := fold_left (analyseCollection store) collections progress in
    tallied progress'
    /\ (Totals.collectionsAnalyzed (fst progress')
        <= Totals.collectionsAnalyzed (fst progress)
           + List.length collections)%nat
    /\ exists pushed,
         snd progress' = (snd progress ++ pushed)%list
         /\ forall idx, In idx pushed -> described store collections idx.
Proof.
  induction collections as [|name collections IH]; intros progress Ht.
  - simpl. split; [assumption|]. split; [lia|].
    exists []. split; [now rewrite app_nil_r|]. intros idx [].
  - simpl.
    destruct (analyseCollection_spec store progress name Ht)
      as [H1 [H2 [_ [pushed1 [H3 H4]]]]].
    destruct (IH _ H1) as [I1 [I2 [pushed2 [I3 I4]]]].
    split; [exact I1|]. split; [lia|].
    exists (pushed1 ++ pushed2)%list. split.
    + rewrite I3, H3. now rewrite app_assoc.
    + intros idx Hin. apply in_app_iff in Hin as [Hin|Hin].
      * destruct (H4 idx Hin) as [Hc [indexes [Hi Hd]]].
        split; [left; now rewrite Hc|].
        exists indexes. now rewrite Hc.
      * destruct (I4 idx Hin) as [Hc Hd]. split; [now right|assumption].
Qed.

(** The answer of the statistics route when the collections are
    listed, and what holds of the indexes gone through. *)
Lemma statsRoute_answer (s : State) (store : Store) (db : Db)
    (collections : list string) :
  getDatabase s = Ok db ->
  listCollections store = Ok collections ->
  let totalStats := fst (analyse store collections) in
  let allIndexes := snd (analyse store collections) in
  statsRoute s store
  = IndexTotals
      (Totals.mk (Totals.totalIndexes totalStats)
                 (Totals.totalSize totalStats)
                 (Totals.collectionsAnalyzed totalStats)
                 (Totals.indexTypes totalStats)
                 (map largeOf (firstn 10 (sort allIndexes)))
                 (generateIndexRecommendations (sort allIndexes)))
  /\ tallied (analyse store collections)
  /\ (Totals.collectionsAnalyzed totalStats <= List.length collections)%nat
  /\ forall idx, In idx allIndexes -> described store collections idx.
Proof.
  intros Hdb Hlist.
  unfold IndexRoutes.statsRoute. rewrite Hdb, Hlist.
  destruct (analyse_from store collections (noTotals, []))
    as [H1 [H4 [pushed [H5 H6]]]].
  { repeat split; simpl; [lia|constructor]. }
  fold (analyse store collections) in H1, H4, H5.
  destruct (analyse store collections) as [totalStats allIndexes].
  simpl in H4, H5. subst pushed. cbv zeta. cbn [fst snd].
  split; [reflexivity|]. split; [exact H1|]. split; [lia|exact H6].
Qed.

(** X25.  The statistics on the indexes answer 500 only when no
    database is held or the collections cannot be listed.  In the
    answer the total is the number of the indexes gone through, each of
    them the description of an index of a listed collection of the
    server under the name of that collection; the types tallied are
    distinct and their counts sum to the total at most; no more
    collections are analysed than are listed; and the largest indexes
    are the first ten, or all, of the sorted indexes. *)
Theorem statsRoute_totals :
  forall s store db collections,
    getDatabase s = Ok db ->
    listCollections store = Ok collections ->
    exists totalStats,
      statsRoute s store = IndexTotals totalStats
      /\ let allIndexes := snd (analyse store collections) in
         Totals.totalIndexes totalStats = List.length allIndexes
         /\ (forall idx, In idx allIndexes -> described store collections idx)
         /\ NoDup (map fst (Totals.indexTypes totalStats))
         /\ (list_sum (map snd (Totals.indexTypes totalStats))
             <= Totals.totalIndexes totalStats)%nat
         /\ (Totals.collectionsAnalyzed totalStats
             <= List.length collections)%nat
         /\ Totals.largestIndexes totalStats
            = map largeOf (firstn 10 (sort allIndexes))
         /\ List.length (Totals.largestIndexes totalStats)
            = Nat.min 10 (Totals.totalIndexes totalStats)
         /\ (forall large,
               In large (Totals.largestIndexes totalStats) ->
               exists idx, In idx allIndexes /\ large = largeOf idx)
         /\ Totals.recommendations totalStats
            = generateIndexRecommendations (sort allIndexes).
Proof.
  intros s store db collections Hdb Hlist.
  destruct (statsRoute_answer s store db collections Hdb Hlist)
    as [E [[H1 [H2 H3]] [H4 H6]]].
  eexists. split; [exact E|].
  cbn [Totals.totalIndexes Totals.indexTypes Totals.collectionsAnalyzed
       Totals.largestIndexes Totals.recommendations].
  set (allIndexes := snd (analyse store collections)) in *.
  split; [exact H1|]. split; [exact H6|]. split; [exact H3|].
  split; [exact H2|]. split; [exact H4|]. split; [reflexivity|]. split.
  - rewrite length_map, length_firstn,
      (Permutation_length (sort_permutes allIndexes)). now rewrite H1.
  - split; [|reflexivity].
    intros large Hin. apply in_map_iff in Hin as [idx [<- Hin]].
    exists idx. split; [|reflexivity].
    apply (Permutation_in _ (sort_permutes allIndexes)).
    rewrite <- (firstn_skipn 10 (sort allIndexes)).
    apply in_or_app. now left.
Qed.

(** X26.  The statistics route hands the descriptions of the driver to
    the recommendations as they are, and [accesses] is not read: when
    no description carries a [usage] field, every index gone through
    that is not named [_id_] is reported unused, whatever its accesses,
    and the count of the unused ones is their number. *)
Theorem statsRoute_reports_every_index_unused :
  forall s store db collections,
    getDatabase s = Ok db ->
    listCollections store = Ok collections ->
    (forall name indexes index,
       indexesOf store name = Ok indexes -> In index indexes ->
       Described.usage index = None) ->
    exists totalStats,
      statsRoute s store = IndexTotals totalStats
      /\ let allIndexes := snd (analyse store collections) in
         let custom :=
           filter (fun idx => notDefault (Described.name (Info.index idx)))
                  allIndexes in
         (forall a,
            In a (Totals.recommendations totalStats) ->
            Advice.type a = "unused_indexes" ->
            Advice.count a = List.length custom
            /\ forall idx, In idx custom ->
                 exists brief,
                   Advice.indexes a = Some brief /\ In (briefOf idx) brief)
         /\ (custom <> [] ->
             exists a,
               In a (Totals.recommendations totalStats)
               /\ Advice.type a = "unused_indexes").
Proof.
  intros s store db collections Hdb Hlist Hnone.
  destruct (statsRoute_answer s store db collections Hdb Hlist)
    as [E [_ [_ Hdesc]]].
  eexists. split; [exact E|]. cbv zeta.
  cbn [Totals.recommendations].
  set (allIndexes := snd (analyse store collections)) in *.
  assert (Hunused : forall idx, In idx (sort allIndexes) ->
            isUnused idx = notDefault (Described.name (Info.index idx))).
  { intros idx Hin.
    apply (Permutation_in _ (sort_permutes allIndexes)) in Hin.
    destruct (Hdesc idx Hin) as [_ [indexes [Hi Hd]]].
    unfold isUnused, usageOps. rewrite (Hnone _ _ _ Hi Hd). simpl.
    apply andb_true_r. }
  assert (Hfilter : filter isUnused (sort allIndexes)
                    = filter (fun idx =>
                                notDefault (Described.name (Info.index idx)))
                             (sort allIndexes)).
  { now apply filter_ext_in. }
  assert (Hperm : Permutation
                    (filter (fun idx =>
                               notDefault (Described.name (Info.index idx)))
                            (sort allIndexes))
                    (filter (fun idx =>
                               notDefault (Described.name (Info.index idx)))
                            allIndexes)).
  { clear - sort_permutes. generalize (sort_permutes allIndexes).
    generalize (sort allIndexes) as l. generalize allIndexes as l'.
    intros l' l H.
    induction H as [|x l1 l2 H IH|x y l1|l1 l2 l3 H1 IH1 H2 IH2]; simpl.
    - constructor.
    - destruct (notDefault _); [now constructor|assumption].
    - destruct (notDefault (Described.name (Info.index x))),
        (notDefault (Described.name (Info.index y)));
        try apply Permutation_refl. apply perm_swap.
    - eapply Permutation_trans; eassumption. }
  split.
  - intros a Hin Htype.
    rewrite (IndexAdvice.unused_advice_is _ _ Hin Htype). simpl.
    split.
    + rewrite Hfilter. now apply Permutation_length.
    + intros idx Hidx. eexists. split; [reflexivity|].
      apply in_map. rewrite Hfilter.
      apply (Permutation_in _ (Permutation_sym Hperm)). exact Hidx.
  - intros Hcustom.
    exists (unusedAdvice (filter isUnused (sort allIndexes))).
    split; [|reflexivity].
    apply IndexAdvice.unused_advice_given.
    rewrite <- IndexAdvice.filter_nonempty, Hfilter.
    rewrite (Permutation_length Hperm). apply Nat.ltb_lt.
    destruct (filter _ allIndexes); [contradiction|simpl; lia].
Qed.

End Statistics.

Lemma sortBySize_permutes (l : list Info.t) :
  Permutation (IndexSamples.sortBySize l) l.
Proof.
  assert (Hins : forall x sorted,
            Permutation (IndexSamples.insertBySize x sorted) (x :: sorted)).
  { intros x sorted. induction sorted as [|y rest IH]; simpl.
    - apply Permutation_refl.
    - destruct (PrimFloat.ltb 0 _); [|apply Permutation_refl].
      eapply Permutation_trans; [apply perm_skip, IH|apply perm_swap]. }
  induction l as [|x l IH]; simpl; [constructor|].
  eapply Permutation_trans; [apply Hins|now constructor].
Qed.

Lemma statsRoute_totals_witness :
  exists totalStats,
    IndexRoutes.statsRoute unit IndexSamples.twoCollections
      IndexSamples.twoNames IndexSamples.someStats IndexSamples.sortBySize
      IndexSamples.held tt
    = IndexTotals totalStats
    /\ Totals.totalIndexes totalStats = 3%nat
    /\ (Totals.collectionsAnalyzed totalStats <= 3)%nat.
Proof.
  destruct (statsRoute_totals unit IndexSamples.twoCollections
              IndexSamples.twoNames IndexSamples.someStats
              IndexSamples.sortBySize sortBySize_permutes
              IndexSamples.held tt _ _ eq_refl eq_refl)
    as [totalStats [E [Hn [_ [_ [_ [Hc _]]]]]]].
  exists totalStats. split; [exact E|]. split; [exact Hn|exact Hc].
Defined.

Lemma statsRoute_reports_every_index_unused_witness :
  exists totalStats a,
    IndexRoutes.statsRoute unit IndexSamples.twoCollections
      IndexSamples.twoNames IndexSamples.someStats IndexSamples.sortBySize
      IndexSamples.held tt
    = IndexTotals totalStats
    /\ In a (Totals.recommendations totalStats)
    /\ Advice.type a = "unused_indexes".
Proof.
  destruct (statsRoute_reports_every_index_unused unit
              IndexSamples.twoCollections IndexSamples.twoNames
              IndexSamples.someStats IndexSamples.sortBySize
              sortBySize_permutes IndexSamples.held tt _ _ eq_refl eq_refl)
    as [totalStats [E [_ H]]].
  - intros name indexes index Hi Hin. unfold IndexSamples.twoCollections in Hi.
    destruct (String.eqb name "orders").
    + injection Hi as <-. simpl in Hin.
      destruct Hin as [<-|[<-|[]]]; reflexivity.
    + destruct (String.eqb name "users"); [|discriminate].
      injection Hi as <-. simpl in Hin. destruct Hin as [<-|[]]. reflexivity.
  - destruct H as [a [Hin Ht]]; [vm_compute; discriminate|].
    exists totalStats, a. split; [exact E|]. split; [exact Hin|exact Ht].
Defined.

End IndexTotals.

(* ================================================================== *)
(** ** The efficiency of a group of operations *)
(* ================================================================== *)

Module Groups.
Import JS Profiler Analytics GroupNotions NumberFacts OrderFacts.
Local Open Scope float_scope.

(** A zero stays a zero when divided by a number above 0, and when
    multiplied by 100. *)
Lemma zero_ratio (r e : float) :
  (r =? 0) = true -> (0 <? e) = true ->
  exists s, Prim2SF ((r / e) * 100) = S754_zero s.
Proof.
  rewrite eqb_spec, ltb_spec, mul_spec, div_spec.
  change (Prim2SF 0) with (S754_zero false).
  change (Prim2SF 100) with (S754_finite false 7036874417766400 (-46)).
  unfold SFeqb, SFltb. intros Hr He.
  destruct (Prim2SF r) as [s|s| |s m ex];
    try (destruct s; simpl in Hr; discriminate); try discriminate.
  destruct (Prim2SF e) as [s'|s'| |s' m' e'];
    try (destruct s'; simpl in He; discriminate); try discriminate.
  - destruct s'; [simpl in He; discriminate|]. simpl. now eexists.
  - destruct s'; [simpl in He; discriminate|]. simpl. now eexists.
Qed.

Lemma Math_round_zero (x : float) (s : bool) :
  Prim2SF x = S754_zero s -> Math_round x = x.
Proof. unfold Math_round. now intros ->. Qed.

Lemma zero_eqb (x : float) (s : bool) :
  Prim2SF x = S754_zero s -> (x =? 0) = true.
Proof.
  intros H. rewrite eqb_spec, H. now destruct s.
Qed.

(** X27.  The efficiency reported for a trend bucket, a collection or a
    period is the efficiency of the explain route on the averages:
    for a group whose average of examined documents is not negative and
    whose average of returned documents is a number or [null], it is what
    [calculateEfficiency] gives for a summary with these two counters
    and an operation that recorded none, up to the sign of a zero.  It is
    100 when nothing was examined. *)
Theorem groupEfficiency_is_explain_efficiency :
  forall examined returned queryPlanner serverInfo millis keys stages doc,
    (number examined <? 0) = false ->
    (number returned =? number returned) = true ->
    Doc.docsExamined doc = None -> Doc.docsReturned doc = None ->
    alike (groupEfficiency examined returned)
          (calculateEfficiency
             (mkExplainResult queryPlanner
                (Some (mkExecutionStats millis keys examined returned stages))
                serverInfo)
             doc)
    /\ ((0 <? number examined) = false ->
        groupEfficiency examined returned = 100%float).
Proof.
  intros examined returned queryPlanner serverInfo millis keys stages doc
         Hneg Hnan Hde Hdr.
  unfold groupEfficiency, calculateEfficiency, stats_or_empty.
  cbn [executionStats totalDocsExamined totalDocsReturned].
  rewrite Hde, Hdr.
  split; [|now intros ->].
  destruct (0 <? number examined) eqn:Epos.
  - (* something was examined *)
    assert (He : exists e, examined = Some e /\ truthy_float e = true).
    { destruct examined as [e|]; [|discriminate]. exists e.
      split; [reflexivity|]. simpl in Epos. unfold truthy_float.
      apply ltb_not_nan in Epos as Hn. destruct Hn as [_ Hn]. rewrite Hn.
      simpl. destruct (e =? 0) eqn:E0; [|reflexivity].
      rewrite ltb_spec in Epos. rewrite eqb_spec in E0.
      change (Prim2SF 0) with (S754_zero false) in *.
      unfold SFltb, SFeqb in *.
      destruct (Prim2SF e) as [s|s| |s m ex]; simpl in *;
        try discriminate; destruct s; discriminate. }
    destruct He as [e [-> He]]. cbn [number] in Epos |- *.
    assert (Hx : or_zero (or_num (Some e) None) = e).
    { unfold or_num. simpl. rewrite He. simpl. now rewrite He. }
    rewrite Hx.
    destruct (truthy_float_not_nan e He) as [_ E0]. rewrite E0.
    destruct returned as [r|]; cbn [number] in Hnan |- *.
    + destruct (truthy_float r) eqn:Er.
      * assert (Hy : or_zero (or_num (Some r) None) = r).
        { unfold or_num. simpl. rewrite Er. simpl. now rewrite Er. }
        rewrite Hy. destruct (truthy_float_not_nan r Er) as [_ R0].
        rewrite R0. now left.
      * assert (Hy : or_zero (or_num (Some r) None) = 0%float).
        { unfold or_num. simpl. now rewrite Er. }
        rewrite Hy. change (0 =? 0) with true. cbv iota.
        assert (R0 : (r =? 0) = true).
        { unfold truthy_float in Er. rewrite Hnan in Er. simpl in Er.
          now apply negb_false_iff in Er. }
        destruct (zero_ratio r e R0 Epos) as [s Hs].
        rewrite (Math_round_zero _ s Hs). right.
        split; [exact (zero_eqb _ s Hs)|reflexivity].
    + change (or_zero (or_num None None)) with 0%float.
      change (0 =? 0) with true. cbv iota.
      destruct (zero_ratio 0 e eq_refl Epos) as [s Hs].
      rewrite (Math_round_zero _ s Hs). right.
      split; [exact (zero_eqb _ s Hs)|reflexivity].
  - (* nothing was examined *)
    assert (Hz : or_zero (or_num examined None) = 0%float).
    { destruct examined as [e|]; [|reflexivity].
      simpl in Epos, Hneg. unfold or_num. simpl.
      destruct (truthy_float e) eqn:He; [|reflexivity]. exfalso.
      destruct (truthy_float_not_nan e He) as [Hn E0].
      rewrite ltb_spec in Epos, Hneg. rewrite eqb_spec in Hn, E0.
      change (Prim2SF 0) with (S754_zero false) in *.
      unfold SFltb, SFeqb in *.
      destruct (Prim2SF e) as [s|s| |s m ex]; simpl in *;
        try discriminate; destruct s; discriminate. }
    rewrite Hz. now left.
Qed.

Lemma groupEfficiency_is_explain_efficiency_witness :
  groupEfficiency (Some 0%float) (Some 3%float) = 100%float.
Proof.
  apply (proj2 (groupEfficiency_is_explain_efficiency
                  (Some 0%float) (Some 3%float) None None None None None
                  (Doc.mk None VUndefined None None None None None None None
                          None VUndefined VUndefined VUndefined)
                  eq_refl eq_refl eq_refl eq_refl)).
  reflexivity.
Defined.

End Groups.

(* ================================================================== *)
(** ** The life of the process *)
(* ================================================================== *)

Module Process.
Import JS Profiler Database Lifecycle Notions.
Local Open Scope string_scope.

Lemma react_sound (p : Lifecycle.Process) (e : Event) :
  sound p -> sound (react p e).
Proof.
  unfold sound, react. destruct p as [[| |code] s server]; simpl.
  - intros ->. destruct e as [env outcome listens|closes|]; simpl; auto.
    unfold startServer. simpl.
    destruct outcome; simpl; auto.
    destruct listens; simpl; auto.
    split; [now eexists|]. split; [split; reflexivity|].
    unfold enableProfiling. simpl.
    destruct (mayProfile server) eqn:Em; [|congruence].
    destruct (level server =? 0)%Z eqn:El; simpl.
    + intros _. discriminate.
    + intros _. now apply Z.eqb_neq.
  - intros H. destruct e; simpl; auto.
  - intros _. destruct e; simpl; auto.
Qed.

Lemma life_sound (events : list Event) (p : Lifecycle.Process) :
  sound p -> sound (fold_left react events p).
Proof.
  revert p. induction events as [|e events IH]; intros p H; simpl;
    [assumption|].
  apply IH. now apply react_sound.
Qed.

(** X28.  Requests are served only with a database: whatever happens to
    the process, while it is serving [getDatabase] returns a handle,
    held together with its client and under the name read from the URI;
    and when the user may set the profiling level, the level left by
    the process is not 0.  A process that has ended stays as it is, with
    code 0 or 1; a process that is still starting has touched neither
    the connection nor the profiling. *)
Theorem serving_process_holds_a_database :
  forall events server,
    let p := life events server in
    (phase p = Serving ->
       (exists handle, getDatabase (connection p) = Ok handle)
       /\ consistent (connection p)
       /\ (mayProfile (profiled p) = true -> level (profiled p) <> 0%Z))
    /\ (forall more code,
          phase p = Exited code ->
          fold_left react more p = p /\ (code = 0%Z \/ code = 1%Z))
    /\ (phase p = Starting -> connection p = initial /\ profiled p = server).
Proof.
  intros events server p. subst p. unfold life.
  assert (Hsound := life_sound events (launched server) eq_refl).
  split; [|split].
  - intros Hphase. unfold sound in Hsound. rewrite Hphase in Hsound.
    destruct Hsound as [[handle Hdb] [Hc Hp]].
    split; [|split; assumption].
    exists handle. unfold getDatabase. now rewrite Hdb.
  - intros more code Hphase. split.
    + generalize dependent (fold_left react events (launched server)).
      intros p _ Hphase.
      induction more as [|e more IH]; simpl; [reflexivity|].
      assert (E : react p e = p).
      { unfold react. rewrite Hphase. now destruct e. }
      now rewrite E.
    + clear Hsound. revert Hphase.
      assert (H : forall p,
                (forall c, phase p = Exited c -> c = 0%Z \/ c = 1%Z) ->
                forall c, phase (fold_left react events p) = Exited c ->
                          c = 0%Z \/ c = 1%Z).
      { induction events as [|e events IH]; intros p Hp c; simpl;
          [apply Hp|].
        apply IH. intros c'. unfold react.
        destruct (phase p) eqn:Ep; destruct e; simpl;
          try (rewrite Ep; apply Hp);
          try (intros E; injection E as <-; now left).
        unfold startServer.
        destruct (connectToDatabase env outcome (connection p) (profiled p))
          as [[s' server'] [handle|message]]; simpl.
        - destruct listens; [discriminate|].
          intros E; injection E as <-. now right.
        - intros E; injection E as <-. now right. }
      apply H. intros c E. discriminate.
  - clear Hsound.
    assert (H : forall p,
              phase (fold_left react events p) = Starting ->
              fold_left react events p = p).
    { induction events as [|e events IH]; intros p Hp; simpl in *;
        [reflexivity|].
      assert (Hs : phase (react p e) = Starting).
      { rewrite <- (IH _ Hp). exact Hp. }
      rewrite (IH _ Hp).
      unfold react in *. destruct (phase p) eqn:Ep; destruct e; simpl in *;
        try reflexivity; try discriminate.
      unfold startServer in *.
      destruct (connectToDatabase env outcome (connection p) (profiled p))
        as [[s' server'] [handle|message]]; simpl in *;
        [destruct listens|]; discriminate. }
    intros Hp. rewrite (H _ Hp). split; reflexivity.
Qed.

Lemma serving_process_holds_a_database_witness :
  exists handle,
    getDatabase
      (connection (life [Boot (Some "mongodb://db.example:27017/shop")
                              Connected true; Request]
                        (mkServer 0 100 true)))
    = Ok handle.
Proof.
  exact (proj1 (proj1 (serving_process_holds_a_database
                         [Boot (Some "mongodb://db.example:27017/shop")
                               Connected true; Request]
                         (mkServer 0 100 true)) eq_refl)).
Defined.

End Process.
